(** * MobiERP: the cost-layer inventory engine

    A shallow embedding of the PL/pgSQL functions and triggers of
    [add-fifo-lifo-support.sql] (lot ledger, cost computation, allocation on
    sale), of [calculate_inventory_value] from
    [add-inventory-valuation-methods.sql], and of the client-side
    [updateProductStock] of [services/supabase-db.ts].

    Conventions of the embedding.
    - A table is the list of its rows; a row is a record with the columns the
      modelled code reads or writes.
    - [UUID] keys are integers compared the way PostgreSQL compares uuids (as
      unsigned numbers); [TIMESTAMPTZ] values are integers (microseconds).
      The values the server draws while a statement runs,
      [uuid_generate_v4()] and [NOW()], are passed in as a [server] record.
    - [INTEGER] columns are [Z].  [DECIMAL(10,2)] amounts are [Z] counted in
      hundredths, so that the scale of the type is exact; an unrounded
      [numeric] is a rational [Q].  Assigning a [numeric] to a
      [DECIMAL(10,2)] variable or column rounds it half away from zero to two
      places, as PostgreSQL does.  The precision bound of [DECIMAL(10,2)]
      is checked where the code computes an amount into a variable of that
      type ([decimal_10_2], in [calculate_sale_cost]); the amounts stored in
      the tables are taken to lie within it.  The 32-bit range of [INTEGER]
      is left out (PostgreSQL raises an error beyond it, it never wraps), and
      a [numeric] quotient is taken exactly, where PostgreSQL keeps at least
      sixteen significant digits.
    - [RAISE EXCEPTION] and constraint violations are values of [pg_error];
      a statement that raises leaves the database as it was ([run]).
    - Foreign keys into tables the modelled code does not touch ([sales],
      [users], [categories]) are left out, with those tables. *)

From Stdlib Require Import ZArith QArith List String Bool Lia.
From Stdlib Require Import Permutation Sorted.
Import ListNotations.

Local Open Scope string_scope.
Local Open Scope list_scope.
Local Open Scope Z_scope.

(** ** Errors and the error monad *)

Inductive pg_error : Type :=
| product_not_found (product_id : Z)
    (* RAISE EXCEPTION 'Product not found: %' *)
| insufficient_stock (product_id available required : Z)
    (* RAISE EXCEPTION 'Insufficient stock for product % ...' *)
| insufficient_inventory_to_allocate (missing : Z)
    (* RAISE EXCEPTION 'Insufficient inventory to allocate. Missing: % units' *)
| cannot_add_zero_or_negative_stock
    (* RAISE EXCEPTION 'Cannot add zero or negative stock' *)
| product_not_found_or_inactive (product_id : Z)
| check_violation (constraint : string)
| unique_violation (constraint : string)
| division_by_zero
| numeric_field_overflow
    (* ERROR: numeric field overflow: a value that does not fit DECIMAL(10,2) *)
| function_not_found (name : string).

Inductive result (A : Type) : Type :=
| Ok (a : A)
| Raise (e : pg_error).

Arguments Ok {A} a.
Arguments Raise {A} e.

Definition bind {A B : Type} (c : result A) (k : A -> result B) : result B :=
  match c with
  | Ok a => k a
  | Raise e => Raise e
  end.

Notation "x <- c ;; k" := (bind c (fun x => k))
  (at level 61, c at next level, right associativity).
Notation "' p <- c ;; k" := (bind c (fun x => let p := x in k))
  (at level 61, p pattern, c at next level, right associativity).

Definition check (b : bool) (e : pg_error) : result unit :=
  if b then Ok tt else Raise e.

(** ** Amounts *)

(** An amount of type [DECIMAL(_,2)], in hundredths. *)
Definition decimal2 := Z.

Definition numeric_of_decimal2 (c : decimal2) : Q := c # 100.

(** Rounding of a rational to the nearest integer, ties away from zero
    (PostgreSQL's [round] on [numeric]; round-half-up on amounts that are
    not negative). *)
Definition round_half_away (x : Q) : Z :=
  let n := Qnum x in
  let d := Z.pos (Qden x) in
  Z.sgn n * ((2 * Z.abs n + d) / (2 * d)).

(** The rounding of a [numeric] to two places: [ROUND(x, 2)], and the
    first half of a cast to [DECIMAL(10,2)]. *)
Definition to_decimal2 (x : Q) : decimal2 := round_half_away (x * 100).

(** The second half of the cast, the precision of [DECIMAL(10,2)]: a rounded
    amount of absolute value 10^8 or more, 10^10 hundredths, raises 'numeric
    field overflow'.  This is what assigning to the variable
    [v_total_cost DECIMAL(10,2)] checks. *)
Definition decimal_10_2 (c : decimal2) : result decimal2 :=
  if Z.abs c <? 10000000000 then Ok c else Raise numeric_field_overflow.

(** ** Tables *)

Record inventory_purchase : Type := mk_purchase {
  ip_id : Z;
  ip_product_id : Z;
  ip_quantity : Z;             (* INTEGER NOT NULL CHECK (quantity > 0) *)
  ip_unit_cost : decimal2;     (* DECIMAL(10,2) NOT NULL CHECK (unit_cost >= 0) *)
  ip_remaining_quantity : Z;   (* INTEGER NOT NULL CHECK (remaining_quantity >= 0) *)
  ip_purchased_at : Z;
  ip_purchased_by : option Z;
  ip_notes : string
}.

Record product : Type := mk_product {
  p_id : Z;
  p_cost : decimal2;           (* DECIMAL(10,2) NOT NULL CHECK (cost >= 0) *)
  p_stock : Z;                 (* INTEGER NOT NULL CHECK (stock >= 0) *)
  p_is_active : bool;
  p_created_at : Z
}.

Record sale_item : Type := mk_sale_item {
  si_id : Z;
  si_sale_id : Z;
  si_product_id : Z;
  si_quantity : Z;             (* INTEGER NOT NULL CHECK (quantity > 0) *)
  si_unit_price : decimal2;
  si_cost_price : decimal2;
  si_subtotal : decimal2
}.

Record system_setting : Type := mk_setting {
  setting_key : string;
  setting_value : string
}.

Record db : Type := mk_db {
  products : list product;
  inventory_purchases : list inventory_purchase;
  sale_items : list sale_item;
  system_settings : list system_setting
}.

(** What the server generates while one statement runs. *)
Record server : Type := mk_server {
  uuid_generate_v4 : Z;
  now : Z
}.

Definition with_products (d : db) (ps : list product) : db :=
  mk_db ps (inventory_purchases d) (sale_items d) (system_settings d).

Definition with_inventory_purchases (d : db) (ls : list inventory_purchase) : db :=
  mk_db (products d) ls (sale_items d) (system_settings d).

Definition with_sale_items (d : db) (ss : list sale_item) : db :=
  mk_db (products d) (inventory_purchases d) ss (system_settings d).

Definition with_system_settings (d : db) (ss : list system_setting) : db :=
  mk_db (products d) (inventory_purchases d) (sale_items d) ss.

(** A statement is atomic: when it raises, nothing of it remains. *)
Definition run (stmt : db -> result db) (d : db) : db * option pg_error :=
  match stmt d with
  | Ok d' => (d', None)
  | Raise e => (d, Some e)
  end.

(** ** The lot ledger: constraints and single-row writes *)

(** The CHECK constraints of [inventory_purchases]. *)
Definition purchase_checks (l : inventory_purchase) : result unit :=
  _ <- check (0 <? ip_quantity l) (check_violation "inventory_purchases_quantity_check") ;;
  _ <- check (0 <=? ip_unit_cost l) (check_violation "inventory_purchases_unit_cost_check") ;;
  _ <- check (0 <=? ip_remaining_quantity l)
         (check_violation "inventory_purchases_remaining_quantity_check") ;;
  check (ip_remaining_quantity l <=? ip_quantity l) (check_violation "valid_remaining").

Definition has_purchase_id (i : Z) (tbl : list inventory_purchase) : bool :=
  existsb (fun l => ip_id l =? i) tbl.

(** [INSERT INTO inventory_purchases ... VALUES ...] of one row. *)
Definition insert_inventory_purchase (l : inventory_purchase) (d : db) : result db :=
  _ <- purchase_checks l ;;
  _ <- check (negb (has_purchase_id (ip_id l) (inventory_purchases d)))
         (unique_violation "inventory_purchases_pkey") ;;
  Ok (with_inventory_purchases d (inventory_purchases d ++ [l])).

Definition set_remaining_quantity (l : inventory_purchase) (r : Z) : inventory_purchase :=
  mk_purchase (ip_id l) (ip_product_id l) (ip_quantity l) (ip_unit_cost l) r
              (ip_purchased_at l) (ip_purchased_by l) (ip_notes l).

(** [UPDATE inventory_purchases
     SET remaining_quantity = remaining_quantity - v_allocated
     WHERE id = v_id], row by row, each new row checked. *)
Fixpoint update_remaining (tbl : list inventory_purchase) (v_id v_allocated : Z)
  : result (list inventory_purchase) :=
  match tbl with
  | [] => Ok []
  | l :: rest =>
      l' <- (if ip_id l =? v_id
             then let n := set_remaining_quantity l (ip_remaining_quantity l - v_allocated) in
                  _ <- purchase_checks n ;; Ok n
             else Ok l) ;;
      rest' <- update_remaining rest v_id v_allocated ;;
      Ok (l' :: rest')
  end.

(** ** [ORDER BY] *)

Section OrderBy.
Context {A : Type} (leb : A -> A -> bool).

Fixpoint insert_by (x : A) (l : list A) : list A :=
  match l with
  | [] => [x]
  | y :: t => if leb x y then x :: l else y :: insert_by x t
  end.

Definition order_by (l : list A) : list A := fold_right insert_by [] l.
End OrderBy.

(** [ORDER BY purchased_at ASC, id ASC]: does row [a] come no later than [b]? *)
Definition purchased_at_asc_id_asc (a b : inventory_purchase) : bool :=
  (ip_purchased_at a <? ip_purchased_at b)
  || ((ip_purchased_at a =? ip_purchased_at b) && (ip_id a <=? ip_id b)).

(** [ORDER BY purchased_at DESC, id DESC]. *)
Definition purchased_at_desc_id_desc (a b : inventory_purchase) : bool :=
  (ip_purchased_at b <? ip_purchased_at a)
  || ((ip_purchased_at b =? ip_purchased_at a) && (ip_id b <=? ip_id a)).

(** [WHERE product_id = p_product_id AND remaining_quantity > 0]. *)
Definition unconsumed (p_product_id : Z) (l : inventory_purchase) : bool :=
  (ip_product_id l =? p_product_id) && (0 <? ip_remaining_quantity l).

(** The query of the FIFO (and AVERAGE) loops. *)
Definition select_oldest_first (p_product_id : Z) (tbl : list inventory_purchase)
  : list inventory_purchase :=
  order_by purchased_at_asc_id_asc (filter (unconsumed p_product_id) tbl).

(** The query of the LIFO loops. *)
Definition select_newest_first (p_product_id : Z) (tbl : list inventory_purchase)
  : list inventory_purchase :=
  order_by purchased_at_desc_id_desc (filter (unconsumed p_product_id) tbl).

(** ** [get_inventory_costing_method] *)

Definition setting (key : string) (d : db) : option string :=
  option_map setting_value
    (find (fun s => String.eqb (setting_key s) key) (system_settings d)).

Definition get_inventory_costing_method (d : db) : string :=
  match setting "inventory_costing_method" d with
  | Some v_method => v_method
  | None => "FIFO"                      (* COALESCE(v_method, 'FIFO') *)
  end.

(** ** [calculate_sale_cost] *)

Definition sum_Z (l : list Z) : Z := fold_right Z.add 0 l.

(** The body shared by the FIFO and the LIFO [FOR ... LOOP] of
    [calculate_sale_cost]; [rows] is the result of the loop's query. *)
Fixpoint cost_loop (rows : list inventory_purchase)
    (v_total_cost : decimal2) (v_remaining_to_allocate : Z) : result decimal2 :=
  match rows with
  | [] => Ok v_total_cost
  | v_purchase :: rest =>
      let v_allocated := Z.min (ip_remaining_quantity v_purchase) v_remaining_to_allocate in
      v_total_cost <- decimal_10_2 (v_total_cost + v_allocated * ip_unit_cost v_purchase) ;;
      let v_remaining_to_allocate := v_remaining_to_allocate - v_allocated in
      if v_remaining_to_allocate =? 0          (* EXIT WHEN v_remaining_to_allocate = 0 *)
      then Ok v_total_cost
      else cost_loop rest v_total_cost v_remaining_to_allocate
  end.

(** [COALESCE(SUM(remaining_quantity * unit_cost)
              / NULLIF(SUM(remaining_quantity), 0), 0)] over [rows]. *)
Definition weighted_average (rows : list inventory_purchase) : Q :=
  match rows with
  | [] => 0%Q                                     (* both sums are NULL *)
  | _ =>
      let value := sum_Z (map (fun l => ip_remaining_quantity l * ip_unit_cost l) rows) in
      let total := sum_Z (map ip_remaining_quantity rows) in
      if total =? 0 then 0%Q                      (* NULLIF gives NULL *)
      else (numeric_of_decimal2 value / inject_Z total)%Q
  end.

Definition calculate_sale_cost (d : db) (p_product_id p_quantity : Z)
  : result decimal2 :=
  let v_method := get_inventory_costing_method d in
  v_total_cost <-
    (if String.eqb v_method "FIFO" then
       cost_loop (select_oldest_first p_product_id (inventory_purchases d)) 0 p_quantity
     else if String.eqb v_method "LIFO" then
       cost_loop (select_newest_first p_product_id (inventory_purchases d)) 0 p_quantity
     else
       (* AVERAGE or fallback: SELECT ... INTO v_total_cost casts to DECIMAL(10,2) *)
       v_total_cost <-
         decimal_10_2
           (to_decimal2
              (weighted_average
                 (filter (unconsumed p_product_id) (inventory_purchases d)))) ;;
       decimal_10_2 (v_total_cost * p_quantity)) ;;
  Ok (to_decimal2 (numeric_of_decimal2 v_total_cost)).  (* RETURN ROUND(v_total_cost, 2) *)

(** ** [allocate_inventory_on_sale] *)

(** The loop body, the same in the three branches.  The rows are those the
    query returned when the loop started; the table is updated as it goes. *)
Fixpoint allocate_loop (rows : list inventory_purchase)
    (tbl : list inventory_purchase) (v_remaining_to_allocate : Z)
  : result (list inventory_purchase * Z) :=
  match rows with
  | [] => Ok (tbl, v_remaining_to_allocate)
  | v_purchase :: rest =>
      let v_allocated := Z.min (ip_remaining_quantity v_purchase) v_remaining_to_allocate in
      tbl <- update_remaining tbl (ip_id v_purchase) v_allocated ;;
      let v_remaining_to_allocate := v_remaining_to_allocate - v_allocated in
      if v_remaining_to_allocate =? 0
      then Ok (tbl, v_remaining_to_allocate)
      else allocate_loop rest tbl v_remaining_to_allocate
  end.

Definition allocate_inventory_on_sale (p_product_id p_quantity : Z) (d : db) : result db :=
  let v_method := get_inventory_costing_method d in
  let tbl := inventory_purchases d in
  let rows :=
    if String.eqb v_method "FIFO" then select_oldest_first p_product_id tbl
    else if String.eqb v_method "LIFO" then select_newest_first p_product_id tbl
    else select_oldest_first p_product_id tbl in
  '(tbl, v_remaining_to_allocate) <- allocate_loop rows tbl p_quantity ;;
  (* Verify we allocated everything *)
  if 0 <? v_remaining_to_allocate
  then Raise (insufficient_inventory_to_allocate v_remaining_to_allocate)
  else Ok (with_inventory_purchases d tbl).

(** ** Triggers on [products] *)

Definition has_product_id (i : Z) (tbl : list product) : bool :=
  existsb (fun p => p_id p =? i) tbl.

Definition find_product (i : Z) (d : db) : option product :=
  find (fun p => p_id p =? i) (products d).

Definition set_stock (p : product) (s : Z) : product :=
  mk_product (p_id p) (p_cost p) s (p_is_active p) (p_created_at p).

(** [record_initial_inventory_purchase], AFTER INSERT ON products. *)
Definition record_initial_inventory_purchase (sv : server) (NEW : product) (d : db)
  : result db :=
  if 0 <? p_stock NEW then
    insert_inventory_purchase
      (mk_purchase (uuid_generate_v4 sv) (p_id NEW) (p_stock NEW) (p_cost NEW)
                   (p_stock NEW) (p_created_at NEW) None
                   "Initial inventory - product created") d
  else Ok d.

(** [record_inventory_purchase], AFTER UPDATE ON products
    WHEN (NEW.stock > OLD.stock). *)
Definition record_inventory_purchase (sv : server) (OLD NEW : product) (d : db)
  : result db :=
  if p_stock OLD <? p_stock NEW then
    let v_quantity_added := p_stock NEW - p_stock OLD in
    insert_inventory_purchase
      (mk_purchase (uuid_generate_v4 sv) (p_id NEW) v_quantity_added (p_cost NEW)
                   v_quantity_added (now sv) None
                   "Stock added via inventory update") d
  else Ok d.

(** [INSERT INTO products] of one row, with its constraints and trigger. *)
Definition insert_product (sv : server) (NEW : product) (d : db) : result db :=
  _ <- check (0 <=? p_cost NEW) (check_violation "products_cost_check") ;;
  _ <- check (0 <=? p_stock NEW) (check_violation "products_stock_check") ;;
  _ <- check (negb (has_product_id (p_id NEW) (products d)))
         (unique_violation "products_pkey") ;;
  record_initial_inventory_purchase sv NEW (with_products d (products d ++ [NEW])).

(** [UPDATE products SET stock = f(stock) WHERE id = v_id], with the CHECK on
    the new row and the stock-increase trigger. *)
Definition update_products_stock (sv : server) (v_id : Z) (f : Z -> Z) (d : db)
  : result db :=
  match find_product v_id d with
  | None => Ok d
  | Some OLD =>
      let NEW := set_stock OLD (f (p_stock OLD)) in
      _ <- check (0 <=? p_stock NEW) (check_violation "products_stock_check") ;;
      let rows :=
        map (fun p => if p_id p =? v_id then set_stock p (f (p_stock p)) else p)
            (products d) in
      record_inventory_purchase sv OLD NEW (with_products d rows)
  end.

(** ** [check_and_allocate_inventory], BEFORE INSERT ON sale_items *)

Definition set_cost_price (s : sale_item) (c : decimal2) : sale_item :=
  mk_sale_item (si_id s) (si_sale_id s) (si_product_id s) (si_quantity s)
               (si_unit_price s) c (si_subtotal s).

(** [v_calculated_cost / NEW.quantity], stored in the [DECIMAL(10,2)] column
    [cost_price]: the quotient is rounded to two places.  In absolute value
    it is no larger than [v_calculated_cost], which fits, so the cast only
    rounds (lemma [unit_cost_for_sale_fits]). *)
Definition unit_cost_for_sale (v_calculated_cost : decimal2) (quantity : Z) : decimal2 :=
  to_decimal2 (numeric_of_decimal2 v_calculated_cost / inject_Z quantity)%Q.

Definition check_and_allocate_inventory (sv : server) (NEW : sale_item) (d : db)
  : result (sale_item * db) :=
  match find_product (si_product_id NEW) d with
  | None => Raise (product_not_found (si_product_id NEW))
  | Some p =>
      let v_product_stock := p_stock p in
      _ <- check (negb (v_product_stock <? si_quantity NEW))
             (insufficient_stock (si_product_id NEW) v_product_stock (si_quantity NEW)) ;;
      v_calculated_cost <- calculate_sale_cost d (si_product_id NEW) (si_quantity NEW) ;;
      _ <- check (negb (si_quantity NEW =? 0)) division_by_zero ;;
      let NEW :=
        set_cost_price NEW (unit_cost_for_sale v_calculated_cost (si_quantity NEW)) in
      d <- allocate_inventory_on_sale (si_product_id NEW) (si_quantity NEW) d ;;
      d <- update_products_stock sv (si_product_id NEW)
             (fun stock => stock - si_quantity NEW) d ;;
      Ok (NEW, d)
  end.

Definition has_sale_item_id (i : Z) (tbl : list sale_item) : bool :=
  existsb (fun s => si_id s =? i) tbl.

(** The CHECK constraints of [sale_items]. *)
Definition sale_item_checks (s : sale_item) : result unit :=
  _ <- check (0 <? si_quantity s) (check_violation "sale_items_quantity_check") ;;
  _ <- check (0 <=? si_unit_price s) (check_violation "sale_items_unit_price_check") ;;
  _ <- check (0 <=? si_cost_price s) (check_violation "sale_items_cost_price_check") ;;
  check (0 <=? si_subtotal s) (check_violation "sale_items_subtotal_check").

(** [INSERT INTO sale_items] of one row: the BEFORE INSERT trigger, then the
    constraints on the row the trigger returned. *)
Definition insert_sale_item (sv : server) (NEW : sale_item) (d : db) : result db :=
  '(NEW, d) <- check_and_allocate_inventory sv NEW d ;;
  _ <- sale_item_checks NEW ;;
  _ <- check (negb (has_sale_item_id (si_id NEW) (sale_items d)))
         (unique_violation "sale_items_pkey") ;;
  Ok (with_sale_items d (sale_items d ++ [NEW])).

(** What [getSales] reads back as the [cost] of a sale line. *)
Definition recorded_cost (sale_item_id : Z) (d : db) : option decimal2 :=
  option_map si_cost_price (find (fun s => si_id s =? sale_item_id) (sale_items d)).

(** ** Restocking: [add_product_stock] and the client's [updateProductStock] *)

(** The RPC [add_product_stock(p_product_id, p_additional_stock, p_user_id)]
    of the restocking fix.  [sv] is what the server draws for the trigger
    that the UPDATE fires, [sv'] what it draws for the INSERT of the
    function itself. *)
Definition add_product_stock (sv sv' : server)
    (p_product_id p_additional_stock : Z) (p_user_id : option Z) (d : db) : result db :=
  _ <- check (0 <? p_additional_stock) cannot_add_zero_or_negative_stock ;;
  match find (fun p => (p_id p =? p_product_id) && p_is_active p) (products d) with
  | None => Raise (product_not_found_or_inactive p_product_id)
  | Some v_product =>
      d <- update_products_stock sv p_product_id
             (fun stock => stock + p_additional_stock) d ;;
      insert_inventory_purchase
        (mk_purchase (uuid_generate_v4 sv') p_product_id p_additional_stock
                     (p_cost v_product) p_additional_stock (now sv') p_user_id
                     "Stock added via inventory management") d
  end.

Inductive client_error : Type :=
| failed_to_fetch_product                    (* 'Failed to fetch product: ...' *)
| failed_to_update_stock (e : pg_error).     (* 'Failed to update stock: ...' *)

(** [updateProductStock(id, additionalStock)] of the client.  Every call to
    the database is a statement of its own: [sv_rpc] and [sv_rpc'],
    [sv_update] and [sv_insert] are what the server draws in each,
    [date_now] is the client's clock, [rpc_deployed] tells whether the
    database has the three-argument [add_product_stock].  The result is the
    database afterwards and the error thrown, if any. *)
Definition updateProductStock (rpc_deployed : bool)
    (sv_rpc sv_rpc' sv_update sv_insert : server) (date_now : Z) (user : option Z)
    (id additionalStock : Z) (d : db) : db * option client_error :=
  let rpc :=
    if rpc_deployed
    then run (add_product_stock sv_rpc sv_rpc' id additionalStock user) d
    else (d, Some (function_not_found "add_product_stock")) in
  match rpc with
  | (d, None) => (d, None)            (* 'Stock updated successfully via RPC' *)
  | (d, Some _) =>
      (* Manual fallback with inventory_purchases support *)
      match find_product id d with
      | None => (d, Some failed_to_fetch_product)
      | Some product =>
          match run (update_products_stock sv_update id
                       (fun _ => p_stock product + additionalStock)) d with
          | (d, Some updateError) => (d, Some (failed_to_update_stock updateError))
          | (d, None) =>
              (* Create inventory purchase record for FIFO/LIFO *)
              let '(d, purchaseError) :=
                run (insert_inventory_purchase
                       (mk_purchase (uuid_generate_v4 sv_insert) id additionalStock
                                    (p_cost product) additionalStock date_now user
                                    "Stock added via inventory management")) d in
              (* Don't throw - stock was updated successfully, just log the issue *)
              (d, None)
          end
      end
  end.

(** ** The policy switch *)

(** Modelled from the spec: [setPolicy(p)], the setter of the costing policy
    ([setInventoryMethod] of the client, which is not among the sources).  It
    is the [UPDATE system_settings SET setting_value = p WHERE setting_key =
    'inventory_costing_method'] that the sibling [setInventoryDisplayOrder]
    issues for its own key: effective immediately, touching nothing else. *)
Definition setInventoryMethod (p : string) (d : db) : db :=
  with_system_settings d
    (map (fun s =>
            if String.eqb (setting_key s) "inventory_costing_method"
            then mk_setting (setting_key s) p
            else s)
         (system_settings d)).

(** ** [calculate_inventory_value] *)

Definition get_inventory_valuation_method (d : db) : string :=
  match setting "inventory_valuation_method" d with
  | Some v_method => v_method
  | None => "FIFO"
  end.

Record inventory_value : Type := mk_inventory_value {
  iv_product_id : Z;
  iv_current_stock : Z;
  iv_valuation_cost : decimal2;
  iv_total_value : decimal2;
  iv_method_used : string
}.

(** [SUM(ip.quantity) OVER (PARTITION BY p.id ORDER BY ip.purchased_at ASC)]
    at row [r] of the partition [rows]: with the default window frame, the
    rows up to [r] and its peers. *)
Definition cumulative_qty_asc (rows : list inventory_purchase) (r : inventory_purchase) : Z :=
  sum_Z (map ip_quantity
           (filter (fun x => ip_purchased_at x <=? ip_purchased_at r) rows)).

(** The same [ORDER BY ip.purchased_at DESC]. *)
Definition cumulative_qty_desc (rows : list inventory_purchase) (r : inventory_purchase) : Z :=
  sum_Z (map ip_quantity
           (filter (fun x => ip_purchased_at r <=? ip_purchased_at x) rows)).

(** The [CASE] summed in [allocated_costs]. *)
Definition allocated_cost (current_qty cumulative_qty : Z) (r : inventory_purchase)
  : decimal2 :=
  if cumulative_qty <=? current_qty then ip_unit_cost r * ip_quantity r
  else if cumulative_qty - ip_quantity r <? current_qty
       then ip_unit_cost r * (current_qty - (cumulative_qty - ip_quantity r))
       else 0.

Definition purchases_of (p : product) (d : db) : list inventory_purchase :=
  filter (fun l => ip_product_id l =? p_id p) (inventory_purchases d).

(** One output row of the FIFO or LIFO branch, for a product that has
    purchases; [cumulative_qty] is the window sum of the branch. *)
Definition ranked_value
    (cumulative_qty : list inventory_purchase -> inventory_purchase -> Z)
    (method : string) (p : product) (d : db) : inventory_value :=
  let rows := purchases_of p d in
  let current_qty := p_stock p in
  let total_cost :=
    sum_Z (map (fun r => allocated_cost current_qty (cumulative_qty rows r) r) rows) in
  mk_inventory_value (p_id p) current_qty
    (if 0 <? current_qty
     then to_decimal2 (numeric_of_decimal2 total_cost / inject_Z current_qty)%Q
     else 0)
    (to_decimal2 (numeric_of_decimal2 total_cost))
    method.

(** One output row of the AVERAGE branch. *)
Definition average_value (p : product) (d : db) : inventory_value :=
  let rows := purchases_of p d in
  let value := sum_Z (map (fun r => ip_unit_cost r * ip_quantity r) rows) in
  let total := sum_Z (map ip_quantity rows) in
  let average : option Q :=
    match rows with
    | [] => None
    | _ => if total =? 0 then None
           else Some (numeric_of_decimal2 value / inject_Z total)%Q
    end in
  mk_inventory_value (p_id p) (p_stock p)
    (match average with
     | Some a => to_decimal2 a
     | None => p_cost p
     end)
    (to_decimal2
       (inject_Z (p_stock p) *
        match average with
        | Some a => a
        | None => numeric_of_decimal2 (p_cost p)
        end)%Q)
    "AVERAGE".

Definition calculate_inventory_value (d : db) : list inventory_value :=
  let v_method := get_inventory_valuation_method d in
  (* WHERE p.is_active = true AND p.stock > 0 *)
  let stocked := filter (fun p => p_is_active p && (0 <? p_stock p)) (products d) in
  (* WHERE unit_cost IS NOT NULL: the products with a purchase *)
  let purchased :=
    filter (fun p => match purchases_of p d with [] => false | _ => true end) stocked in
  if String.eqb v_method "FIFO" then
    map (fun p => ranked_value cumulative_qty_asc "FIFO" p d) purchased
  else if String.eqb v_method "LIFO" then
    map (fun p => ranked_value cumulative_qty_desc "LIFO" p d) purchased
  else
    map (fun p => average_value p d) stocked.

(** The valuation reported for one product, if it is reported. *)
Definition valuation_of (product_id : Z) (d : db) : option decimal2 :=
  option_map iv_total_value
    (find (fun v => iv_product_id v =? product_id) (calculate_inventory_value d)).

(** ** Notions the properties are stated with *)

(** [SUM(remaining_quantity)] over the lots of a product. *)
Definition total_remaining (product_id : Z) (tbl : list inventory_purchase) : Z :=
  sum_Z (map ip_remaining_quantity
           (filter (fun l => ip_product_id l =? product_id) tbl)).

(** The consistency invariant:
    [sum(lot.remainingQuantity) == product.currentStock], for every product. *)
Definition stock_matches_lots (d : db) : Prop :=
  forall p, In p (products d) ->
            total_remaining (p_id p) (inventory_purchases d) = p_stock p.

Definition stock_matches_lotsb (d : db) : bool :=
  forallb (fun p => total_remaining (p_id p) (inventory_purchases d) =? p_stock p)
          (products d).

(** The total unconsumed quantity of a product. *)
Definition total_unconsumed (product_id : Z) (tbl : list inventory_purchase) : Z :=
  sum_Z (map ip_remaining_quantity (filter (unconsumed product_id) tbl)).

(** [sum(remainingQuantity_i * unitCost_i)] over the unconsumed lots. *)
Definition value_of_unconsumed (product_id : Z) (tbl : list inventory_purchase) : decimal2 :=
  sum_Z (map (fun l => ip_remaining_quantity l * ip_unit_cost l)
             (filter (unconsumed product_id) tbl)).

(** The weighted average unit cost of the unconsumed lots of a product:
    [sum(remainingQuantity_i * unitCost_i) / sum(remainingQuantity_i)]. *)
Definition weighted_unit_cost (product_id : Z) (tbl : list inventory_purchase) : Q :=
  (numeric_of_decimal2 (value_of_unconsumed product_id tbl)
   / inject_Z (total_unconsumed product_id tbl))%Q.

(** The total cost under AVERAGE in the words of the specification: the
    weighted unit cost times the quantity sold, the product rounded to two
    decimal places. *)
Definition average_cost_as_specified (product_id quantity : Z)
    (tbl : list inventory_purchase) : decimal2 :=
  to_decimal2 (weighted_unit_cost product_id tbl * inject_Z quantity)%Q.

Definition remaining_of (lot_id : Z) (d : db) : option Z :=
  option_map ip_remaining_quantity
    (find (fun l => ip_id l =? lot_id) (inventory_purchases d)).

Definition stock_of (product_id : Z) (d : db) : option Z :=
  option_map p_stock (find_product product_id d).

(** The constraints every stored row of [inventory_purchases] satisfies. *)
Definition valid_purchase (l : inventory_purchase) : Prop :=
  0 < ip_quantity l /\ 0 <= ip_unit_cost l /\
  0 <= ip_remaining_quantity l <= ip_quantity l.

(** Rows satisfy their CHECK constraints and [id] is a primary key. *)
Definition valid_ledger (tbl : list inventory_purchase) : Prop :=
  NoDup (map ip_id tbl) /\ Forall valid_purchase tbl.

(** [products.id] is a primary key and [inventory_purchases.product_id]
    references it. *)
Definition valid_db (d : db) : Prop :=
  NoDup (map p_id (products d)) /\
  valid_ledger (inventory_purchases d) /\
  Forall (fun l => has_product_id (ip_product_id l) (products d) = true)
         (inventory_purchases d).

(** The row-wise effect of the [UPDATE] in the allocation loop. *)
Definition lower_remaining (v_id v_allocated : Z) (l : inventory_purchase)
  : inventory_purchase :=
  if ip_id l =? v_id
  then set_remaining_quantity l (ip_remaining_quantity l - v_allocated)
  else l.

(** A lot with its [remaining_quantity] blanked out. *)
Definition without_remaining (l : inventory_purchase) : inventory_purchase :=
  set_remaining_quantity l 0.

(** Row [a] comes before row [b] in [l]. *)
Definition precedes {A : Type} (a b : A) (l : list A) : Prop :=
  exists l1 l2 l3, l = l1 ++ a :: l2 ++ b :: l3.

(** A query orders lots of equal [purchased_at] by ascending [id]. *)
Definition ties_ascending_by_id
    (select : Z -> list inventory_purchase -> list inventory_purchase) : Prop :=
  forall tbl product_id a b,
    NoDup (map ip_id tbl) -> In a tbl -> In b tbl ->
    unconsumed product_id a = true -> unconsumed product_id b = true ->
    ip_purchased_at a = ip_purchased_at b -> ip_id a < ip_id b ->
    precedes a b (select product_id tbl).

(** A query orders lots of equal [purchased_at] by descending [id]. *)
Definition ties_descending_by_id
    (select : Z -> list inventory_purchase -> list inventory_purchase) : Prop :=
  forall tbl product_id a b,
    NoDup (map ip_id tbl) -> In a tbl -> In b tbl ->
    unconsumed product_id a = true -> unconsumed product_id b = true ->
    ip_purchased_at a = ip_purchased_at b -> ip_id a < ip_id b ->
    precedes b a (select product_id tbl).

(** The result of a query does not depend on the order in which the table
    stores its rows. *)
Definition reproducible
    (select : Z -> list inventory_purchase -> list inventory_purchase) : Prop :=
  forall tbl tbl' product_id,
    NoDup (map ip_id tbl) -> Permutation tbl tbl' ->
    select product_id tbl' = select product_id tbl.

(** Two databases with the same rows in every table but [system_settings]. *)
Definition same_tables (d d' : db) : Prop :=
  products d = products d' /\
  inventory_purchases d = inventory_purchases d' /\
  sale_items d = sale_items d'.

(** Two statements end alike: with the same error, or with the same rows. *)
Definition same_outcome (r r' : result db) : Prop :=
  match r, r' with
  | Ok x, Ok x' => same_tables x x'
  | Raise e, Raise e' => e = e'
  | _, _ => False
  end.

(** Any number of later changes of policy. *)
Definition switch_policies (ps : list string) (d : db) : db :=
  fold_left (fun d p => setInventoryMethod p d) ps d.

(** The rows the allocation loop walks, in the order of the active policy:
    the query of the branch [allocate_inventory_on_sale] takes. *)
Definition allocation_order (product_id : Z) (d : db) : list inventory_purchase :=
  if String.eqb (get_inventory_costing_method d) "FIFO"
  then select_oldest_first product_id (inventory_purchases d)
  else if String.eqb (get_inventory_costing_method d) "LIFO"
       then select_newest_first product_id (inventory_purchases d)
       else select_oldest_first product_id (inventory_purchases d).

(** The units the allocation loop takes from the lot [lot_id] when it walks
    [rows] with [need] units to allocate. *)
Fixpoint taken (rows : list inventory_purchase) (need lot_id : Z) : Z :=
  match rows with
  | [] => 0
  | r :: rest =>
      let v_allocated := Z.min (ip_remaining_quantity r) need in
      if ip_id r =? lot_id then v_allocated else taken rest (need - v_allocated) lot_id
  end.

(** A lot once the loop has walked [rows] with [need] units to allocate. *)
Definition after_allocation (rows : list inventory_purchase) (need : Z)
    (l : inventory_purchase) : inventory_purchase :=
  set_remaining_quantity l (ip_remaining_quantity l - taken rows need (ip_id l)).

(** A lot differs from what it was in [remaining_quantity] only, which has
    not grown and is unchanged unless the lot is of [product_id]. *)
Definition only_consumed (product_id : Z) (before after : inventory_purchase) : Prop :=
  after = set_remaining_quantity before (ip_remaining_quantity after) /\
  0 <= ip_remaining_quantity after <= ip_remaining_quantity before /\
  (ip_product_id before <> product_id -> after = before).

(** The units that left the lots between two states of the ledger, each at
    the unit cost of its lot. *)
Definition cost_of_consumption (before after : list inventory_purchase) : decimal2 :=
  sum_Z (map (fun ba => (ip_remaining_quantity (fst ba) - ip_remaining_quantity (snd ba))
                        * ip_unit_cost (fst ba))
             (combine before after)).

(** The row [INSERT INTO sale_items] stores for [NEW] when the cost of the
    sale is [cost]: the trigger has replaced its [cost_price]. *)
Definition recorded_line (NEW : sale_item) (cost : decimal2) : sale_item :=
  set_cost_price NEW (unit_cost_for_sale cost (si_quantity NEW)).

(** The database once the line [NEW] is recorded at the cost [cost]: stock
    lowered, lots consumed in the order of the policy, the line appended. *)
Definition after_sale_line (NEW : sale_item) (cost : decimal2) (d : db) : db :=
  mk_db (map (fun p => if p_id p =? si_product_id NEW
                       then set_stock p (p_stock p - si_quantity NEW) else p)
             (products d))
        (map (after_allocation (allocation_order (si_product_id NEW) d) (si_quantity NEW))
             (inventory_purchases d))
        (sale_items d ++ [recorded_line NEW cost])
        (system_settings d).

(** The ledger of the worked examples of the specification, under whatever
    ids and in whatever places of the table: the lots of [product_id] are
    L1(qty=5, cost=10.00, t=1) and L2(qty=5, cost=12.00, t=2), both whole. *)
Definition lots_of_the_example (product_id : Z) (L1 L2 : inventory_purchase)
    (tbl : list inventory_purchase) : Prop :=
  Permutation (filter (fun l => ip_product_id l =? product_id) tbl) [L1; L2] /\
  (ip_quantity L1 = 5 /\ ip_unit_cost L1 = 1000 /\
   ip_remaining_quantity L1 = 5 /\ ip_purchased_at L1 = 1) /\
  (ip_quantity L2 = 5 /\ ip_unit_cost L2 = 1200 /\
   ip_remaining_quantity L2 = 5 /\ ip_purchased_at L2 = 2).

(** A sale line of 8 units of [product_id] that the constraints of
    [sale_items] let in. *)
Definition sale_line_of_8 (product_id : Z) (NEW : sale_item) (d : db) : Prop :=
  si_product_id NEW = product_id /\ si_quantity NEW = 8 /\
  0 <= si_unit_price NEW /\ 0 <= si_subtotal NEW /\
  has_sale_item_id (si_id NEW) (sale_items d) = false.

(** The ledger with [r1] units left in the lot [id1] and [r2] in the lot
    [id2], every other lot as it is. *)
Definition with_remaining_in (id1 r1 id2 r2 : Z) (tbl : list inventory_purchase)
  : list inventory_purchase :=
  map (fun l => if ip_id l =? id1 then set_remaining_quantity l r1
                else if ip_id l =? id2 then set_remaining_quantity l r2
                else l)
      tbl.

(** The databases the modelled statements lead to from an empty one:
    products are created, stock is raised by an UPDATE of [products], sale
    lines are inserted, settings change.  A statement that raises leaves
    the database as it was. *)
Inductive reachable : db -> Prop :=
| reachable_empty (settings : list system_setting) :
    reachable (mk_db [] [] [] settings)
| reachable_insert_product (sv : server) (NEW : product) (d : db) :
    reachable d -> reachable (fst (run (insert_product sv NEW) d))
| reachable_stock_raise (sv : server) (v_id : Z) (f : Z -> Z) (d : db) :
    reachable d -> (forall stock, stock <= f stock) ->
    reachable (fst (run (update_products_stock sv v_id f) d))
| reachable_sale (sv : server) (NEW : sale_item) (d : db) :
    reachable d -> reachable (fst (run (insert_sale_item sv NEW) d))
| reachable_settings (settings : list system_setting) (d : db) :
    reachable d -> reachable (with_system_settings d settings).

(** ** Example ledgers *)

Module Example.
(** The two lots of the specification: L1(qty=5, cost=10, t=1) and
    L2(qty=5, cost=12, t=2), of product 100. *)
Definition L1 : inventory_purchase := mk_purchase 1 100 5 1000 5 1 None "L1".
Definition L2 : inventory_purchase := mk_purchase 2 100 5 1200 5 2 None "L2".

Definition two_lots (policy : string) : db :=
  mk_db [mk_product 100 1200 10 true 0] [L1; L2] []
        [mk_setting "inventory_costing_method" policy].

(** A sale line of 8 units of product 100, as the client sends it: its
    [cost_price] is the current product cost, which the trigger replaces. *)
Definition sale_of_8 : sale_item := mk_sale_item 500 900 100 8 1500 1200 12000.
End Example.

Module ShuffledExample.
(** The two lots of the specification as a database may hold them: L2
    stored first and under the smaller id, a lot of another product between
    them. *)
Definition L1 : inventory_purchase := mk_purchase 7 100 5 1000 5 1 None "L1".
Definition L2 : inventory_purchase := mk_purchase 3 100 5 1200 5 2 None "L2".
Definition other : inventory_purchase := mk_purchase 5 200 4 900 1 0 None "".

Definition two_lots (policy : string) : db :=
  mk_db [mk_product 200 900 1 true 0; mk_product 100 1200 10 true 0]
        [L2; other; L1] []
        [mk_setting "inventory_costing_method" policy].
End ShuffledExample.

Module TieExample.
(** Two lots of product 100 received at the same instant. *)
Definition first_id : inventory_purchase := mk_purchase 1 100 4 1000 4 7 None "".
Definition second_id : inventory_purchase := mk_purchase 2 100 4 1100 4 7 None "".
End TieExample.

Module AverageExample.
(** One unit at 10.00 and two units at 10.01 of product 100. *)
Definition three_units : db :=
  mk_db [mk_product 100 1001 3 true 0]
        [mk_purchase 1 100 1 1000 1 1 None ""; mk_purchase 2 100 2 1001 2 2 None ""]
        [] [mk_setting "inventory_costing_method" "AVERAGE"].

(** Five units at 10.00 of product 100. *)
Definition five_units : db :=
  mk_db [mk_product 100 1000 5 true 0]
        [mk_purchase 1 100 5 1000 5 1 None ""]
        [] [mk_setting "inventory_costing_method" "AVERAGE"].

(** The purchases of the repository's valuation guide, nothing sold: 10
    units at 78,000, 15 at 80,000 and 8 at 82,000. *)
Definition guide_prices : db :=
  mk_db [mk_product 100 8200000 33 true 0]
        [mk_purchase 1 100 10 7800000 10 1 None "Feb 1";
         mk_purchase 2 100 15 8000000 15 5 None "Feb 5";
         mk_purchase 3 100 8 8200000 8 10 None "Feb 10"]
        [] [mk_setting "inventory_costing_method" "AVERAGE"].
End AverageExample.

Module ValuationExample.
(** The purchase history of the repository's valuation guide: 10 units at
    78,000 on Feb 1, 15 at 80,000 on Feb 5, 8 at 82,000 on Feb 10. *)
Definition feb_1 (remaining : Z) : inventory_purchase :=
  mk_purchase 1 100 10 7800000 remaining 1 None "Feb 1".
Definition feb_5 (remaining : Z) : inventory_purchase :=
  mk_purchase 2 100 15 8000000 remaining 5 None "Feb 5".
Definition feb_10 (remaining : Z) : inventory_purchase :=
  mk_purchase 3 100 8 8200000 remaining 10 None "Feb 10".

(** All 33 units in stock, nothing sold yet. *)
Definition purchased (valuation_method : string) : db :=
  mk_db [mk_product 100 8200000 33 true 0]
        [feb_1 10; feb_5 15; feb_10 8] []
        [mk_setting "inventory_costing_method" "FIFO";
         mk_setting "inventory_valuation_method" valuation_method].

(** A sale line of 13 units. *)
Definition sale_of_13 : sale_item := mk_sale_item 500 900 100 13 9500000 8200000 123500000.

(** After 13 units were sold oldest first: 20 in stock, in the two newest
    lots. *)
Definition after_sale (valuation_method : string) : db :=
  mk_db [mk_product 100 8200000 20 true 0]
        [feb_1 0; feb_5 12; feb_10 8]
        [mk_sale_item 500 900 100 13 9500000 7846154 123500000]
        [mk_setting "inventory_costing_method" "FIFO";
         mk_setting "inventory_valuation_method" valuation_method].
End ValuationExample.

Module UnpurchasedExample.
(** Product 100 with 4 units in stock at 10.00 and no purchase on record. *)
Definition no_purchases (valuation_method : string) : db :=
  mk_db [mk_product 100 1000 4 true 0] [] []
        [mk_setting "inventory_valuation_method" valuation_method].
End UnpurchasedExample.

Module RestockExample.
(** Product 100 with 5 units in stock, all in one lot. *)
Definition five_in_stock : db :=
  mk_db [mk_product 100 1000 5 true 0]
        [mk_purchase 1 100 5 1000 5 1 None "Initial inventory - product created"]
        [] [mk_setting "inventory_costing_method" "FIFO"].

(** [updateProductStock(100, 3)]; the server draws lot id 2 for the trigger
    of the UPDATE and lot id 3 for the INSERT that follows it. *)
Definition restock_3 (rpc_deployed : bool) : db * option client_error :=
  updateProductStock rpc_deployed
    (mk_server 2 20) (mk_server 3 20) (mk_server 2 20) (mk_server 3 21) 21 (Some 7)
    100 3 five_in_stock.
End RestockExample.

(** * Properties *)

(** ** Lists, sums and [ORDER BY] *)

Lemma sum_Z_app (l1 l2 : list Z) : sum_Z (l1 ++ l2) = sum_Z l1 + sum_Z l2.
Proof.
  induction l1 as [|x l1 IH]; simpl; [reflexivity|]. rewrite IH. lia.
Qed.

Lemma sum_Z_perm (l1 l2 : list Z) : Permutation l1 l2 -> sum_Z l1 = sum_Z l2.
Proof.
  induction 1; simpl; lia.
Qed.

Lemma sum_Z_nonneg (l : list Z) : Forall (fun x => 0 <= x) l -> 0 <= sum_Z l.
Proof.
  induction 1; simpl; lia.
Qed.

Lemma sum_Z_zero (l : list Z) :
  Forall (fun x => 0 <= x) l -> sum_Z l = 0 -> Forall (fun x => x = 0) l.
Proof.
  induction 1 as [|x l Hx Hl IH]; simpl; intros Hs; constructor.
  - pose proof (sum_Z_nonneg l Hl). lia.
  - apply IH. pose proof (sum_Z_nonneg l Hl). lia.
Qed.

Lemma NoDup_map_filter {A B : Type} (f : A -> B) (g : A -> bool) (l : list A) :
  NoDup (map f l) -> NoDup (map f (filter g l)).
Proof.
  induction l as [|x l IH]; simpl; intros H; [constructor|].
  inversion H as [|? ? Hn Hd]; subst.
  destruct (g x); simpl; [constructor|]; auto.
  intros Hin. apply Hn. apply in_map_iff in Hin. destruct Hin as [y [Hy Hin]].
  apply filter_In in Hin. apply in_map_iff. exists y. tauto.
Qed.

Lemma NoDup_map_inj {A B : Type} (f : A -> B) (l : list A) (a b : A) :
  NoDup (map f l) -> In a l -> In b l -> f a = f b -> a = b.
Proof.
  induction l as [|x l IH]; simpl; intros H Ha Hb E; [contradiction|].
  inversion H as [|? ? Hn Hd]; subst.
  destruct Ha as [Ha|Ha], Hb as [Hb|Hb]; subst; auto.
  - exfalso. apply Hn. rewrite E. now apply in_map.
  - exfalso. apply Hn. rewrite <- E. now apply in_map.
Qed.

Section OrderByFacts.
Context {A : Type} (leb : A -> A -> bool).
Hypothesis leb_total : forall a b, leb a b = false -> leb b a = true.
Hypothesis leb_trans : forall a b c, leb a b = true -> leb b c = true -> leb a c = true.

Let le (a b : A) : Prop := leb a b = true.

Lemma insert_by_perm (x : A) (l : list A) : Permutation (insert_by leb x l) (x :: l).
Proof.
  induction l as [|y l IH]; simpl; [reflexivity|].
  destruct (leb x y); [reflexivity|].
  rewrite IH. apply perm_swap.
Qed.

Lemma order_by_perm (l : list A) : Permutation (order_by leb l) l.
Proof.
  induction l as [|x l IH]; simpl; [reflexivity|].
  rewrite insert_by_perm. now constructor.
Qed.

Lemma insert_by_sorted (x : A) (l : list A) :
  StronglySorted le l -> StronglySorted le (insert_by leb x l).
Proof.
  induction 1 as [|y l Hs IH Hy]; simpl.
  - repeat constructor.
  - destruct (leb x y) eqn:E.
    + constructor; [now constructor|].
      constructor; [exact E|].
      eapply Forall_impl; [|exact Hy]. intros z Hz. unfold le in *. eauto.
    + constructor; [exact IH|].
      eapply Permutation_Forall; [symmetry; apply insert_by_perm|].
      constructor; [now apply leb_total|exact Hy].
Qed.

Lemma order_by_sorted (l : list A) : StronglySorted le (order_by leb l).
Proof.
  induction l as [|x l IH]; simpl; [constructor|]. now apply insert_by_sorted.
Qed.

(** A list has at most one sorted arrangement when no two of its elements
    are equivalent for the order. *)
Lemma sorted_perm_unique (l1 l2 : list A) :
  (forall a b, In a l1 -> In b l1 -> le a b -> le b a -> a = b) ->
  StronglySorted le l1 -> StronglySorted le l2 -> Permutation l1 l2 -> l1 = l2.
Proof.
  revert l2. induction l1 as [|a l1 IH]; intros l2 Hanti H1 H2 Hp.
  - apply Permutation_nil in Hp. now subst.
  - destruct l2 as [|b l2]; [symmetry in Hp; now apply Permutation_nil in Hp|].
    inversion H1 as [|? ? Hs1 Ha]; subst. inversion H2 as [|? ? Hs2 Hb]; subst.
    assert (a = b) as ->.
    { assert (In a (b :: l2)) as Hin1 by (eapply Permutation_in; [exact Hp|now left]).
      assert (In b (a :: l1)) as Hin2
          by (eapply Permutation_in; [symmetry; exact Hp|now left]).
      destruct Hin1 as [->|Hin1]; [reflexivity|].
      destruct Hin2 as [->|Hin2]; [reflexivity|].
      rewrite Forall_forall in Ha, Hb.
      apply Hanti; [now left|now right|now apply Ha|now apply Hb]. }
    f_equal. apply IH; auto.
    + intros x y Hx Hy. apply Hanti; now right.
    + now apply Permutation_cons_inv in Hp.
Qed.

Lemma order_by_reproducible (l l' : list A) :
  (forall a b, In a l -> In b l -> le a b -> le b a -> a = b) ->
  Permutation l l' -> order_by leb l' = order_by leb l.
Proof.
  intros Hanti Hp. symmetry. apply sorted_perm_unique.
  - intros a b Ha Hb. apply Hanti; eapply Permutation_in; eauto using order_by_perm.
  - apply order_by_sorted.
  - apply order_by_sorted.
  - rewrite !order_by_perm. exact Hp.
Qed.

(** In a sorted list, an element strictly below another comes first. *)
Lemma sorted_precedes (l : list A) (a b : A) :
  StronglySorted le l -> In a l -> In b l -> leb b a = false -> precedes a b l.
Proof.
  intros Hs Ha Hb Hba.
  apply in_split in Ha. destruct Ha as [l1 [r ->]].
  apply in_app_or in Hb. destruct Hb as [Hb|[Hb|Hb]].
  - exfalso. apply in_split in Hb. destruct Hb as [x [y ->]].
    rewrite <- app_assoc in Hs. simpl in Hs.
    clear -Hs Hba. induction x as [|z x IH]; simpl in Hs.
    + inversion Hs as [|? ? _ Hall]; subst. rewrite Forall_forall in Hall.
      assert (le b a) as H by (apply Hall; apply in_or_app; right; now left).
      unfold le in H. congruence.
    + inversion Hs; subst. auto.
  - rewrite <- Hb in Hba.
    pose proof (leb_total _ _ Hba). congruence.
  - apply in_split in Hb. destruct Hb as [x [y ->]]. now exists l1, x, y.
Qed.
End OrderByFacts.

(** ** The order of allocation *)

Ltac by_cases_on_comparisons :=
  repeat match goal with
         | H : context [?x <? ?y] |- _ => destruct (Z.ltb_spec x y); simpl in H
         | H : context [?x <=? ?y] |- _ => destruct (Z.leb_spec x y); simpl in H
         | H : context [?x =? ?y] |- _ => destruct (Z.eqb_spec x y); simpl in H
         | |- context [?x <? ?y] => destruct (Z.ltb_spec x y); simpl
         | |- context [?x <=? ?y] => destruct (Z.leb_spec x y); simpl
         | |- context [?x =? ?y] => destruct (Z.eqb_spec x y); simpl
         end;
  try congruence; try lia.

Lemma asc_total (a b : inventory_purchase) :
  purchased_at_asc_id_asc a b = false -> purchased_at_asc_id_asc b a = true.
Proof. unfold purchased_at_asc_id_asc. intros H. by_cases_on_comparisons. Qed.

Lemma asc_trans (a b c : inventory_purchase) :
  purchased_at_asc_id_asc a b = true -> purchased_at_asc_id_asc b c = true ->
  purchased_at_asc_id_asc a c = true.
Proof. unfold purchased_at_asc_id_asc. intros H1 H2. by_cases_on_comparisons. Qed.

Lemma asc_antisym (a b : inventory_purchase) :
  purchased_at_asc_id_asc a b = true -> purchased_at_asc_id_asc b a = true ->
  ip_id a = ip_id b.
Proof. unfold purchased_at_asc_id_asc. intros H1 H2. by_cases_on_comparisons. Qed.

Lemma desc_is_asc_flipped (a b : inventory_purchase) :
  purchased_at_desc_id_desc a b = purchased_at_asc_id_asc b a.
Proof. reflexivity. Qed.

Lemma desc_total (a b : inventory_purchase) :
  purchased_at_desc_id_desc a b = false -> purchased_at_desc_id_desc b a = true.
Proof. rewrite !desc_is_asc_flipped. apply asc_total. Qed.

Lemma desc_trans (a b c : inventory_purchase) :
  purchased_at_desc_id_desc a b = true -> purchased_at_desc_id_desc b c = true ->
  purchased_at_desc_id_desc a c = true.
Proof. rewrite !desc_is_asc_flipped. intros H1 H2. eapply asc_trans; eauto. Qed.

Lemma filter_perm {A : Type} (f : A -> bool) (l l' : list A) :
  Permutation l l' -> Permutation (filter f l) (filter f l').
Proof.
  induction 1 as [|x l l' _ IH|x y l|l l' l'' _ IH1 _ IH2]; simpl.
  - constructor.
  - destruct (f x); [now constructor|exact IH].
  - destruct (f x), (f y); try reflexivity. apply perm_swap.
  - now transitivity (filter f l').
Qed.

Lemma select_oldest_first_perm (product_id : Z) (tbl : list inventory_purchase) :
  Permutation (select_oldest_first product_id tbl) (filter (unconsumed product_id) tbl).
Proof. apply order_by_perm. Qed.

Lemma select_newest_first_perm (product_id : Z) (tbl : list inventory_purchase) :
  Permutation (select_newest_first product_id tbl) (filter (unconsumed product_id) tbl).
Proof. apply order_by_perm. Qed.

Lemma oldest_first_ties_ascending : ties_ascending_by_id select_oldest_first.
Proof.
  intros tbl pid a b _ Ha Hb Ua Ub Hat Hid.
  apply (sorted_precedes purchased_at_asc_id_asc asc_total).
  - apply order_by_sorted; [exact asc_total|exact asc_trans].
  - eapply Permutation_in; [symmetry; apply select_oldest_first_perm|].
    apply filter_In. now split.
  - eapply Permutation_in; [symmetry; apply select_oldest_first_perm|].
    apply filter_In. now split.
  - unfold purchased_at_asc_id_asc. by_cases_on_comparisons.
Qed.

Lemma newest_first_ties_descending : ties_descending_by_id select_newest_first.
Proof.
  intros tbl pid a b _ Ha Hb Ua Ub Hat Hid.
  apply (sorted_precedes purchased_at_desc_id_desc desc_total).
  - apply order_by_sorted; [exact desc_total|exact desc_trans].
  - eapply Permutation_in; [symmetry; apply select_newest_first_perm|].
    apply filter_In. now split.
  - eapply Permutation_in; [symmetry; apply select_newest_first_perm|].
    apply filter_In. now split.
  - unfold purchased_at_desc_id_desc. by_cases_on_comparisons.
Qed.

Lemma oldest_first_reproducible : reproducible select_oldest_first.
Proof.
  intros tbl tbl' pid Hnd Hp. unfold select_oldest_first.
  apply order_by_reproducible.
  - exact asc_total.
  - exact asc_trans.
  - intros a b Ha Hb H1 H2. apply filter_In in Ha, Hb.
    apply (NoDup_map_inj ip_id tbl); try tauto. now apply asc_antisym.
  - now apply filter_perm.
Qed.

Lemma newest_first_reproducible : reproducible select_newest_first.
Proof.
  intros tbl tbl' pid Hnd Hp. unfold select_newest_first.
  apply order_by_reproducible.
  - exact desc_total.
  - exact desc_trans.
  - intros a b Ha Hb H1 H2. apply filter_In in Ha, Hb.
    apply (NoDup_map_inj ip_id tbl); try tauto.
    rewrite desc_is_asc_flipped in H1, H2. symmetry. now apply asc_antisym.
  - now apply filter_perm.
Qed.

(** C3, as the code has it.  Among lots of one product with equal
    [purchased_at], the FIFO query (also used for AVERAGE) lists the lower
    [id] first and the LIFO query lists the higher [id] first; either order
    is a function of the set of rows alone, whatever order the table
    returns them in. *)
Theorem tie_break_on_equal_timestamps :
  ties_ascending_by_id select_oldest_first /\
  ties_descending_by_id select_newest_first /\
  reproducible select_oldest_first /\
  reproducible select_newest_first.
Proof.
  repeat split.
  - exact oldest_first_ties_ascending.
  - exact newest_first_ties_descending.
  - exact oldest_first_reproducible.
  - exact newest_first_reproducible.
Qed.

(** Lot ids are drawn by [uuid_generate_v4()]: their order need not be the
    order of insertion.  Two restocks of one unit at the same instant, the
    first drawing id 9 and the second id 3, are walked by FIFO second
    first. *)
Lemma id_order_is_not_insertion_order :
  exists d1 d2,
    update_products_stock (mk_server 9 50) 100 (fun stock => stock + 1)
                          RestockExample.five_in_stock = Ok d1 /\
    update_products_stock (mk_server 3 50) 100 (fun stock => stock + 1) d1 = Ok d2 /\
    map ip_id (inventory_purchases d2) = [1; 9; 3] /\
    map ip_id (select_oldest_first 100 (inventory_purchases d2)) = [1; 3; 9].
Proof.
  do 2 eexists. split; [reflexivity|]. split; [reflexivity|]. split; reflexivity.
Qed.

Lemma not_precedes_swapped {A : Type} (a b : A) : a <> b -> ~ precedes a b [b; a].
Proof.
  intros Hne [l1 [l2 [l3 H]]].
  destruct l1 as [|x l1]; simpl in H.
  - injection H as H1 H2. congruence.
  - injection H as H1 H2.
    destruct l1 as [|y l1]; simpl in H2.
    + injection H2 as H2. destruct l2; discriminate.
    + injection H2 as H2 H3. destruct l1; discriminate.
Qed.

(** C3, as stated, fails for LIFO: of two unconsumed lots of product 100
    received at the same instant, with ids 1 and 2, the LIFO query returns
    id 2 first. *)
Lemma lifo_ties_not_ascending :
  ~ (ties_ascending_by_id select_oldest_first /\
     ties_ascending_by_id select_newest_first).
Proof.
  intros [_ H].
  specialize (H [TieExample.first_id; TieExample.second_id] 100
                TieExample.first_id TieExample.second_id).
  apply (not_precedes_swapped TieExample.first_id TieExample.second_id).
  - discriminate.
  - apply H; try reflexivity.
    + repeat constructor; simpl; intuition discriminate.
    + now left.
    + right; now left.
Qed.

(** The tie-break at work on the two lots received at the same instant. *)
Lemma tie_break_on_equal_timestamps_witness :
  precedes TieExample.first_id TieExample.second_id
    (select_oldest_first 100 [TieExample.second_id; TieExample.first_id]) /\
  precedes TieExample.second_id TieExample.first_id
    (select_newest_first 100 [TieExample.first_id; TieExample.second_id]).
Proof.
  destruct tie_break_on_equal_timestamps as [Hasc [Hdesc _]].
  split.
  - apply Hasc; try reflexivity.
    + repeat constructor; simpl; intuition discriminate.
    + right; now left.
    + now left.
  - apply Hdesc; try reflexivity.
    + repeat constructor; simpl; intuition discriminate.
    + now left.
    + right; now left.
Defined.

(** ** Allocation against the ledger *)

Lemma purchase_checks_ok (l : inventory_purchase) :
  valid_purchase l -> purchase_checks l = Ok tt.
Proof.
  intros [H1 [H2 [H3 H4]]]. unfold purchase_checks.
  apply Z.ltb_lt in H1. apply Z.leb_le in H2, H3, H4.
  now rewrite H1, H2, H3, H4.
Qed.

Lemma purchase_checks_valid (l : inventory_purchase) :
  purchase_checks l = Ok tt -> valid_purchase l.
Proof.
  unfold purchase_checks, valid_purchase, check, bind. intros H.
  by_cases_on_comparisons; discriminate.
Qed.

Lemma update_remaining_eq (tbl : list inventory_purchase) (v a : Z) :
  Forall valid_purchase tbl ->
  (forall x, In x tbl -> ip_id x = v -> 0 <= a <= ip_remaining_quantity x) ->
  update_remaining tbl v a = Ok (map (lower_remaining v a) tbl).
Proof.
  induction 1 as [|l tbl Hl Htbl IH]; intros Hrange; simpl; [reflexivity|].
  rewrite IH by (intros x Hx; apply Hrange; now right).
  unfold lower_remaining at 2.
  destruct (Z.eqb_spec (ip_id l) v) as [E|E]; [|reflexivity].
  rewrite purchase_checks_ok; [reflexivity|].
  specialize (Hrange l (or_introl eq_refl) E).
  destruct Hl as [H1 [H2 [H3 H4]]]. unfold valid_purchase. simpl. lia.
Qed.

Lemma lower_remaining_ids (tbl : list inventory_purchase) (v a : Z) :
  map ip_id (map (lower_remaining v a) tbl) = map ip_id tbl.
Proof.
  rewrite map_map. apply map_ext. intros l. unfold lower_remaining.
  now destruct (ip_id l =? v).
Qed.

Lemma lower_remaining_product_ids (tbl : list inventory_purchase) (v a : Z) :
  map ip_product_id (map (lower_remaining v a) tbl) = map ip_product_id tbl.
Proof.
  rewrite map_map. apply map_ext. intros l. unfold lower_remaining.
  now destruct (ip_id l =? v).
Qed.

Lemma lower_remaining_valid (tbl : list inventory_purchase) (v a : Z) :
  Forall valid_purchase tbl ->
  (forall x, In x tbl -> ip_id x = v -> 0 <= a <= ip_remaining_quantity x) ->
  Forall valid_purchase (map (lower_remaining v a) tbl).
Proof.
  intros Hv Hrange. apply Forall_forall. intros y Hy.
  apply in_map_iff in Hy. destruct Hy as [x [<- Hx]].
  rewrite Forall_forall in Hv. specialize (Hv x Hx).
  unfold lower_remaining. destruct (Z.eqb_spec (ip_id x) v) as [E|E]; [|exact Hv].
  specialize (Hrange x Hx E). destruct Hv as [H1 [H2 [H3 H4]]].
  unfold valid_purchase. simpl. lia.
Qed.

Lemma lower_remaining_absent (tbl : list inventory_purchase) (v a : Z) :
  ~ In v (map ip_id tbl) -> map (lower_remaining v a) tbl = tbl.
Proof.
  induction tbl as [|l tbl IH]; simpl; intros H; [reflexivity|].
  rewrite IH by tauto. unfold lower_remaining.
  destruct (Z.eqb_spec (ip_id l) v); [tauto|reflexivity].
Qed.

Lemma lower_remaining_keeps (tbl : list inventory_purchase) (v a : Z)
    (x : inventory_purchase) :
  In x tbl -> ip_id x <> v -> In x (map (lower_remaining v a) tbl).
Proof.
  intros Hx Hne. apply in_map_iff. exists x. split; [|exact Hx].
  unfold lower_remaining. destruct (Z.eqb_spec (ip_id x) v); [contradiction|reflexivity].
Qed.

Lemma total_remaining_cons (q : Z) (l : inventory_purchase)
    (tbl : list inventory_purchase) :
  total_remaining q (l :: tbl) =
  (if ip_product_id l =? q then ip_remaining_quantity l else 0) + total_remaining q tbl.
Proof.
  unfold total_remaining. simpl. now destruct (ip_product_id l =? q).
Qed.

Lemma lower_remaining_total (tbl : list inventory_purchase)
    (r : inventory_purchase) (a q : Z) :
  NoDup (map ip_id tbl) -> In r tbl ->
  total_remaining q (map (lower_remaining (ip_id r) a) tbl) =
  total_remaining q tbl - (if ip_product_id r =? q then a else 0).
Proof.
  induction tbl as [|l tbl IH]; simpl; intros Hnd Hin; [contradiction|].
  inversion Hnd as [|? ? Hn Hd]; subst.
  rewrite !total_remaining_cons.
  destruct Hin as [->|Hin].
  - rewrite lower_remaining_absent by exact Hn.
    unfold lower_remaining. rewrite Z.eqb_refl. simpl.
    destruct (ip_product_id r =? q); lia.
  - rewrite IH by assumption.
    unfold lower_remaining at 1 2.
    destruct (Z.eqb_spec (ip_id l) (ip_id r)) as [E|E].
    + exfalso. apply Hn. rewrite E. now apply in_map.
    + lia.
Qed.

(** What [allocate_loop] does on a well-formed ledger, when [rows] are
    distinct unconsumed lots of one product: it never raises, it leaves
    [need - sum] still to allocate (or nothing), and the product's lots
    lose in total what was allocated. *)
Lemma allocate_loop_spec (product_id : Z) (rows : list inventory_purchase) :
  forall (tbl : list inventory_purchase) (need : Z),
    valid_ledger tbl ->
    NoDup (map ip_id rows) ->
    (forall r, In r rows -> In r tbl /\ unconsumed product_id r = true) ->
    0 <= need ->
    exists tbl',
      allocate_loop rows tbl need
      = Ok (tbl', Z.max 0 (need - sum_Z (map ip_remaining_quantity rows))) /\
      valid_ledger tbl' /\
      map ip_id tbl' = map ip_id tbl /\
      map ip_product_id tbl' = map ip_product_id tbl /\
      forall q,
        total_remaining q tbl' =
        total_remaining q tbl
        - (if q =? product_id
           then Z.min need (sum_Z (map ip_remaining_quantity rows)) else 0).
Proof.
  induction rows as [|r rows IH]; intros tbl need [Hnd Hval] Hrows Hin Hneed.
  - simpl. exists tbl. repeat split; auto.
    + f_equal. f_equal. lia.
    + intros q. destruct (q =? product_id); lia.
  - simpl in Hrows. inversion Hrows as [|? ? Hr Hrows']; subst.
    destruct (Hin r (or_introl eq_refl)) as [Hrt Hru].
    unfold unconsumed in Hru. apply andb_true_iff in Hru. destruct Hru as [Hrp Hrq].
    apply Z.eqb_eq in Hrp. apply Z.ltb_lt in Hrq.
    assert (Hpos : 0 <= sum_Z (map ip_remaining_quantity rows)).
    { apply sum_Z_nonneg. apply Forall_forall. intros x Hx.
      apply in_map_iff in Hx. destruct Hx as [y [<- Hy]].
      destruct (Hin y (or_intror Hy)) as [_ Hu]. unfold unconsumed in Hu.
      apply andb_true_iff in Hu. destruct Hu as [_ Hu]. apply Z.ltb_lt in Hu. lia. }
    set (a := Z.min (ip_remaining_quantity r) need).
    assert (Hrange : forall x, In x tbl -> ip_id x = ip_id r ->
                               0 <= a <= ip_remaining_quantity x).
    { intros x Hx E. assert (x = r) as -> by (eapply (NoDup_map_inj ip_id tbl); eauto).
      unfold a. lia. }
    simpl. fold a. rewrite (update_remaining_eq tbl (ip_id r) a Hval Hrange). simpl.
    set (tbl1 := map (lower_remaining (ip_id r) a) tbl).
    assert (Hv1 : valid_ledger tbl1).
    { split.
      - unfold tbl1. now rewrite lower_remaining_ids.
      - now apply lower_remaining_valid. }
    assert (Ht1 : forall q, total_remaining q tbl1 =
                            total_remaining q tbl - (if q =? product_id then a else 0)).
    { intros q. unfold tbl1. rewrite lower_remaining_total by assumption.
      rewrite Hrp. now rewrite (Z.eqb_sym product_id q). }
    destruct (Z.eqb_spec (need - a) 0) as [E|E].
    + exists tbl1. repeat split; try apply Hv1.
      * f_equal. f_equal. unfold a in E. lia.
      * apply lower_remaining_ids.
      * apply lower_remaining_product_ids.
      * intros q. rewrite Ht1. destruct (q =? product_id); unfold a in *; lia.
    + destruct (IH tbl1 (need - a) Hv1 Hrows') as [tbl' [Hrun [Hv' [Hids [Hpids Htot]]]]].
      * intros x Hx. destruct (Hin x (or_intror Hx)) as [Hxt Hxu]. split; [|exact Hxu].
        apply lower_remaining_keeps; [exact Hxt|].
        intros Eid. apply Hr. rewrite <- Eid. now apply in_map.
      * unfold a. lia.
      * exists tbl'. rewrite Hrun. repeat split; try apply Hv'.
        -- f_equal. f_equal. unfold a in *. lia.
        -- rewrite Hids. apply lower_remaining_ids.
        -- rewrite Hpids. apply lower_remaining_product_ids.
        -- intros q. rewrite Htot, Ht1.
           destruct (q =? product_id); unfold a in *; lia.
Qed.

Lemma total_unconsumed_is_total_remaining (product_id : Z)
    (tbl : list inventory_purchase) :
  Forall valid_purchase tbl ->
  total_unconsumed product_id tbl = total_remaining product_id tbl.
Proof.
  induction 1 as [|l tbl Hl _ IH].
  - reflexivity.
  - rewrite total_remaining_cons, <- IH. unfold total_unconsumed, unconsumed. simpl.
    destruct Hl as [_ [_ [Hr _]]].
    destruct (ip_product_id l =? product_id); simpl; [|reflexivity].
    destruct (Z.ltb_spec 0 (ip_remaining_quantity l)); simpl; lia.
Qed.

(** The rows any of the three loops walks: the unconsumed lots of the
    product, in some order. *)
Lemma allocation_rows (product_id : Z) (d : db) :
  let rows :=
    if String.eqb (get_inventory_costing_method d) "FIFO"
    then select_oldest_first product_id (inventory_purchases d)
    else if String.eqb (get_inventory_costing_method d) "LIFO"
         then select_newest_first product_id (inventory_purchases d)
         else select_oldest_first product_id (inventory_purchases d) in
  Permutation rows (filter (unconsumed product_id) (inventory_purchases d)).
Proof.
  simpl. destruct (String.eqb _ "FIFO"); [apply select_oldest_first_perm|].
  destruct (String.eqb _ "LIFO");
    [apply select_newest_first_perm|apply select_oldest_first_perm].
Qed.

(** [allocate_inventory_on_sale] on a well-formed ledger: it raises exactly
    when the request exceeds what the product's lots hold, and otherwise
    removes the requested quantity from them. *)
Lemma allocate_inventory_on_sale_spec (d : db) (product_id quantity : Z) :
  valid_ledger (inventory_purchases d) -> 0 <= quantity ->
  let available := total_unconsumed product_id (inventory_purchases d) in
  (available < quantity ->
   allocate_inventory_on_sale product_id quantity d
   = Raise (insufficient_inventory_to_allocate (quantity - available))) /\
  (quantity <= available ->
   exists tbl',
     allocate_inventory_on_sale product_id quantity d
     = Ok (with_inventory_purchases d tbl') /\
     valid_ledger tbl' /\
     map ip_id tbl' = map ip_id (inventory_purchases d) /\
     map ip_product_id tbl' = map ip_product_id (inventory_purchases d) /\
     forall q,
       total_remaining q tbl' =
       total_remaining q (inventory_purchases d)
       - (if q =? product_id then quantity else 0)).
Proof.
  intros Hv Hq available.
  pose proof (allocation_rows product_id d) as Hperm. simpl in Hperm.
  unfold allocate_inventory_on_sale.
  set (rows := if String.eqb (get_inventory_costing_method d) "FIFO" then _ else _) in *.
  assert (Hsum : sum_Z (map ip_remaining_quantity rows) = available).
  { unfold available, total_unconsumed. apply sum_Z_perm. now apply Permutation_map. }
  destruct (allocate_loop_spec product_id rows (inventory_purchases d) quantity)
    as [tbl' [Hrun [Hv' [Hids [Hpids Htot]]]]]; auto.
  - eapply Permutation_NoDup; [symmetry; apply Permutation_map; exact Hperm|].
    apply NoDup_map_filter. apply Hv.
  - intros r Hr. apply filter_In. eapply Permutation_in; eauto.
  - rewrite Hrun, Hsum. simpl. split; intros Hcmp.
    + destruct (Z.ltb_spec 0 (Z.max 0 (quantity - available))); [|lia].
      f_equal. f_equal. lia.
    + destruct (Z.ltb_spec 0 (Z.max 0 (quantity - available))); [lia|].
      exists tbl'. repeat split; try apply Hv'; auto.
      intros q. rewrite Htot, Hsum. destruct (q =? product_id); lia.
Qed.

Lemma example_ledger_valid (policy : string) :
  valid_ledger (inventory_purchases (Example.two_lots policy)).
Proof.
  split; simpl.
  - repeat constructor; simpl; intuition discriminate.
  - repeat constructor; simpl; lia.
Qed.

(** ** What the allocation loop takes from each lot *)

Lemma unconsumed_rows_positive (product_id : Z) (tbl : list inventory_purchase) :
  Forall (fun r => 0 < ip_remaining_quantity r) (filter (unconsumed product_id) tbl).
Proof.
  apply Forall_forall. intros r Hr. apply filter_In in Hr. destruct Hr as [_ Hu].
  unfold unconsumed in Hu. apply andb_true_iff in Hu. now apply Z.ltb_lt.
Qed.

Lemma set_remaining_quantity_same (l : inventory_purchase) :
  set_remaining_quantity l (ip_remaining_quantity l) = l.
Proof. now destruct l. Qed.

Lemma taken_absent (rows : list inventory_purchase) (need lot_id : Z) :
  ~ In lot_id (map ip_id rows) -> taken rows need lot_id = 0.
Proof.
  revert need. induction rows as [|r rows IH]; intros need H; simpl; [reflexivity|].
  simpl in H. destruct (Z.eqb_spec (ip_id r) lot_id); [tauto|]. apply IH. tauto.
Qed.

Lemma taken_nothing (rows : list inventory_purchase) (lot_id : Z) :
  Forall (fun r => 0 < ip_remaining_quantity r) rows -> taken rows 0 lot_id = 0.
Proof.
  induction 1 as [|r rows Hr _ IH]; simpl; [reflexivity|].
  rewrite Z.min_r by lia. destruct (ip_id r =? lot_id); [reflexivity|].
  exact IH.
Qed.

(** The lot at a given place of the walk gives what is still needed when
    the walk reaches it, up to what it holds. *)
Lemma taken_at (pre post : list inventory_purchase) (r : inventory_purchase) :
  forall need,
    0 <= need ->
    Forall (fun x => 0 < ip_remaining_quantity x) pre ->
    ~ In (ip_id r) (map ip_id pre) ->
    taken (pre ++ r :: post) need (ip_id r)
    = Z.min (ip_remaining_quantity r)
            (Z.max 0 (need - sum_Z (map ip_remaining_quantity pre))).
Proof.
  induction pre as [|p pre IH]; intros need Hneed Hpos Hnot; simpl.
  - rewrite Z.eqb_refl. lia.
  - inversion Hpos as [|? ? Hp Hpre]; subst. simpl in Hnot.
    destruct (Z.eqb_spec (ip_id p) (ip_id r)); [tauto|].
    rewrite IH by (try lia; tauto).
    assert (0 <= sum_Z (map ip_remaining_quantity pre)).
    { apply sum_Z_nonneg. apply Forall_forall. intros x Hx. apply in_map_iff in Hx.
      destruct Hx as [y [<- Hy]]. rewrite Forall_forall in Hpre. specialize (Hpre y Hy). lia. }
    lia.
Qed.

Lemma rows_sum_nonneg (rows : list inventory_purchase) :
  Forall (fun x => 0 < ip_remaining_quantity x) rows ->
  0 <= sum_Z (map ip_remaining_quantity rows).
Proof.
  intros H. apply sum_Z_nonneg. apply Forall_forall. intros x Hx. apply in_map_iff in Hx.
  destruct Hx as [y [<- Hy]]. rewrite Forall_forall in H. specialize (H y Hy). lia.
Qed.

Lemma taken_range (rows : list inventory_purchase) (r : inventory_purchase) (need : Z) :
  0 <= need ->
  Forall (fun x => 0 < ip_remaining_quantity x) rows ->
  NoDup (map ip_id rows) -> In r rows ->
  0 <= taken rows need (ip_id r) <= ip_remaining_quantity r.
Proof.
  intros Hneed Hpos Hnd Hin. apply in_split in Hin. destruct Hin as [pre [post ->]].
  rewrite map_app in Hnd. simpl in Hnd. apply NoDup_remove_2 in Hnd.
  assert (Hr : 0 < ip_remaining_quantity r).
  { rewrite Forall_forall in Hpos. apply Hpos. apply in_or_app. right. now left. }
  rewrite taken_at; try assumption.
  - lia.
  - apply Forall_app in Hpos. tauto.
  - intros H. apply Hnd. apply in_or_app. now left.
Qed.

(** The walk takes [need] units in all, or all there is. *)
Lemma taken_total (rows : list inventory_purchase) :
  forall need,
    0 <= need ->
    Forall (fun x => 0 < ip_remaining_quantity x) rows ->
    NoDup (map ip_id rows) ->
    sum_Z (map (fun r => taken rows need (ip_id r)) rows)
    = Z.min need (sum_Z (map ip_remaining_quantity rows)).
Proof.
  induction rows as [|r rows IH]; intros need Hneed Hpos Hnd; simpl; [lia|].
  inversion Hpos as [|? ? Hr Hrows]; subst. inversion Hnd as [|? ? Hn Hd]; subst.
  rewrite Z.eqb_refl.
  rewrite (map_ext_in (fun r0 => if ip_id r =? ip_id r0
                                 then Z.min (ip_remaining_quantity r) need
                                 else taken rows (need - Z.min (ip_remaining_quantity r) need)
                                            (ip_id r0))
                      (fun r0 => taken rows (need - Z.min (ip_remaining_quantity r) need)
                                       (ip_id r0))).
  - rewrite IH by (try assumption; lia). pose proof (rows_sum_nonneg rows Hrows). lia.
  - intros x Hx. destruct (Z.eqb_spec (ip_id r) (ip_id x)) as [E|E]; [|reflexivity].
    exfalso. apply Hn. rewrite E. now apply in_map.
Qed.

(** The ledger the allocation loop leaves, in closed form. *)
Lemma allocate_loop_closed_form (product_id : Z) (rows : list inventory_purchase) :
  forall (tbl : list inventory_purchase) (need : Z),
    valid_ledger tbl ->
    NoDup (map ip_id rows) ->
    (forall r, In r rows -> In r tbl /\ unconsumed product_id r = true) ->
    0 <= need ->
    allocate_loop rows tbl need
    = Ok (map (after_allocation rows need) tbl,
          Z.max 0 (need - sum_Z (map ip_remaining_quantity rows))).
Proof.
  induction rows as [|r rows IH]; intros tbl need [Hnd Hval] Hrows Hin Hneed.
  - simpl. f_equal. f_equal.
    + rewrite <- (map_id tbl) at 1. apply map_ext. intros l.
      unfold after_allocation. simpl. rewrite Z.sub_0_r.
      symmetry. apply set_remaining_quantity_same.
    + lia.
  - simpl in Hrows. inversion Hrows as [|? ? Hr Hrows']; subst.
    destruct (Hin r (or_introl eq_refl)) as [Hrt Hru].
    unfold unconsumed in Hru. apply andb_true_iff in Hru. destruct Hru as [Hrp Hrq].
    apply Z.ltb_lt in Hrq.
    assert (Hpos : Forall (fun x => 0 < ip_remaining_quantity x) rows).
    { apply Forall_forall. intros x Hx. destruct (Hin x (or_intror Hx)) as [_ Hu].
      unfold unconsumed in Hu. apply andb_true_iff in Hu. destruct Hu as [_ Hu].
      now apply Z.ltb_lt. }
    pose proof (rows_sum_nonneg rows Hpos) as Hsum.
    set (a := Z.min (ip_remaining_quantity r) need).
    assert (Hrange : forall x, In x tbl -> ip_id x = ip_id r ->
                               0 <= a <= ip_remaining_quantity x).
    { intros x Hx E. assert (x = r) as -> by (eapply (NoDup_map_inj ip_id tbl); eauto).
      unfold a. lia. }
    simpl. fold a. rewrite (update_remaining_eq tbl (ip_id r) a Hval Hrange). simpl.
    assert (Hstep : forall l, In l tbl ->
               after_allocation rows (need - a) (lower_remaining (ip_id r) a l)
               = after_allocation (r :: rows) need l).
    { intros l Hl. unfold after_allocation, lower_remaining. simpl. fold a.
      destruct (Z.eqb_spec (ip_id l) (ip_id r)) as [E|E].
      - rewrite <- E, Z.eqb_refl. simpl. rewrite E.
        rewrite taken_absent by exact Hr. rewrite Z.sub_0_r. now destruct l.
      - destruct (Z.eqb_spec (ip_id r) (ip_id l)); [congruence|]. reflexivity. }
    destruct (Z.eqb_spec (need - a) 0) as [E|E].
    + f_equal. f_equal; [|unfold a in *; lia].
      apply map_ext_in. intros l Hl. rewrite <- (Hstep l Hl), E.
      unfold after_allocation. rewrite taken_nothing by exact Hpos.
      rewrite Z.sub_0_r. symmetry. apply set_remaining_quantity_same.
    + rewrite IH.
      * f_equal. f_equal; [|unfold a in *; lia].
        rewrite map_map. apply map_ext_in. exact Hstep.
      * split; [now rewrite lower_remaining_ids|now apply lower_remaining_valid].
      * exact Hrows'.
      * intros x Hx. destruct (Hin x (or_intror Hx)) as [Hxt Hxu]. split; [|exact Hxu].
        apply lower_remaining_keeps; [exact Hxt|].
        intros Eid. apply Hr. rewrite <- Eid. now apply in_map.
      * unfold a. lia.
Qed.

Lemma allocation_order_perm (product_id : Z) (d : db) :
  Permutation (allocation_order product_id d)
              (filter (unconsumed product_id) (inventory_purchases d)).
Proof. exact (allocation_rows product_id d). Qed.

Lemma allocation_order_positive (product_id : Z) (d : db) :
  Forall (fun r => 0 < ip_remaining_quantity r) (allocation_order product_id d).
Proof.
  eapply Permutation_Forall; [symmetry; apply allocation_order_perm|].
  apply unconsumed_rows_positive.
Qed.

Lemma allocation_order_nodup (product_id : Z) (d : db) :
  valid_ledger (inventory_purchases d) ->
  NoDup (map ip_id (allocation_order product_id d)).
Proof.
  intros Hv.
  eapply Permutation_NoDup;
    [symmetry; apply Permutation_map; apply allocation_order_perm|].
  apply NoDup_map_filter. apply Hv.
Qed.

Lemma allocation_order_in (product_id : Z) (d : db) (r : inventory_purchase) :
  In r (allocation_order product_id d) <->
  In r (inventory_purchases d) /\ unconsumed product_id r = true.
Proof.
  rewrite <- filter_In. split; apply Permutation_in;
    [|symmetry]; apply allocation_order_perm.
Qed.

Lemma allocation_order_sum (product_id : Z) (d : db) :
  sum_Z (map ip_remaining_quantity (allocation_order product_id d))
  = total_unconsumed product_id (inventory_purchases d).
Proof.
  unfold total_unconsumed. apply sum_Z_perm, Permutation_map, allocation_order_perm.
Qed.

(** A lot of the ledger is walked by the loop exactly when its id is among
    the ids of the rows walked. *)
Lemma walked_by_id (product_id : Z) (d : db) (l : inventory_purchase) :
  valid_ledger (inventory_purchases d) -> In l (inventory_purchases d) ->
  In (ip_id l) (map ip_id (allocation_order product_id d)) ->
  In l (allocation_order product_id d).
Proof.
  intros [Hnd _] Hl Hid. apply in_map_iff in Hid. destruct Hid as [r [E Hr]].
  assert (r = l) as <-; [|exact Hr].
  apply (NoDup_map_inj ip_id (inventory_purchases d)); auto.
  now apply allocation_order_in in Hr.
Qed.

(** [allocate_inventory_on_sale] in closed form. *)
Lemma allocate_inventory_on_sale_closed_form (d : db) (product_id quantity : Z) :
  valid_ledger (inventory_purchases d) -> 0 <= quantity ->
  allocate_inventory_on_sale product_id quantity d
  = if total_unconsumed product_id (inventory_purchases d) <? quantity
    then Raise (insufficient_inventory_to_allocate
                  (quantity - total_unconsumed product_id (inventory_purchases d)))
    else Ok (with_inventory_purchases d
               (map (after_allocation (allocation_order product_id d) quantity)
                    (inventory_purchases d))).
Proof.
  intros Hv Hq. unfold allocate_inventory_on_sale.
  change (if String.eqb (get_inventory_costing_method d) "FIFO"
          then select_oldest_first product_id (inventory_purchases d)
          else if String.eqb (get_inventory_costing_method d) "LIFO"
               then select_newest_first product_id (inventory_purchases d)
               else select_oldest_first product_id (inventory_purchases d))
    with (allocation_order product_id d).
  rewrite (allocate_loop_closed_form product_id); auto.
  - simpl. rewrite allocation_order_sum.
    destruct (Z.ltb_spec (total_unconsumed product_id (inventory_purchases d)) quantity).
    + destruct (Z.ltb_spec 0 (Z.max 0 (quantity - total_unconsumed product_id
                                                    (inventory_purchases d)))); [|lia].
      f_equal. f_equal. lia.
    + destruct (Z.ltb_spec 0 (Z.max 0 (quantity - total_unconsumed product_id
                                                    (inventory_purchases d)))); [lia|].
      reflexivity.
  - now apply allocation_order_nodup.
  - intros r Hr. now apply allocation_order_in.
Qed.

Lemma allocated_ledger (d d' : db) (product_id quantity : Z) :
  valid_ledger (inventory_purchases d) -> 0 <= quantity ->
  allocate_inventory_on_sale product_id quantity d = Ok d' ->
  quantity <= total_unconsumed product_id (inventory_purchases d) /\
  d' = with_inventory_purchases d
         (map (after_allocation (allocation_order product_id d) quantity)
              (inventory_purchases d)).
Proof.
  intros Hv Hq. rewrite allocate_inventory_on_sale_closed_form by assumption.
  destruct (Z.ltb_spec (total_unconsumed product_id (inventory_purchases d)) quantity);
    [discriminate|].
  intros Hok. injection Hok as <-. now split.
Qed.

(** What the loop takes from a lot of the ledger: nothing from a lot it
    does not walk, and never more than the lot holds. *)
Lemma taken_from_ledger (d : db) (product_id quantity : Z) (l : inventory_purchase) :
  valid_ledger (inventory_purchases d) -> 0 <= quantity ->
  In l (inventory_purchases d) ->
  0 <= taken (allocation_order product_id d) quantity (ip_id l)
    <= ip_remaining_quantity l /\
  (unconsumed product_id l = false ->
   taken (allocation_order product_id d) quantity (ip_id l) = 0).
Proof.
  intros Hv Hq Hl.
  destruct (in_dec Z.eq_dec (ip_id l) (map ip_id (allocation_order product_id d)))
    as [Hin|Hout].
  - pose proof (walked_by_id product_id d l Hv Hl Hin) as Hrow. split.
    + apply taken_range; auto.
      * apply allocation_order_positive.
      * now apply allocation_order_nodup.
    + intros Hu. apply allocation_order_in in Hrow. destruct Hrow. congruence.
  - rewrite taken_absent by exact Hout. split; [|reflexivity].
    destruct Hv as [_ Hall]. rewrite Forall_forall in Hall.
    destruct (Hall l Hl) as [_ [_ [H _]]]. lia.
Qed.

Lemma Forall2_map_right {A B : Type} (R : A -> B -> Prop) (f : A -> B) (l : list A) :
  (forall x, In x l -> R x (f x)) -> Forall2 R l (map f l).
Proof.
  induction l as [|x l IH]; simpl; intros H; constructor; auto.
Qed.

(** X1.  An allocation request that is not negative and succeeds only
    consumes: it changes nothing but [inventory_purchases], and there
    nothing but [remaining_quantity], which it never raises and which it
    leaves alone in the lots of every other product; no lot is added or
    dropped. *)
Theorem allocation_only_consumes (d d' : db) (product_id quantity : Z) :
  valid_ledger (inventory_purchases d) -> 0 <= quantity ->
  allocate_inventory_on_sale product_id quantity d = Ok d' ->
  products d' = products d /\
  sale_items d' = sale_items d /\
  system_settings d' = system_settings d /\
  Forall2 (only_consumed product_id) (inventory_purchases d) (inventory_purchases d').
Proof.
  intros Hv Hq Hrun.
  destruct (allocated_ledger d d' product_id quantity Hv Hq Hrun) as [_ ->].
  repeat split. simpl. apply Forall2_map_right. intros l Hl.
  destruct (taken_from_ledger d product_id quantity l Hv Hq Hl) as [Hrange Hzero].
  unfold only_consumed, after_allocation. split; [|split].
  - now destruct l.
  - simpl. lia.
  - intros Hp. rewrite Hzero.
    + rewrite Z.sub_0_r. apply set_remaining_quantity_same.
    + unfold unconsumed. destruct (Z.eqb_spec (ip_product_id l) product_id); [contradiction|].
      reflexivity.
Qed.

(** Eight units allocated on the two lots of the example. *)
Lemma allocation_only_consumes_witness :
  exists d',
    allocate_inventory_on_sale 100 8 (Example.two_lots "FIFO") = Ok d' /\
    Forall2 (only_consumed 100)
            (inventory_purchases (Example.two_lots "FIFO")) (inventory_purchases d').
Proof.
  eexists. split; [reflexivity|].
  apply (allocation_only_consumes (Example.two_lots "FIFO") _ 100 8
           (example_ledger_valid "FIFO")); [lia|reflexivity].
Defined.

Lemma find_by_id_map (f : inventory_purchase -> inventory_purchase)
    (tbl : list inventory_purchase) (l : inventory_purchase) :
  (forall x, ip_id (f x) = ip_id x) ->
  NoDup (map ip_id tbl) -> In l tbl ->
  find (fun x => ip_id x =? ip_id l) (map f tbl) = Some (f l).
Proof.
  intros Hid. induction tbl as [|x tbl IH]; simpl; intros Hnd Hin; [contradiction|].
  inversion Hnd as [|? ? Hn Hd]; subst. rewrite Hid.
  destruct Hin as [->|Hin].
  - now rewrite Z.eqb_refl.
  - destruct (Z.eqb_spec (ip_id x) (ip_id l)) as [E|E]; [|now apply IH].
    exfalso. apply Hn. rewrite E. now apply in_map.
Qed.

Lemma remaining_after_allocation (d : db) (product_id quantity : Z)
    (l : inventory_purchase) :
  valid_ledger (inventory_purchases d) -> In l (inventory_purchases d) ->
  remaining_of (ip_id l)
    (with_inventory_purchases d
       (map (after_allocation (allocation_order product_id d) quantity)
            (inventory_purchases d)))
  = Some (ip_remaining_quantity l
          - taken (allocation_order product_id d) quantity (ip_id l)).
Proof.
  intros [Hnd _] Hl. unfold remaining_of. simpl.
  rewrite find_by_id_map; auto.
Qed.

(** In the walk, a lot is reached only once the lots before it are empty. *)
Lemma taken_in_order (rows : list inventory_purchase) (a b : inventory_purchase)
    (need : Z) :
  0 <= need ->
  Forall (fun x => 0 < ip_remaining_quantity x) rows ->
  NoDup (map ip_id rows) ->
  precedes a b rows ->
  taken rows need (ip_id b) <> 0 ->
  taken rows need (ip_id a) = ip_remaining_quantity a.
Proof.
  intros Hneed Hpos Hnd [l1 [l2 [l3 ->]]] Hb.
  assert (Hsplit : l1 ++ a :: l2 ++ b :: l3 = (l1 ++ a :: l2) ++ b :: l3)
    by (rewrite <- app_assoc; reflexivity).
  assert (Hpos1 : Forall (fun x => 0 < ip_remaining_quantity x) l1)
    by (apply Forall_app in Hpos; tauto).
  assert (Hpos2 : Forall (fun x => 0 < ip_remaining_quantity x) (l1 ++ a :: l2)).
  { rewrite Hsplit in Hpos. apply Forall_app in Hpos. tauto. }
  assert (Ha : 0 < ip_remaining_quantity a).
  { apply Forall_app in Hpos2. destruct Hpos2 as [_ H]. now inversion H. }
  assert (Hb' : 0 < ip_remaining_quantity b).
  { rewrite Hsplit in Hpos. apply Forall_app in Hpos. destruct Hpos as [_ H]. now inversion H. }
  assert (Hna : ~ In (ip_id a) (map ip_id l1)).
  { rewrite map_app in Hnd. simpl in Hnd. apply NoDup_remove_2 in Hnd.
    intros H. apply Hnd. apply in_or_app. now left. }
  assert (Hnb : ~ In (ip_id b) (map ip_id (l1 ++ a :: l2))).
  { rewrite Hsplit, map_app in Hnd. simpl in Hnd. apply NoDup_remove_2 in Hnd.
    intros H. apply Hnd. apply in_or_app. now left. }
  rewrite Hsplit, taken_at in Hb by assumption. rewrite taken_at by assumption.
  rewrite map_app, sum_Z_app in Hb. simpl in Hb.
  assert (Hl2 : Forall (fun x => 0 < ip_remaining_quantity x) l2).
  { apply Forall_app in Hpos2. destruct Hpos2 as [_ H]. now inversion H. }
  pose proof (rows_sum_nonneg l2 Hl2). lia.
Qed.

(** X2.  Lots are consumed in the order of the policy.  When an
    allocation that is not negative succeeds and has taken something from a
    lot, every lot of the product received before it (after it, under
    LIFO) that still held units is left empty. *)
Theorem lots_are_emptied_in_policy_order
    (d d' : db) (product_id quantity : Z) (a b : inventory_purchase) :
  valid_ledger (inventory_purchases d) -> 0 <= quantity ->
  allocate_inventory_on_sale product_id quantity d = Ok d' ->
  In a (inventory_purchases d) -> In b (inventory_purchases d) ->
  unconsumed product_id a = true -> unconsumed product_id b = true ->
  (if String.eqb (get_inventory_costing_method d) "LIFO"
   then ip_purchased_at b < ip_purchased_at a
   else ip_purchased_at a < ip_purchased_at b) ->
  remaining_of (ip_id b) d' <> Some (ip_remaining_quantity b) ->
  remaining_of (ip_id a) d' = Some 0.
Proof.
  intros Hv Hq Hrun Ha Hb Ua Ub Horder Htouched.
  destruct (allocated_ledger d d' product_id quantity Hv Hq Hrun) as [_ ->].
  rewrite remaining_after_allocation in Htouched |- * by assumption.
  assert (Hprec : precedes a b (allocation_order product_id d)).
  { assert (Hina : In a (allocation_order product_id d))
      by (apply allocation_order_in; now split).
    assert (Hinb : In b (allocation_order product_id d))
      by (apply allocation_order_in; now split).
    revert Hina Hinb. unfold allocation_order.
    destruct (String.eqb (get_inventory_costing_method d) "FIFO") eqn:Efifo.
    - assert (String.eqb (get_inventory_costing_method d) "LIFO" = false) as Elifo.
      { apply String.eqb_eq in Efifo. now rewrite Efifo. }
      rewrite Elifo in Horder. intros Hina Hinb.
      apply (sorted_precedes purchased_at_asc_id_asc asc_total); auto.
      + apply order_by_sorted; [exact asc_total|exact asc_trans].
      + unfold purchased_at_asc_id_asc. by_cases_on_comparisons.
    - destruct (String.eqb (get_inventory_costing_method d) "LIFO"); intros Hina Hinb.
      + apply (sorted_precedes purchased_at_desc_id_desc desc_total); auto.
        * apply order_by_sorted; [exact desc_total|exact desc_trans].
        * unfold purchased_at_desc_id_desc. by_cases_on_comparisons.
      + apply (sorted_precedes purchased_at_asc_id_asc asc_total); auto.
        * apply order_by_sorted; [exact asc_total|exact asc_trans].
        * unfold purchased_at_asc_id_asc. by_cases_on_comparisons. }
  f_equal.
  rewrite (taken_in_order (allocation_order product_id d) a b quantity); auto.
  - lia.
  - apply allocation_order_positive.
  - now apply allocation_order_nodup.
  - intros Hz. apply Htouched. rewrite Hz. f_equal. lia.
Qed.

(** Eight units under FIFO: L2 is touched, so L1, the older lot, is empty. *)
Lemma lots_are_emptied_in_policy_order_witness :
  exists d',
    allocate_inventory_on_sale 100 8 (Example.two_lots "FIFO") = Ok d' /\
    remaining_of 1 d' = Some 0.
Proof.
  eexists. split; [reflexivity|].
  apply (lots_are_emptied_in_policy_order (Example.two_lots "FIFO") _ 100 8
           Example.L1 Example.L2 (example_ledger_valid "FIFO")).
  - lia.
  - reflexivity.
  - now left.
  - right; now left.
  - reflexivity.
  - reflexivity.
  - reflexivity.
  - discriminate.
Defined.

(** ** The depletion boundary *)

(** Asked for everything the rows hold, or more, the walk takes every row
    whole. *)
Lemma taken_everything (rows : list inventory_purchase) (r : inventory_purchase)
    (need : Z) :
  sum_Z (map ip_remaining_quantity rows) <= need ->
  Forall (fun x => 0 < ip_remaining_quantity x) rows ->
  NoDup (map ip_id rows) -> In r rows ->
  taken rows need (ip_id r) = ip_remaining_quantity r.
Proof.
  intros Hneed Hpos Hnd Hin. apply in_split in Hin. destruct Hin as [pre [post ->]].
  rewrite map_app in Hnd. simpl in Hnd. apply NoDup_remove_2 in Hnd.
  apply Forall_app in Hpos. destruct Hpos as [Hpre Hpost].
  pose proof (rows_sum_nonneg pre Hpre) as Hs1.
  pose proof (rows_sum_nonneg (r :: post) Hpost) as Hs2.
  inversion Hpost as [|? ? Hr Hpost']; subst.
  pose proof (rows_sum_nonneg post Hpost') as Hs3.
  rewrite map_app, sum_Z_app in Hneed. simpl in Hneed, Hs2.
  rewrite taken_at; try assumption; try lia.
  intros H. apply Hnd. apply in_or_app. now left.
Qed.

(** The ledger once every unit of a product is allocated, or more is asked
    for: the same lots, in the same places, those of the product at 0. *)
Lemma allocation_of_everything (d : db) (product_id quantity : Z) :
  valid_ledger (inventory_purchases d) ->
  total_unconsumed product_id (inventory_purchases d) <= quantity ->
  map (after_allocation (allocation_order product_id d) quantity)
      (inventory_purchases d)
  = map (fun l => if ip_product_id l =? product_id
                  then set_remaining_quantity l 0 else l)
        (inventory_purchases d).
Proof.
  intros Hv Hq. apply map_ext_in. intros l Hl. unfold after_allocation.
  assert (Hav : 0 <= quantity).
  { pose proof (rows_sum_nonneg _ (allocation_order_positive product_id d)) as H.
    rewrite allocation_order_sum in H. lia. }
  destruct (unconsumed product_id l) eqn:Hu.
  - rewrite taken_everything.
    + unfold unconsumed in Hu. apply andb_true_iff in Hu. destruct Hu as [Hp _].
      rewrite Hp. f_equal. lia.
    + rewrite allocation_order_sum. lia.
    + apply allocation_order_positive.
    + now apply allocation_order_nodup.
    + now apply allocation_order_in.
  - destruct (taken_from_ledger d product_id _ l Hv Hav Hl) as [_ Hzero].
    rewrite (Hzero Hu), Z.sub_0_r.
    unfold unconsumed in Hu. destruct (ip_product_id l =? product_id); simpl in Hu.
    + destruct Hv as [_ Hall]. rewrite Forall_forall in Hall.
      destruct (Hall l Hl) as [_ [_ [Hrem _]]].
      apply Z.ltb_ge in Hu. f_equal. lia.
    + apply set_remaining_quantity_same.
Qed.

(** C2.  On a ledger whose rows satisfy their constraints, a request above
    the total unconsumed quantity of the product makes
    [allocate_inventory_on_sale] raise 'Insufficient inventory to allocate'
    with the number of missing units.  Its loop has by then written
    [remaining_quantity = 0] into every lot of the product; the error undoes
    these writes, and the statement leaves the database, so every lot, as it
    was.  A request of exactly the total succeeds, and the database it
    leaves is the one it found with [remaining_quantity = 0] in every lot of
    the product: no lot is added, dropped or moved, the lots of other
    products and the other tables are as they were. *)
Theorem depletion_boundary (d : db) (product_id quantity : Z) :
  valid_ledger (inventory_purchases d) ->
  let available := total_unconsumed product_id (inventory_purchases d) in
  let emptied :=
    map (fun l => if ip_product_id l =? product_id
                  then set_remaining_quantity l 0 else l)
        (inventory_purchases d) in
  (available < quantity ->
   allocate_loop (allocation_order product_id d) (inventory_purchases d) quantity
   = Ok (emptied, quantity - available) /\
   allocate_inventory_on_sale product_id quantity d
   = Raise (insufficient_inventory_to_allocate (quantity - available)) /\
   run (allocate_inventory_on_sale product_id quantity) d
   = (d, Some (insufficient_inventory_to_allocate (quantity - available)))) /\
  (quantity = available ->
   allocate_inventory_on_sale product_id quantity d
   = Ok (with_inventory_purchases d emptied) /\
   forall d',
     allocate_inventory_on_sale product_id quantity d = Ok d' ->
     map ip_id (inventory_purchases d') = map ip_id (inventory_purchases d) /\
     forall l, In l (inventory_purchases d') ->
               ip_product_id l = product_id -> ip_remaining_quantity l = 0).
Proof.
  intros Hv available emptied.
  assert (Hav : 0 <= available).
  { unfold available. rewrite <- (allocation_order_sum product_id d).
    apply rows_sum_nonneg, allocation_order_positive. }
  split.
  - intros Hlt.
    assert (Hfail : allocate_inventory_on_sale product_id quantity d
                    = Raise (insufficient_inventory_to_allocate (quantity - available))).
    { rewrite allocate_inventory_on_sale_closed_form by (auto; lia).
      fold available. destruct (Z.ltb_spec available quantity); [reflexivity|lia]. }
    split; [|split; [exact Hfail|unfold run; now rewrite Hfail]].
    rewrite (allocate_loop_closed_form product_id); auto; try lia.
    + rewrite allocation_order_sum. fold available.
      rewrite allocation_of_everything by (auto; fold available; lia).
      f_equal. f_equal. lia.
    + now apply allocation_order_nodup.
    + intros r Hr. now apply allocation_order_in.
  - intros Heq.
    assert (Hok : allocate_inventory_on_sale product_id quantity d
                  = Ok (with_inventory_purchases d emptied)).
    { rewrite allocate_inventory_on_sale_closed_form by (auto; lia).
      fold available. destruct (Z.ltb_spec available quantity); [lia|].
      rewrite allocation_of_everything by (auto; fold available; lia). reflexivity. }
    split; [exact Hok|].
    intros d' Hd'. rewrite Hok in Hd'. injection Hd' as <-. simpl. split.
    + unfold emptied. rewrite map_map. apply map_ext. intros l.
      now destruct (ip_product_id l =? product_id).
    + intros l Hl Hp. apply in_map_iff in Hl. destruct Hl as [l0 [<- _]].
      destruct (Z.eqb_spec (ip_product_id l0) product_id) as [E|E]; [reflexivity|].
      congruence.
Qed.

(** The depletion boundary on the two lots of the example: 11 units are one
    too many and nothing is written; 10 units leave the same two lots, both
    at 0. *)
Lemma depletion_boundary_witness :
  run (allocate_inventory_on_sale 100 11) (Example.two_lots "FIFO")
  = (Example.two_lots "FIFO", Some (insufficient_inventory_to_allocate 1)) /\
  allocate_inventory_on_sale 100 10 (Example.two_lots "FIFO")
  = Ok (with_inventory_purchases (Example.two_lots "FIFO")
          [set_remaining_quantity Example.L1 0; set_remaining_quantity Example.L2 0]).
Proof.
  split.
  - exact (proj2 (proj2 (proj1 (depletion_boundary (Example.two_lots "FIFO") 100 11
                                  (example_ledger_valid "FIFO")) eq_refl))).
  - exact (proj1 (proj2 (depletion_boundary (Example.two_lots "FIFO") 100 10
                           (example_ledger_valid "FIFO")) eq_refl)).
Defined.

(** ** The cost of a sale *)

(** [ROUND(x, 2)] of an amount that has two decimals already. *)
Lemma to_decimal2_of_decimal2 (c : decimal2) : to_decimal2 (numeric_of_decimal2 c) = c.
Proof.
  unfold to_decimal2, numeric_of_decimal2, round_half_away.
  cbv [Qmult Qnum Qden]. change (Z.pos (100 * 1)) with 100.
  replace (2 * Z.abs (c * 100) + 100) with (100 + Z.abs c * (2 * 100)) by lia.
  rewrite Z.div_add by lia. change (100 / (2 * 100)) with 0. lia.
Qed.

(** The rounding to two places of the quotient of an amount by a count, in
    integer arithmetic. *)
Lemma to_decimal2_quotient (V T : Z) :
  0 <= V -> 0 < T ->
  to_decimal2 (numeric_of_decimal2 V / inject_Z T) = (2 * V + T) / (2 * T).
Proof.
  intros HV HT. unfold to_decimal2, numeric_of_decimal2, round_half_away.
  destruct T as [|p|p]; try lia.
  cbv [Qdiv Qinv inject_Z Qmult Qnum Qden].
  replace (Z.pos (100 * p * 1)) with (100 * Z.pos p) by lia.
  replace (2 * Z.abs (V * 1 * 100) + 100 * Z.pos p)
    with (100 * (2 * V + Z.pos p)) by lia.
  replace (2 * (100 * Z.pos p)) with (100 * (2 * Z.pos p)) by lia.
  rewrite Z.div_mul_cancel_l by lia.
  destruct (Z.eq_dec V 0) as [->|Hne].
  - simpl Z.sgn. rewrite Z.div_small by lia. reflexivity.
  - rewrite Z.sgn_pos by lia. lia.
Qed.

Lemma decimal_10_2_fits (c : decimal2) :
  Z.abs c < 10000000000 -> decimal_10_2 c = Ok c.
Proof.
  intros H. unfold decimal_10_2. destruct (Z.ltb_spec (Z.abs c) 10000000000); [reflexivity|lia].
Qed.

Lemma decimal_10_2_overflow (c : decimal2) :
  10000000000 <= Z.abs c -> decimal_10_2 c = Raise numeric_field_overflow.
Proof.
  intros H. unfold decimal_10_2. destruct (Z.ltb_spec (Z.abs c) 10000000000); [lia|reflexivity].
Qed.

Lemma decimal_10_2_ok (c c' : decimal2) :
  decimal_10_2 c = Ok c' -> c' = c /\ Z.abs c < 10000000000.
Proof.
  unfold decimal_10_2. destruct (Z.ltb_spec (Z.abs c) 10000000000); [|discriminate].
  intros Hok. injection Hok as <-. now split.
Qed.

Lemma decimal_10_2_raises (c : decimal2) (e : pg_error) :
  decimal_10_2 c = Raise e -> e = numeric_field_overflow.
Proof.
  unfold decimal_10_2. destruct (_ <? _); [discriminate|]. congruence.
Qed.

(** [RETURN ROUND(v_total_cost, 2)] returns [v_total_cost]. *)
Lemma return_rounded (c : result decimal2) :
  (v_total_cost <- c ;; Ok (to_decimal2 (numeric_of_decimal2 v_total_cost))) = c.
Proof.
  destruct c as [v|e]; simpl; [|reflexivity]. now rewrite to_decimal2_of_decimal2.
Qed.

Lemma cost_loop_raises (rows : list inventory_purchase) :
  forall total_cost need e,
    cost_loop rows total_cost need = Raise e -> e = numeric_field_overflow.
Proof.
  induction rows as [|r rows IH]; intros total_cost need e; simpl; [discriminate|].
  destruct (decimal_10_2 _) as [c|e'] eqn:E; simpl.
  - destruct (_ =? 0); [discriminate|]. apply IH.
  - intros H. injection H as <-. now apply decimal_10_2_raises in E.
Qed.

(** The only error [calculate_sale_cost] raises. *)
Lemma calculate_sale_cost_raises (d : db) (product_id quantity : Z) (e : pg_error) :
  calculate_sale_cost d product_id quantity = Raise e -> e = numeric_field_overflow.
Proof.
  unfold calculate_sale_cost. rewrite return_rounded.
  destruct (String.eqb _ "FIFO"); [apply cost_loop_raises|].
  destruct (String.eqb _ "LIFO"); [apply cost_loop_raises|].
  destruct (decimal_10_2 _) as [c|e'] eqn:E; simpl.
  - apply decimal_10_2_raises.
  - intros H. injection H as <-. now apply decimal_10_2_raises in E.
Qed.

Lemma taken_nonneg (rows : list inventory_purchase) :
  forall need lot_id,
    0 <= need -> Forall (fun x => 0 < ip_remaining_quantity x) rows ->
    0 <= taken rows need lot_id.
Proof.
  induction rows as [|r rows IH]; intros need lot_id Hneed Hpos; simpl; [lia|].
  inversion Hpos as [|? ? Hr Hrows]; subst.
  destruct (ip_id r =? lot_id); [lia|]. apply IH; [lia|assumption].
Qed.

Lemma cost_of_taken_nonneg (rows walked : list inventory_purchase) (need : Z) :
  0 <= need ->
  Forall (fun x => 0 < ip_remaining_quantity x) walked ->
  Forall (fun x => 0 <= ip_unit_cost x) rows ->
  0 <= sum_Z (map (fun r => taken walked need (ip_id r) * ip_unit_cost r) rows).
Proof.
  intros Hneed Hpos Hcost. apply sum_Z_nonneg. apply Forall_forall.
  intros x Hx. apply in_map_iff in Hx. destruct Hx as [r [<- Hr]].
  rewrite Forall_forall in Hcost. specialize (Hcost r Hr).
  pose proof (taken_nonneg walked need (ip_id r) Hneed Hpos). nia.
Qed.

(** The cost loop charges each lot for the units the allocation loop takes
    from it; the running total, which never decreases, fits
    [DECIMAL(10,2)] all along exactly when the final total does. *)
Lemma cost_loop_is_cost_of_taken (rows : list inventory_purchase) :
  forall total_cost need,
    0 <= total_cost < 10000000000 -> 0 <= need ->
    Forall (fun x => 0 < ip_remaining_quantity x) rows ->
    Forall (fun x => 0 <= ip_unit_cost x) rows ->
    NoDup (map ip_id rows) ->
    cost_loop rows total_cost need
    = decimal_10_2
        (total_cost
         + sum_Z (map (fun r => taken rows need (ip_id r) * ip_unit_cost r) rows)).
Proof.
  induction rows as [|r rows IH]; intros total_cost need Hc Hneed Hpos Hcost Hnd; simpl.
  - rewrite Z.add_0_r. symmetry. apply decimal_10_2_fits. lia.
  - inversion Hpos as [|? ? Hr Hrows]; subst. inversion Hnd as [|? ? Hn Hd]; subst.
    inversion Hcost as [|? ? Hrc Hcosts]; subst.
    rewrite Z.eqb_refl.
    set (a := Z.min (ip_remaining_quantity r) need).
    rewrite (map_ext_in (fun r0 => (if ip_id r =? ip_id r0 then a
                                    else taken rows (need - a) (ip_id r0)) * ip_unit_cost r0)
                        (fun r0 => taken rows (need - a) (ip_id r0) * ip_unit_cost r0)).
    2:{ intros x Hx. destruct (Z.eqb_spec (ip_id r) (ip_id x)) as [E|E]; [|reflexivity].
        exfalso. apply Hn. rewrite E. now apply in_map. }
    assert (Ha : 0 <= a) by (unfold a; lia).
    assert (Hrest : 0 <= sum_Z (map (fun r0 => taken rows (need - a) (ip_id r0)
                                               * ip_unit_cost r0) rows)).
    { apply cost_of_taken_nonneg; auto. unfold a. lia. }
    destruct (Z.ltb_spec (Z.abs (total_cost + a * ip_unit_cost r)) 10000000000) as [Hfit|Hbig].
    + rewrite (decimal_10_2_fits _ Hfit). simpl.
      destruct (Z.eqb_spec (need - a) 0) as [E|E].
      * rewrite E.
        rewrite (map_ext (fun r0 => taken rows 0 (ip_id r0) * ip_unit_cost r0) (fun _ => 0))
          by (intros x; now rewrite taken_nothing).
        assert (sum_Z (map (fun _ : inventory_purchase => 0) rows) = 0) as ->
            by (clear; induction rows; simpl; lia).
        rewrite Z.add_0_r. symmetry. now apply decimal_10_2_fits.
      * rewrite IH; try assumption; try (unfold a; lia); try nia.
        f_equal. lia.
    + rewrite (decimal_10_2_overflow _ Hbig). simpl. symmetry.
      apply decimal_10_2_overflow. nia.
Qed.

(** [calculate_sale_cost] under FIFO and under LIFO, in closed form. *)
Lemma calculate_sale_cost_of_taken (d : db) (product_id quantity : Z) :
  valid_ledger (inventory_purchases d) -> 0 <= quantity ->
  get_inventory_costing_method d = "FIFO" \/ get_inventory_costing_method d = "LIFO" ->
  calculate_sale_cost d product_id quantity
  = decimal_10_2
      (sum_Z (map (fun r => taken (allocation_order product_id d) quantity (ip_id r)
                            * ip_unit_cost r)
                  (allocation_order product_id d))).
Proof.
  intros Hv Hq Hpolicy.
  pose proof (allocation_order_positive product_id d) as Hpos.
  pose proof (allocation_order_nodup product_id d Hv) as Hnd.
  assert (Hcosts : Forall (fun x => 0 <= ip_unit_cost x) (allocation_order product_id d)).
  { apply Forall_forall. intros r Hr. apply allocation_order_in in Hr.
    destruct Hv as [_ Hall]. rewrite Forall_forall in Hall.
    destruct (Hall r (proj1 Hr)) as [_ [Hc _]]. exact Hc. }
  pose proof (cost_loop_is_cost_of_taken (allocation_order product_id d) 0 quantity
                ltac:(lia) Hq Hpos Hcosts Hnd) as Hcost.
  unfold calculate_sale_cost. rewrite return_rounded.
  unfold allocation_order in *.
  destruct Hpolicy as [E|E]; rewrite E in *; simpl String.eqb in *; cbv iota in *;
    exact Hcost.
Qed.

Lemma policy_test (d : db) (policy : string) :
  get_inventory_costing_method d <> policy ->
  String.eqb (get_inventory_costing_method d) policy = false.
Proof. intros H. now apply String.eqb_neq. Qed.

(** The AVERAGE (and fallback) branch of [calculate_sale_cost]. *)
Lemma calculate_sale_cost_otherwise (d : db) (product_id quantity : Z) :
  get_inventory_costing_method d <> "FIFO" ->
  get_inventory_costing_method d <> "LIFO" ->
  calculate_sale_cost d product_id quantity
  = (unit_cost <-
       decimal_10_2
         (to_decimal2
            (weighted_average (filter (unconsumed product_id) (inventory_purchases d)))) ;;
     decimal_10_2 (unit_cost * quantity)).
Proof.
  intros H1 H2. unfold calculate_sale_cost.
  rewrite (policy_test d "FIFO" H1), (policy_test d "LIFO" H2).
  apply return_rounded.
Qed.

Lemma weighted_average_of_stock (product_id : Z) (tbl : list inventory_purchase) :
  0 < total_unconsumed product_id tbl ->
  weighted_average (filter (unconsumed product_id) tbl)
  = weighted_unit_cost product_id tbl.
Proof.
  unfold weighted_unit_cost, value_of_unconsumed, total_unconsumed, weighted_average.
  intros Hpos. destruct (filter (unconsumed product_id) tbl) as [|r rows] eqn:E.
  - simpl in Hpos. lia.
  - destruct (Z.eqb_spec (sum_Z (map ip_remaining_quantity (r :: rows))) 0); [lia|].
    reflexivity.
Qed.

(** C7, as the code has it.  Under AVERAGE, for a positive quantity not
    above the total unconsumed quantity, the cost of the sale is the
    weighted average unit cost of the unconsumed lots, rounded half-up to
    two decimal places, times the quantity sold: the unit cost is rounded
    before the multiplication, the product is not rounded again.  Both the
    unit cost and the product are held in [v_total_cost DECIMAL(10,2)]: the
    function returns the product when both fit and raises 'numeric field
    overflow' otherwise. *)
Theorem average_cost_rounds_the_unit_cost (d : db) (product_id quantity : Z) :
  get_inventory_costing_method d = "AVERAGE" ->
  0 < quantity <= total_unconsumed product_id (inventory_purchases d) ->
  let unit_cost :=
    to_decimal2 (weighted_unit_cost product_id (inventory_purchases d)) in
  calculate_sale_cost d product_id quantity
  = (unit_cost <- decimal_10_2 unit_cost ;; decimal_10_2 (unit_cost * quantity)) /\
  (Z.abs unit_cost < 10000000000 -> Z.abs (unit_cost * quantity) < 10000000000 ->
   calculate_sale_cost d product_id quantity = Ok (unit_cost * quantity)).
Proof.
  intros Hm Hq unit_cost.
  assert (Hcost : calculate_sale_cost d product_id quantity
                  = (unit_cost <- decimal_10_2 unit_cost ;;
                     decimal_10_2 (unit_cost * quantity))).
  { rewrite calculate_sale_cost_otherwise by (rewrite Hm; discriminate).
    rewrite weighted_average_of_stock by lia. reflexivity. }
  split; [exact Hcost|].
  intros Hunit Htotal. rewrite Hcost, (decimal_10_2_fits _ Hunit). simpl.
  now apply decimal_10_2_fits.
Qed.

(** One unit at 10.00 and two at 10.01, three units sold: the average
    10.0066... is rounded to 10.01 and the sale costs 30.03. *)
Lemma average_cost_rounds_the_unit_cost_witness :
  calculate_sale_cost AverageExample.three_units 100 3 = Ok (1001 * 3).
Proof.
  apply (average_cost_rounds_the_unit_cost AverageExample.three_units 100 3).
  - reflexivity.
  - vm_compute. split; [reflexivity|discriminate].
  - reflexivity.
  - reflexivity.
Defined.

(** C7, as stated, fails: with one unit at 10.00 and two at 10.01, selling
    the three units costs 30.03 in the code, and 30.02 by the formula that
    rounds after the multiplication. *)
Lemma average_cost_not_as_specified :
  get_inventory_costing_method AverageExample.three_units = "AVERAGE" /\
  0 < 3 <= total_unconsumed 100 (inventory_purchases AverageExample.three_units) /\
  calculate_sale_cost AverageExample.three_units 100 3 = Ok 3003 /\
  average_cost_as_specified 100 3 (inventory_purchases AverageExample.three_units) = 3002 /\
  calculate_sale_cost AverageExample.three_units 100 3
  <> Ok (average_cost_as_specified 100 3 (inventory_purchases AverageExample.three_units)).
Proof.
  repeat split; try reflexivity; try discriminate.
Qed.

(** Asked for more than the rows hold, the FIFO and the LIFO loop charge
    every unconsumed lot of the product in full. *)
Lemma cost_of_all_unconsumed (d : db) (product_id quantity : Z) :
  valid_ledger (inventory_purchases d) ->
  total_unconsumed product_id (inventory_purchases d) <= quantity ->
  sum_Z (map (fun r => taken (allocation_order product_id d) quantity (ip_id r)
                       * ip_unit_cost r)
             (allocation_order product_id d))
  = value_of_unconsumed product_id (inventory_purchases d).
Proof.
  intros Hv Hq.
  rewrite (map_ext_in _ (fun r => ip_remaining_quantity r * ip_unit_cost r)).
  - unfold value_of_unconsumed. apply sum_Z_perm, Permutation_map, allocation_order_perm.
  - intros r Hr. rewrite taken_everything; auto.
    + now rewrite allocation_order_sum.
    + apply allocation_order_positive.
    + now apply allocation_order_nodup.
Qed.

Lemma total_unconsumed_nonneg (product_id : Z) (tbl : list inventory_purchase) :
  0 <= total_unconsumed product_id tbl.
Proof. apply rows_sum_nonneg, unconsumed_rows_positive. Qed.

(** C10, as the code has it.  [calculate_sale_cost] has no RAISE of its
    own: the only error that comes out of it is the 'numeric field overflow'
    of an amount that does not fit its [DECIMAL(10,2)] variable.  Asked for
    more than the product's lots hold, on a ledger whose rows satisfy their
    constraints, it returns under FIFO and under LIFO the cost of the units
    that are there, each lot at its own unit cost, and under AVERAGE, or any
    other policy value, the rounded weighted average times the whole
    quantity asked for.  The shortage is signalled elsewhere:
    [allocate_inventory_on_sale] raises 'Insufficient inventory to
    allocate' for the same request, and in the trigger of a sale line the
    stock check raises 'Insufficient stock' before the cost is computed when
    the quantity exceeds [products.stock]; the allocation step is what
    raises only when the stock counter covers the quantity and the lots do
    not. *)
Theorem calculate_sale_cost_beyond_available (d : db) (product_id quantity : Z) :
  valid_ledger (inventory_purchases d) ->
  total_unconsumed product_id (inventory_purchases d) < quantity ->
  let missing := quantity - total_unconsumed product_id (inventory_purchases d) in
  calculate_sale_cost d product_id quantity
  = (if String.eqb (get_inventory_costing_method d) "FIFO"
        || String.eqb (get_inventory_costing_method d) "LIFO"
     then decimal_10_2 (value_of_unconsumed product_id (inventory_purchases d))
     else
       unit_cost <-
         decimal_10_2
           (to_decimal2
              (weighted_average
                 (filter (unconsumed product_id) (inventory_purchases d)))) ;;
       decimal_10_2 (unit_cost * quantity)) /\
  (forall e, calculate_sale_cost d product_id quantity = Raise e ->
             e = numeric_field_overflow) /\
  allocate_inventory_on_sale product_id quantity d
  = Raise (insufficient_inventory_to_allocate missing) /\
  (forall sv NEW p,
      si_product_id NEW = product_id -> si_quantity NEW = quantity ->
      find_product product_id d = Some p ->
      check_and_allocate_inventory sv NEW d
      = if p_stock p <? quantity
        then Raise (insufficient_stock product_id (p_stock p) quantity)
        else
          _ <- calculate_sale_cost d product_id quantity ;;
          Raise (insufficient_inventory_to_allocate missing)).
Proof.
  intros Hv Hlt missing.
  pose proof (total_unconsumed_nonneg product_id (inventory_purchases d)) as Hav.
  assert (Halloc : allocate_inventory_on_sale product_id quantity d
                   = Raise (insufficient_inventory_to_allocate missing)).
  { rewrite allocate_inventory_on_sale_closed_form by (auto; lia).
    destruct (Z.ltb_spec (total_unconsumed product_id (inventory_purchases d)) quantity);
      [reflexivity|lia]. }
  split; [|split; [|split]].
  - destruct (String.eqb (get_inventory_costing_method d) "FIFO") eqn:Efifo.
    + simpl. rewrite calculate_sale_cost_of_taken; auto; try lia.
      * rewrite cost_of_all_unconsumed; auto. lia.
      * left. now apply String.eqb_eq.
    + destruct (String.eqb (get_inventory_costing_method d) "LIFO") eqn:Elifo; simpl.
      * rewrite calculate_sale_cost_of_taken; auto; try lia.
        -- rewrite cost_of_all_unconsumed; auto. lia.
        -- right. now apply String.eqb_eq.
      * apply calculate_sale_cost_otherwise; now apply String.eqb_neq.
  - intros e. apply calculate_sale_cost_raises.
  - exact Halloc.
  - intros sv NEW p Hp Hn Hfind. unfold check_and_allocate_inventory.
    rewrite Hp, Hfind. simpl. rewrite Hp, Hn.
    destruct (p_stock p <? quantity); simpl; [reflexivity|].
    destruct (calculate_sale_cost d product_id quantity) as [c|e]; simpl; [|reflexivity].
    destruct (Z.eqb_spec quantity 0); [lia|]. simpl.
    now rewrite Halloc.
Qed.

(** Eleven units asked of the two lots of the example, which hold ten and
    whose product has ten in stock: under FIFO the cost function answers
    the cost of the ten, 110.00; the allocation misses one unit; the
    trigger of a sale line stops at the stock check. *)
Lemma calculate_sale_cost_beyond_available_witness :
  calculate_sale_cost (Example.two_lots "FIFO") 100 11 = Ok 11000 /\
  allocate_inventory_on_sale 100 11 (Example.two_lots "FIFO")
  = Raise (insufficient_inventory_to_allocate 1) /\
  check_and_allocate_inventory (mk_server 0 0)
    (mk_sale_item 500 900 100 11 1500 1200 16500) (Example.two_lots "FIFO")
  = Raise (insufficient_stock 100 10 11).
Proof.
  destruct (calculate_sale_cost_beyond_available (Example.two_lots "FIFO") 100 11
              (example_ledger_valid "FIFO") eq_refl) as [Hcost [_ [Halloc Htrigger]]].
  split; [exact Hcost|]. split; [exact Halloc|].
  exact (Htrigger (mk_server 0 0) (mk_sale_item 500 900 100 11 1500 1200 16500)
                  (mk_product 100 1200 10 true 0) eq_refl eq_refl eq_refl).
Defined.

(** C10, as stated, fails twice.  Under AVERAGE, with five units at 10.00
    in the ledger and eight asked for, the function returns 80.00, the price
    of eight units, where the cost of the available units is 50.00.  And it
    does not always return: at the prices of the valuation guide, 1,252
    units asked under AVERAGE come to 100,008,245.08, which does not fit
    [DECIMAL(10,2)]. *)
Lemma average_cost_is_not_a_partial_total :
  total_unconsumed 100 (inventory_purchases AverageExample.five_units) < 8 /\
  calculate_sale_cost AverageExample.five_units 100 8 = Ok 8000 /\
  value_of_unconsumed 100 (inventory_purchases AverageExample.five_units) = 5000 /\
  calculate_sale_cost AverageExample.five_units 100 8
  <> Ok (value_of_unconsumed 100 (inventory_purchases AverageExample.five_units)) /\
  total_unconsumed 100 (inventory_purchases AverageExample.guide_prices) < 1252 /\
  calculate_sale_cost AverageExample.guide_prices 100 1252 = Raise numeric_field_overflow.
Proof.
  repeat split; try reflexivity; discriminate.
Qed.

(** ** The cost of a sale and the units it takes *)

Lemma combine_with_map {A B C : Type} (f : A -> B) (g : A * B -> C) (l : list A) :
  map g (combine l (map f l)) = map (fun x => g (x, f x)) l.
Proof.
  induction l as [|x l IH]; simpl; [reflexivity|]. now rewrite IH.
Qed.

Lemma sum_Z_filter_support {A : Type} (p : A -> bool) (h : A -> Z) (l : list A) :
  (forall x, In x l -> p x = false -> h x = 0) ->
  sum_Z (map h l) = sum_Z (map h (filter p l)).
Proof.
  induction l as [|x l IH]; simpl; intros H; [reflexivity|].
  rewrite IH by (intros y Hy; apply H; now right).
  destruct (p x) eqn:E; simpl; [reflexivity|].
  rewrite (H x (or_introl eq_refl) E). lia.
Qed.

(** The units an allocation takes, at the unit costs of their lots, as a
    sum over the rows the loop walks. *)
Lemma cost_of_consumption_allocated (d : db) (product_id quantity : Z) :
  valid_ledger (inventory_purchases d) -> 0 <= quantity ->
  cost_of_consumption (inventory_purchases d)
    (map (after_allocation (allocation_order product_id d) quantity)
         (inventory_purchases d))
  = sum_Z (map (fun r => taken (allocation_order product_id d) quantity (ip_id r)
                         * ip_unit_cost r)
               (allocation_order product_id d)).
Proof.
  intros Hv Hq. unfold cost_of_consumption. rewrite combine_with_map. simpl.
  rewrite (map_ext
             (fun x => (ip_remaining_quantity x
                        - (ip_remaining_quantity x
                           - taken (allocation_order product_id d) quantity (ip_id x)))
                       * ip_unit_cost x)
             (fun r => taken (allocation_order product_id d) quantity (ip_id r)
                       * ip_unit_cost r))
    by (intros x; f_equal; lia).
  rewrite (sum_Z_filter_support (unconsumed product_id)).
  - apply sum_Z_perm, Permutation_map. symmetry. apply allocation_order_perm.
  - intros l Hl Hu.
    destruct (taken_from_ledger d product_id quantity l Hv Hq Hl) as [_ Hzero].
    rewrite (Hzero Hu). reflexivity.
Qed.

(** X3.  Under FIFO and under LIFO the cost computed for a sale is the
    cost of the units the allocation then takes: for each lot, what it
    held before minus what it holds after, at the lot's unit cost.  The
    function returns that amount when it fits [DECIMAL(10,2)] and raises
    'numeric field overflow' when it does not. *)
Theorem sale_cost_is_the_cost_of_the_units_taken
    (d d' : db) (product_id quantity : Z) :
  valid_ledger (inventory_purchases d) -> 0 <= quantity ->
  get_inventory_costing_method d = "FIFO" \/ get_inventory_costing_method d = "LIFO" ->
  allocate_inventory_on_sale product_id quantity d = Ok d' ->
  calculate_sale_cost d product_id quantity
  = decimal_10_2 (cost_of_consumption (inventory_purchases d) (inventory_purchases d')).
Proof.
  intros Hv Hq Hpolicy Hrun.
  destruct (allocated_ledger d d' product_id quantity Hv Hq Hrun) as [_ ->].
  simpl. rewrite cost_of_consumption_allocated by assumption.
  now apply calculate_sale_cost_of_taken.
Qed.

(** Eight units under LIFO: 5 of L2 at 12.00 and 3 of L1 at 10.00. *)
Lemma sale_cost_is_the_cost_of_the_units_taken_witness :
  exists d',
    allocate_inventory_on_sale 100 8 (Example.two_lots "LIFO") = Ok d' /\
    calculate_sale_cost (Example.two_lots "LIFO") 100 8
    = decimal_10_2 (cost_of_consumption (inventory_purchases (Example.two_lots "LIFO"))
                                        (inventory_purchases d')).
Proof.
  eexists. split; [reflexivity|].
  apply (sale_cost_is_the_cost_of_the_units_taken (Example.two_lots "LIFO") _ 100 8
           (example_ledger_valid "LIFO")).
  - lia.
  - now right.
  - reflexivity.
Defined.

(** ** Bounds on the cost of a sale *)

Lemma weighted_sum_bounds {A : Type} (t c : A -> Z) (lo hi : Z) (l : list A) :
  Forall (fun x => 0 <= t x) l ->
  Forall (fun x => lo <= c x <= hi) l ->
  lo * sum_Z (map t l) <= sum_Z (map (fun x => t x * c x) l) <= hi * sum_Z (map t l).
Proof.
  induction l as [|x l IH]; simpl; intros Ht Hc; [lia|].
  inversion Ht; subst. inversion Hc; subst.
  specialize (IH ltac:(assumption) ltac:(assumption)). nia.
Qed.

Lemma value_of_unconsumed_nonneg (product_id : Z) (tbl : list inventory_purchase) :
  Forall valid_purchase tbl -> 0 <= value_of_unconsumed product_id tbl.
Proof.
  intros Hall. unfold value_of_unconsumed. apply sum_Z_nonneg. apply Forall_forall.
  intros x Hx. apply in_map_iff in Hx. destruct Hx as [r [<- Hr]].
  apply filter_In in Hr. destruct Hr as [Hr Hu].
  rewrite Forall_forall in Hall. destruct (Hall r Hr) as [_ [Hc [Hrem _]]]. nia.
Qed.

(** X4.  Whatever the policy value, the cost the function returns for a
    quantity the ledger can serve lies between that quantity at the lowest
    and at the highest unit cost among the unconsumed lots of the
    product. *)
Theorem sale_cost_within_lot_costs (d : db) (product_id quantity lo hi cost : Z) :
  valid_ledger (inventory_purchases d) ->
  0 <= quantity <= total_unconsumed product_id (inventory_purchases d) ->
  (forall l, In l (inventory_purchases d) -> unconsumed product_id l = true ->
             lo <= ip_unit_cost l <= hi) ->
  calculate_sale_cost d product_id quantity = Ok cost ->
  lo * quantity <= cost <= hi * quantity.
Proof.
  intros Hv Hq Hcosts.
  pose proof (allocation_order_positive product_id d) as Hpos.
  pose proof (allocation_order_nodup product_id d Hv) as Hnd.
  destruct (String.eqb (get_inventory_costing_method d) "FIFO") eqn:Efifo;
    [|destruct (String.eqb (get_inventory_costing_method d) "LIFO") eqn:Elifo].
  1,2: rewrite calculate_sale_cost_of_taken;
    [|assumption|lia|(left; now apply String.eqb_eq) || (right; now apply String.eqb_eq)];
    intros Hok; apply decimal_10_2_ok in Hok; destruct Hok as [-> _];
    pose proof (taken_total (allocation_order product_id d) quantity ltac:(lia) Hpos Hnd)
      as Htot;
    rewrite allocation_order_sum, Z.min_l in Htot by lia;
    pose proof (weighted_sum_bounds
                  (fun r => taken (allocation_order product_id d) quantity (ip_id r))
                  ip_unit_cost lo hi (allocation_order product_id d)) as Hb;
    rewrite Htot in Hb; apply Hb;
    [ apply Forall_forall; intros r Hr;
      pose proof (taken_range _ r quantity ltac:(lia) Hpos Hnd Hr); lia
    | apply Forall_forall; intros r Hr; apply allocation_order_in in Hr;
      now apply Hcosts ].
  rewrite calculate_sale_cost_otherwise by (now apply String.eqb_neq).
  destruct (decimal_10_2 _) as [u|e] eqn:Eu; simpl; [|discriminate].
  intros Hok. apply decimal_10_2_ok in Hok. destruct Hok as [-> _].
  apply decimal_10_2_ok in Eu. destruct Eu as [-> _].
  destruct (Z.eq_dec quantity 0) as [->|Hne]; [lia|].
  rewrite weighted_average_of_stock by lia.
  unfold weighted_unit_cost.
  set (rows := filter (unconsumed product_id) (inventory_purchases d)).
  assert (Hrows : Forall (fun r => 0 < ip_remaining_quantity r) rows)
    by apply unconsumed_rows_positive.
  pose proof (weighted_sum_bounds ip_remaining_quantity ip_unit_cost lo hi rows) as Hb.
  assert (Hb' : lo * total_unconsumed product_id (inventory_purchases d)
                <= value_of_unconsumed product_id (inventory_purchases d)
                <= hi * total_unconsumed product_id (inventory_purchases d)).
  { apply Hb.
    - eapply Forall_impl; [|exact Hrows]. simpl. intros; lia.
    - apply Forall_forall. intros r Hr. apply filter_In in Hr. now apply Hcosts. }
  pose proof (value_of_unconsumed_nonneg product_id _ (proj2 Hv)) as Hval.
  rewrite to_decimal2_quotient by lia.
  set (T := total_unconsumed product_id (inventory_purchases d)) in *.
  set (V := value_of_unconsumed product_id (inventory_purchases d)) in *.
  assert (lo <= (2 * V + T) / (2 * T)) by (apply Z.div_le_lower_bound; nia).
  assert ((2 * V + T) / (2 * T) < hi + 1) by (apply Z.div_lt_upper_bound; nia).
  nia.
Qed.

(** The two lots of the example cost between 10.00 and 12.00 a unit: eight
    units cost between 80.00 and 96.00, here 88.00 under AVERAGE. *)
Lemma sale_cost_within_lot_costs_witness :
  calculate_sale_cost (Example.two_lots "AVERAGE") 100 8 = Ok 8800 /\
  1000 * 8 <= 8800 <= 1200 * 8.
Proof.
  split; [reflexivity|].
  apply (sale_cost_within_lot_costs (Example.two_lots "AVERAGE") 100 8 1000 1200 8800
           (example_ledger_valid "AVERAGE")).
  - vm_compute. split; discriminate.
  - intros l [<-|[<-|[]]] _; simpl; lia.
  - reflexivity.
Defined.

(** ** Policy values the code does not know *)

Lemma insert_inventory_purchase_same (l : inventory_purchase) (d d' : db) :
  same_tables d d' ->
  same_outcome (insert_inventory_purchase l d) (insert_inventory_purchase l d').
Proof.
  intros [Hp [Hl Hs]]. unfold insert_inventory_purchase. rewrite <- Hl.
  destruct (purchase_checks l) as [[]|e]; simpl; [|reflexivity].
  destruct (has_purchase_id (ip_id l) (inventory_purchases d)); simpl; [reflexivity|].
  repeat split; simpl; congruence.
Qed.

Lemma update_products_stock_same (sv : server) (v_id : Z) (f : Z -> Z) (d d' : db) :
  same_tables d d' ->
  same_outcome (update_products_stock sv v_id f d) (update_products_stock sv v_id f d').
Proof.
  intros [Hp [Hl Hs]]. unfold update_products_stock, find_product. rewrite <- Hp.
  destruct (find _ (products d)) as [OLD|]; [|now repeat split].
  destruct (check _ _) as [[]|e]; simpl; [|reflexivity].
  unfold record_inventory_purchase.
  destruct (p_stock OLD <? _).
  - apply insert_inventory_purchase_same. now repeat split.
  - now repeat split.
Qed.

Lemma allocate_inventory_on_sale_same (product_id quantity : Z) (d d' : db) :
  same_tables d d' ->
  get_inventory_costing_method d <> "FIFO" ->
  get_inventory_costing_method d <> "LIFO" ->
  get_inventory_costing_method d' = "AVERAGE" ->
  same_outcome (allocate_inventory_on_sale product_id quantity d)
               (allocate_inventory_on_sale product_id quantity d').
Proof.
  intros [Hp [Hl Hs]] H1 H2 H3. unfold allocate_inventory_on_sale.
  rewrite (policy_test d "FIFO" H1), (policy_test d "LIFO" H2), H3, <- Hl.
  simpl String.eqb. cbv iota.
  destruct (allocate_loop _ _ _) as [[tbl rest]|e]; simpl; [|reflexivity].
  destruct (0 <? rest); simpl; [reflexivity|]. now repeat split.
Qed.

Lemma calculate_sale_cost_same (product_id quantity : Z) (d d' : db) :
  same_tables d d' ->
  get_inventory_costing_method d <> "FIFO" ->
  get_inventory_costing_method d <> "LIFO" ->
  get_inventory_costing_method d' = "AVERAGE" ->
  calculate_sale_cost d product_id quantity = calculate_sale_cost d' product_id quantity.
Proof.
  intros [Hp [Hl Hs]] H1 H2 H3.
  rewrite !calculate_sale_cost_otherwise; try assumption; try (rewrite H3; discriminate).
  now rewrite Hl.
Qed.

Lemma insert_sale_item_same (sv : server) (NEW : sale_item) (d d' : db) :
  same_tables d d' ->
  get_inventory_costing_method d <> "FIFO" ->
  get_inventory_costing_method d <> "LIFO" ->
  get_inventory_costing_method d' = "AVERAGE" ->
  same_outcome (insert_sale_item sv NEW d) (insert_sale_item sv NEW d').
Proof.
  intros Hsame H1 H2 H3.
  pose proof (allocate_inventory_on_sale_same
                (si_product_id NEW) (si_quantity NEW) d d' Hsame H1 H2 H3) as Halloc.
  pose proof (calculate_sale_cost_same
                (si_product_id NEW) (si_quantity NEW) d d' Hsame H1 H2 H3) as Hcost.
  unfold insert_sale_item, check_and_allocate_inventory, find_product.
  rewrite <- Hcost. destruct Hsame as [Hp [Hl Hs]]. rewrite <- Hp.
  destruct (find _ (products d)) as [p|]; simpl; [|reflexivity].
  destruct (p_stock p <? si_quantity NEW); simpl; [reflexivity|].
  destruct (calculate_sale_cost d _ _) as [cost|e]; simpl; [|reflexivity].
  destruct (si_quantity NEW =? 0); simpl; [reflexivity|].
  destruct (allocate_inventory_on_sale _ _ d) as [d1|e],
           (allocate_inventory_on_sale _ _ d') as [d1'|e'];
    simpl in Halloc |- *; try contradiction; [|congruence].
  pose proof (update_products_stock_same sv (si_product_id NEW)
                (fun stock => stock - si_quantity NEW) d1 d1' Halloc) as Hupd.
  destruct (update_products_stock _ _ _ d1) as [d2|e],
           (update_products_stock _ _ _ d1') as [d2'|e'];
    simpl in Hupd |- *; try contradiction; [|congruence].
  destruct (sale_item_checks _) as [[]|e]; simpl; [|reflexivity].
  destruct Hupd as [Hp2 [Hl2 Hs2]]. rewrite <- Hs2.
  destruct (has_sale_item_id _ _); simpl; [reflexivity|].
  repeat split; simpl; congruence.
Qed.

(** C4, as the code has it.  A policy value that is neither 'FIFO' nor
    'LIFO' is treated as AVERAGE: with the same rows in the tables, the
    cost computed, the allocation and the whole insertion of a sale line
    end exactly as they do when the setting is 'AVERAGE' (same error or
    same rows).  No policy value makes them fail for being unknown. *)
Theorem unrecognised_policy_is_average (d d' : db) :
  same_tables d d' ->
  get_inventory_costing_method d <> "FIFO" ->
  get_inventory_costing_method d <> "LIFO" ->
  get_inventory_costing_method d' = "AVERAGE" ->
  (forall product_id quantity,
      calculate_sale_cost d product_id quantity
      = calculate_sale_cost d' product_id quantity) /\
  (forall product_id quantity,
      same_outcome (allocate_inventory_on_sale product_id quantity d)
                   (allocate_inventory_on_sale product_id quantity d')) /\
  (forall sv NEW,
      same_outcome (insert_sale_item sv NEW d) (insert_sale_item sv NEW d')).
Proof.
  intros Hsame H1 H2 H3. repeat split.
  - intros. now apply calculate_sale_cost_same.
  - intros. now apply allocate_inventory_on_sale_same.
  - intros. now apply insert_sale_item_same.
Qed.

(** The two lots of the example under the setting 'MEDIAN' and under
    'AVERAGE'. *)
Lemma unrecognised_policy_is_average_witness :
  calculate_sale_cost (Example.two_lots "MEDIAN") 100 8
  = calculate_sale_cost (Example.two_lots "AVERAGE") 100 8 /\
  same_outcome
    (insert_sale_item (mk_server 0 0) Example.sale_of_8 (Example.two_lots "MEDIAN"))
    (insert_sale_item (mk_server 0 0) Example.sale_of_8 (Example.two_lots "AVERAGE")).
Proof.
  destruct (unrecognised_policy_is_average
              (Example.two_lots "MEDIAN") (Example.two_lots "AVERAGE"))
    as [Hcost [_ Hinsert]].
  - repeat split.
  - vm_compute. discriminate.
  - vm_compute. discriminate.
  - reflexivity.
  - split; [apply Hcost|apply Hinsert].
Defined.

(** C4, as stated, fails: with the setting 'MEDIAN', which is none of FIFO,
    LIFO and AVERAGE, allocating 8 units of the two lots succeeds, oldest
    lot first, and the sale line is recorded at the average cost 11.00. *)
Lemma unrecognised_policy_is_not_rejected :
  get_inventory_costing_method (Example.two_lots "MEDIAN") = "MEDIAN" /\
  (exists d',
      allocate_inventory_on_sale 100 8 (Example.two_lots "MEDIAN") = Ok d' /\
      remaining_of 1 d' = Some 0 /\ remaining_of 2 d' = Some 2) /\
  (exists d',
      insert_sale_item (mk_server 0 0) Example.sale_of_8 (Example.two_lots "MEDIAN")
      = Ok d' /\
      recorded_cost 500 d' = Some 1100).
Proof.
  split; [reflexivity|]. split; eexists; (split; [reflexivity|]); repeat split.
Qed.

(** ** The recorded cost of a sale line *)

Lemma find_after_absent {A : Type} (f : A -> bool) (l : list A) (x : A) :
  existsb f l = false -> f x = true -> find f (l ++ [x]) = Some x.
Proof.
  induction l as [|y l IH]; simpl; intros He Hx.
  - now rewrite Hx.
  - apply orb_false_iff in He. destruct He as [Hy He]. rewrite Hy. now apply IH.
Qed.

(** A sale line that was inserted carries the cost the trigger computed
    when it was inserted: the total [calculate_sale_cost] returned divided
    by the quantity, as a [DECIMAL(10,2)]. *)
Lemma inserted_line_cost (sv : server) (NEW : sale_item) (d d1 : db) :
  insert_sale_item sv NEW d = Ok d1 ->
  exists cost,
    calculate_sale_cost d (si_product_id NEW) (si_quantity NEW) = Ok cost /\
    recorded_cost (si_id NEW) d1
    = Some (unit_cost_for_sale cost (si_quantity NEW)).
Proof.
  unfold insert_sale_item, check_and_allocate_inventory.
  destruct (find_product _ d) as [p|]; simpl; [|discriminate].
  destruct (p_stock p <? si_quantity NEW); simpl; [discriminate|].
  destruct (calculate_sale_cost d _ _) as [cost|e]; simpl; [|discriminate].
  destruct (si_quantity NEW =? 0); simpl; [discriminate|].
  destruct (allocate_inventory_on_sale _ _ d) as [d2|e]; simpl; [|discriminate].
  destruct (update_products_stock _ _ _ d2) as [d3|e]; simpl; [|discriminate].
  destruct (sale_item_checks _) as [[]|e]; simpl; [|discriminate].
  destruct (has_sale_item_id _ _) eqn:Hid; simpl; [discriminate|].
  intros H. injection H as <-. exists cost. split; [reflexivity|].
  unfold recorded_cost. simpl.
  rewrite find_after_absent; [reflexivity|exact Hid|apply Z.eqb_refl].
Qed.

Lemma setInventoryMethod_sale_items (p : string) (d : db) :
  sale_items (setInventoryMethod p d) = sale_items d.
Proof. reflexivity. Qed.

Lemma switch_policies_sale_items (ps : list string) (d : db) :
  sale_items (switch_policies ps d) = sale_items d.
Proof.
  revert d. induction ps as [|p ps IH]; intros d; simpl; [reflexivity|].
  unfold switch_policies in IH. rewrite IH. apply setInventoryMethod_sale_items.
Qed.

(** C9.  Changing the policy touches no sale line: after any sequence of
    policy changes every recorded [cost_price] reads as before; and a line
    inserted under FIFO still reads, after them, the cost the FIFO walk
    over the lots of that moment returned, per unit. *)
Theorem policy_switch_is_not_retroactive
    (d d1 : db) (sv : server) (NEW : sale_item) (ps : list string) :
  get_inventory_costing_method d = "FIFO" ->
  insert_sale_item sv NEW d = Ok d1 ->
  (forall line, recorded_cost line (switch_policies ps d1) = recorded_cost line d1) /\
  exists fifo_cost,
    cost_loop (select_oldest_first (si_product_id NEW) (inventory_purchases d))
              0 (si_quantity NEW)
    = Ok fifo_cost /\
    recorded_cost (si_id NEW) (switch_policies ps d1)
    = Some (unit_cost_for_sale fifo_cost (si_quantity NEW)).
Proof.
  intros Hfifo Hins.
  assert (Hsame : forall line,
             recorded_cost line (switch_policies ps d1) = recorded_cost line d1).
  { intros line. unfold recorded_cost. now rewrite switch_policies_sale_items. }
  split; [exact Hsame|].
  destruct (inserted_line_cost sv NEW d d1 Hins) as [cost [Hcost Hrec]].
  exists cost. rewrite Hsame. split; [|exact Hrec].
  unfold calculate_sale_cost in Hcost. rewrite return_rounded, Hfifo in Hcost.
  exact Hcost.
Qed.

(** The sale of 8 units under FIFO, then a switch to LIFO: the line still
    reads 10.75. *)
Lemma policy_switch_is_not_retroactive_witness :
  exists d1,
    insert_sale_item (mk_server 0 0) Example.sale_of_8 (Example.two_lots "FIFO") = Ok d1 /\
    get_inventory_costing_method (switch_policies ["LIFO"] d1) = "LIFO" /\
    recorded_cost 500 (switch_policies ["LIFO"] d1) = Some 1075.
Proof.
  eexists. split; [reflexivity|]. split; [reflexivity|].
  destruct (proj2 (policy_switch_is_not_retroactive
                     (Example.two_lots "FIFO") _ (mk_server 0 0) Example.sale_of_8
                     ["LIFO"] eq_refl eq_refl)) as [fifo_cost [Hcost Hrec]].
  injection Hcost as <-. exact Hrec.
Defined.

(** ** Recording a sale line *)

Lemma weighted_average_nonneg (product_id : Z) (tbl : list inventory_purchase) :
  Forall valid_purchase tbl ->
  0 <= to_decimal2 (weighted_average (filter (unconsumed product_id) tbl)).
Proof.
  intros Hv.
  pose proof (total_unconsumed_nonneg product_id tbl) as Htot.
  pose proof (value_of_unconsumed_nonneg product_id tbl Hv) as Hval.
  unfold total_unconsumed, value_of_unconsumed in *. unfold weighted_average.
  destruct (filter (unconsumed product_id) tbl) as [|r rows]; [discriminate|].
  destruct (Z.eqb_spec (sum_Z (map ip_remaining_quantity (r :: rows))) 0);
    [discriminate|].
  rewrite to_decimal2_quotient by lia. apply Z.div_pos; lia.
Qed.

Lemma calculate_sale_cost_nonneg (d : db) (product_id quantity cost : Z) :
  valid_ledger (inventory_purchases d) -> 0 <= quantity ->
  calculate_sale_cost d product_id quantity = Ok cost -> 0 <= cost.
Proof.
  intros Hv Hq.
  assert (Hwalk : get_inventory_costing_method d = "FIFO"
                  \/ get_inventory_costing_method d = "LIFO" ->
                  calculate_sale_cost d product_id quantity = Ok cost -> 0 <= cost).
  { intros Hpolicy. rewrite calculate_sale_cost_of_taken by assumption.
    intros Hok. apply decimal_10_2_ok in Hok. destruct Hok as [-> _].
    apply cost_of_taken_nonneg; [exact Hq|apply allocation_order_positive|].
    apply Forall_forall. intros r Hr. apply allocation_order_in in Hr.
    destruct Hv as [_ Hall]. rewrite Forall_forall in Hall.
    destruct (Hall r (proj1 Hr)) as [_ [Hc _]]. exact Hc. }
  destruct (String.eqb (get_inventory_costing_method d) "FIFO") eqn:Efifo;
    [apply Hwalk; left; now apply String.eqb_eq|].
  destruct (String.eqb (get_inventory_costing_method d) "LIFO") eqn:Elifo;
    [apply Hwalk; right; now apply String.eqb_eq|].
  rewrite calculate_sale_cost_otherwise by (now apply String.eqb_neq).
  destruct (decimal_10_2 _) as [u|e] eqn:Eu; simpl; [|discriminate].
  intros Hok. apply decimal_10_2_ok in Hok. destruct Hok as [-> _].
  apply decimal_10_2_ok in Eu. destruct Eu as [-> _].
  apply Z.mul_nonneg_nonneg; [|exact Hq].
  apply weighted_average_nonneg, Hv.
Qed.

Lemma unit_cost_for_sale_nonneg (cost quantity : Z) :
  0 <= cost -> 0 < quantity -> 0 <= unit_cost_for_sale cost quantity.
Proof.
  intros Hc Hq. unfold unit_cost_for_sale. rewrite to_decimal2_quotient by lia.
  apply Z.div_pos; lia.
Qed.

(** The quotient stored in [cost_price] is no larger in absolute value than
    the cost it divides: the cast to the column's [DECIMAL(10,2)] cannot
    overflow. *)
Lemma unit_cost_for_sale_fits (cost quantity : Z) :
  quantity <> 0 -> Z.abs (unit_cost_for_sale cost quantity) <= Z.abs cost.
Proof.
  intros Hq. unfold unit_cost_for_sale, to_decimal2, numeric_of_decimal2, round_half_away.
  assert (Hbound : forall p : positive,
             Z.abs (Z.sgn (cost * 100)
                    * ((2 * Z.abs (cost * 100) + 100 * Z.pos p) / (2 * (100 * Z.pos p))))
             <= Z.abs cost).
  { intros p.
    replace (2 * Z.abs (cost * 100) + 100 * Z.pos p)
      with (100 * (2 * Z.abs cost + Z.pos p)) by lia.
    replace (2 * (100 * Z.pos p)) with (100 * (2 * Z.pos p)) by lia.
    rewrite Z.div_mul_cancel_l by lia.
    destruct (Z.eq_dec cost 0) as [->|Hne].
    - simpl. lia.
    - assert ((2 * Z.abs cost + Z.pos p) / (2 * Z.pos p) < Z.abs cost + 1)
        by (apply Z.div_lt_upper_bound; nia).
      assert (0 <= (2 * Z.abs cost + Z.pos p) / (2 * Z.pos p))
        by (apply Z.div_pos; lia).
      rewrite Z.abs_mul. rewrite (Z.abs_eq (_ / _)) by assumption.
      assert (Z.abs (Z.sgn (cost * 100)) = 1) as -> by lia. lia. }
  destruct quantity as [|p|p]; [contradiction| |].
  - cbv [Qdiv Qinv inject_Z Qmult Qnum Qden].
    replace (Z.pos (100 * p * 1)) with (100 * Z.pos p) by lia.
    replace (cost * 1 * 100) with (cost * 100) by lia. apply Hbound.
  - cbv [Qdiv Qinv inject_Z Qmult Qnum Qden].
    replace (Z.pos (100 * p * 1)) with (100 * Z.pos p) by lia.
    replace (cost * Z.neg 1 * 100) with (- (cost * 100)) by lia.
    rewrite Z.sgn_opp, Z.abs_opp, Z.mul_opp_l, Z.abs_opp. apply Hbound.
Qed.

Lemma find_product_some (i : Z) (d : db) (p : product) :
  find_product i d = Some p -> In p (products d) /\ p_id p = i.
Proof.
  intros H. apply find_some in H. destruct H as [H E]. apply Z.eqb_eq in E. now split.
Qed.

(** The UPDATE of the trigger that lowers the stock: the stock-increase
    trigger does not fire. *)
Lemma update_products_stock_decrease (sv : server) (v_id q : Z) (d : db) (p : product) :
  find_product v_id d = Some p -> 0 <= q <= p_stock p ->
  update_products_stock sv v_id (fun stock => stock - q) d
  = Ok (with_products d
          (map (fun p => if p_id p =? v_id then set_stock p (p_stock p - q) else p)
               (products d))).
Proof.
  intros Hfind Hq. unfold update_products_stock. rewrite Hfind. simpl.
  destruct (Z.leb_spec 0 (p_stock p - q)); [|lia]. simpl.
  unfold record_inventory_purchase. simpl.
  destruct (Z.ltb_spec (p_stock p) (p_stock p - q)); [lia|]. reflexivity.
Qed.

(** [INSERT INTO sale_items] of a line the stock counter covers, on a
    ledger whose rows satisfy their constraints. *)
Lemma insert_sale_item_in_stock (sv : server) (NEW : sale_item) (d : db) (p : product) :
  valid_ledger (inventory_purchases d) ->
  find_product (si_product_id NEW) d = Some p ->
  0 < si_quantity NEW <= p_stock p ->
  insert_sale_item sv NEW d
  = (cost <- calculate_sale_cost d (si_product_id NEW) (si_quantity NEW) ;;
     if total_unconsumed (si_product_id NEW) (inventory_purchases d) <? si_quantity NEW
     then Raise (insufficient_inventory_to_allocate
                   (si_quantity NEW
                    - total_unconsumed (si_product_id NEW) (inventory_purchases d)))
     else
       _ <- check (0 <=? si_unit_price NEW)
              (check_violation "sale_items_unit_price_check") ;;
       _ <- check (0 <=? si_subtotal NEW) (check_violation "sale_items_subtotal_check") ;;
       _ <- check (negb (has_sale_item_id (si_id NEW) (sale_items d)))
              (unique_violation "sale_items_pkey") ;;
       Ok (after_sale_line NEW cost d)).
Proof.
  intros Hv Hfind Hq. unfold insert_sale_item, check_and_allocate_inventory.
  rewrite Hfind. simpl.
  destruct (Z.ltb_spec (p_stock p) (si_quantity NEW)); [lia|]. simpl.
  destruct (calculate_sale_cost d _ _) as [cost|e] eqn:Hcost; simpl; [|reflexivity].
  destruct (Z.eqb_spec (si_quantity NEW) 0); [lia|]. simpl.
  rewrite allocate_inventory_on_sale_closed_form by (auto; lia).
  destruct (_ <? si_quantity NEW); simpl; [reflexivity|].
  rewrite (update_products_stock_decrease sv _ _ _ p) by (auto; lia). simpl.
  unfold sale_item_checks. simpl.
  destruct (Z.ltb_spec 0 (si_quantity NEW)); [|lia]. simpl.
  destruct (0 <=? si_unit_price NEW); simpl; [|reflexivity].
  assert (Hunit : 0 <= unit_cost_for_sale cost (si_quantity NEW)).
  { apply unit_cost_for_sale_nonneg; [|lia].
    apply (calculate_sale_cost_nonneg d (si_product_id NEW) (si_quantity NEW)); auto. lia. }
  destruct (Z.leb_spec 0 (unit_cost_for_sale cost (si_quantity NEW))); [|lia]. simpl.
  destruct (0 <=? si_subtotal NEW); simpl; [|reflexivity].
  destruct (has_sale_item_id _ _); simpl; reflexivity.
Qed.

(** ** Worked examples: FIFO and LIFO on the two lots *)

Lemma filter_unconsumed (product_id : Z) (tbl : list inventory_purchase) :
  filter (unconsumed product_id) tbl
  = filter (fun l => 0 <? ip_remaining_quantity l)
           (filter (fun l => ip_product_id l =? product_id) tbl).
Proof.
  induction tbl as [|l tbl IH]; simpl; [reflexivity|]. unfold unconsumed at 1.
  destruct (ip_product_id l =? product_id); simpl; [|exact IH].
  destruct (0 <? ip_remaining_quantity l); now rewrite IH.
Qed.

(** Two whole lots of a product, the only ones it has: the unconsumed rows
    of the product are these two. *)
Lemma unconsumed_of_two (product_id : Z) (A B : inventory_purchase)
    (tbl : list inventory_purchase) :
  Permutation (filter (fun l => ip_product_id l =? product_id) tbl) [A; B] ->
  0 < ip_remaining_quantity A -> 0 < ip_remaining_quantity B ->
  Permutation (filter (unconsumed product_id) tbl) [A; B].
Proof.
  intros Hperm HA HB. rewrite filter_unconsumed.
  apply (filter_perm (fun l => 0 <? ip_remaining_quantity l)) in Hperm.
  simpl in Hperm.
  destruct (Z.ltb_spec 0 (ip_remaining_quantity A)); [|lia].
  destruct (Z.ltb_spec 0 (ip_remaining_quantity B)); [|lia].
  exact Hperm.
Qed.

Lemma in_of_two (product_id : Z) (A B : inventory_purchase)
    (tbl : list inventory_purchase) :
  Permutation (filter (fun l => ip_product_id l =? product_id) tbl) [A; B] ->
  In A tbl /\ In B tbl.
Proof.
  intros Hperm. split.
  - assert (In A (filter (fun l => ip_product_id l =? product_id) tbl)) as H
        by (eapply Permutation_in; [symmetry; exact Hperm|now left]).
    now apply filter_In in H.
  - assert (In B (filter (fun l => ip_product_id l =? product_id) tbl)) as H
        by (eapply Permutation_in; [symmetry; exact Hperm|right; now left]).
    now apply filter_In in H.
Qed.

(** The FIFO query on two whole lots received at different times: the
    older one first, wherever the table holds them and whatever their
    ids. *)
Lemma select_oldest_first_of_two (product_id : Z) (A B : inventory_purchase)
    (tbl : list inventory_purchase) :
  NoDup (map ip_id tbl) ->
  Permutation (filter (fun l => ip_product_id l =? product_id) tbl) [A; B] ->
  0 < ip_remaining_quantity A -> 0 < ip_remaining_quantity B ->
  ip_purchased_at A < ip_purchased_at B ->
  select_oldest_first product_id tbl = [A; B].
Proof.
  intros Hnd Hperm HA HB Ht.
  pose proof (unconsumed_of_two product_id A B tbl Hperm HA HB) as Hrows.
  destruct (in_of_two product_id A B tbl Hperm) as [HinA HinB].
  unfold select_oldest_first.
  rewrite (order_by_reproducible purchased_at_asc_id_asc asc_total asc_trans [A; B]).
  - simpl. unfold purchased_at_asc_id_asc.
    destruct (Z.ltb_spec (ip_purchased_at A) (ip_purchased_at B)); [reflexivity|lia].
  - intros a b Ha Hb H1 H2. apply (NoDup_map_inj ip_id tbl); auto.
    + destruct Ha as [<-|[<-|[]]]; assumption.
    + destruct Hb as [<-|[<-|[]]]; assumption.
    + now apply asc_antisym.
  - symmetry. exact Hrows.
Qed.

(** The LIFO query on the same lots: the newer one first. *)
Lemma select_newest_first_of_two (product_id : Z) (A B : inventory_purchase)
    (tbl : list inventory_purchase) :
  NoDup (map ip_id tbl) ->
  Permutation (filter (fun l => ip_product_id l =? product_id) tbl) [A; B] ->
  0 < ip_remaining_quantity A -> 0 < ip_remaining_quantity B ->
  ip_purchased_at A < ip_purchased_at B ->
  select_newest_first product_id tbl = [B; A].
Proof.
  intros Hnd Hperm HA HB Ht.
  pose proof (unconsumed_of_two product_id A B tbl Hperm HA HB) as Hrows.
  destruct (in_of_two product_id A B tbl Hperm) as [HinA HinB].
  unfold select_newest_first.
  rewrite (order_by_reproducible purchased_at_desc_id_desc desc_total desc_trans [A; B]).
  - simpl. unfold purchased_at_desc_id_desc.
    destruct (Z.ltb_spec (ip_purchased_at B) (ip_purchased_at A)); [lia|].
    destruct (Z.eqb_spec (ip_purchased_at B) (ip_purchased_at A)); [lia|].
    reflexivity.
  - intros a b Ha Hb H1 H2. apply (NoDup_map_inj ip_id tbl); auto.
    + destruct Ha as [<-|[<-|[]]]; assumption.
    + destruct Hb as [<-|[<-|[]]]; assumption.
    + rewrite desc_is_asc_flipped in H1, H2. now apply asc_antisym.
  - symmetry. exact Hrows.
Qed.

Lemma remaining_of_lot (d : db) (l : inventory_purchase) :
  NoDup (map ip_id (inventory_purchases d)) -> In l (inventory_purchases d) ->
  remaining_of (ip_id l) d = Some (ip_remaining_quantity l).
Proof.
  intros Hnd Hl. unfold remaining_of.
  rewrite <- (map_id (inventory_purchases d)) at 1.
  now rewrite (find_by_id_map (fun x => x)).
Qed.

Lemma find_product_map (f : product -> product) (i : Z) (tbl : list product) :
  (forall x, p_id (f x) = p_id x) ->
  find (fun x => p_id x =? i) (map f tbl)
  = option_map f (find (fun x => p_id x =? i) tbl).
Proof.
  intros Hid. induction tbl as [|x tbl IH]; simpl; [reflexivity|].
  rewrite Hid. now destruct (p_id x =? i).
Qed.

(** Eight units sold from two whole lots of five, of which the policy
    walks [F] first and [S] second: five units of [F] and three of [S]. *)
Lemma sale_of_8_from_two_lots
    (d : db) (sv : server) (NEW : sale_item) (p : product) (F S : inventory_purchase) :
  valid_ledger (inventory_purchases d) ->
  get_inventory_costing_method d = "FIFO" \/ get_inventory_costing_method d = "LIFO" ->
  allocation_order (p_id p) d = [F; S] ->
  ip_remaining_quantity F = 5 -> ip_remaining_quantity S = 5 ->
  find_product (p_id p) d = Some p -> p_stock p = 10 ->
  sale_line_of_8 (p_id p) NEW d ->
  let cost := 5 * ip_unit_cost F + 3 * ip_unit_cost S in
  let ledger := with_remaining_in (ip_id F) 0 (ip_id S) 2 (inventory_purchases d) in
  calculate_sale_cost d (p_id p) 8 = decimal_10_2 cost /\
  allocate_inventory_on_sale (p_id p) 8 d = Ok (with_inventory_purchases d ledger) /\
  (Z.abs cost < 10000000000 ->
   exists d',
     insert_sale_item sv NEW d = Ok d' /\
     recorded_cost (si_id NEW) d' = Some (unit_cost_for_sale cost 8) /\
     inventory_purchases d' = ledger /\
     remaining_of (ip_id F) d' = Some 0 /\
     remaining_of (ip_id S) d' = Some 2 /\
     stock_of (p_id p) d' = Some 2).
Proof.
  intros Hv Hpolicy Horder HF HS Hfind Hstock [Hpid [Hq [Hprice [Hsub Hfresh]]]] cost ledger.
  pose proof (allocation_order_nodup (p_id p) d Hv) as Hnd. rewrite Horder in Hnd.
  assert (Hne : ip_id F <> ip_id S).
  { inversion Hnd as [|? ? Hn _]; subst. simpl in Hn. intros E. apply Hn. left.
    now symmetry. }
  assert (HinF : In F (inventory_purchases d))
    by (apply (allocation_order_in (p_id p) d F); rewrite Horder; now left).
  assert (HinS : In S (inventory_purchases d))
    by (apply (allocation_order_in (p_id p) d S); rewrite Horder; right; now left).
  assert (Hav : total_unconsumed (p_id p) (inventory_purchases d) = 10).
  { rewrite <- allocation_order_sum, Horder. simpl. lia. }
  assert (Hledger : map (after_allocation (allocation_order (p_id p) d) 8)
                        (inventory_purchases d) = ledger).
  { unfold ledger, with_remaining_in. apply map_ext_in. intros l Hl.
    unfold after_allocation. rewrite Horder. simpl. rewrite HF, HS.
    rewrite (Z.eqb_sym (ip_id F)), (Z.eqb_sym (ip_id S)).
    destruct (Z.eqb_spec (ip_id l) (ip_id F)) as [E|E].
    - assert (l = F) as -> by (apply (NoDup_map_inj ip_id (inventory_purchases d));
                               auto; apply Hv).
      rewrite HF. reflexivity.
    - destruct (Z.eqb_spec (ip_id l) (ip_id S)) as [E'|E'].
      + assert (l = S) as -> by (apply (NoDup_map_inj ip_id (inventory_purchases d));
                                 auto; apply Hv).
        rewrite HS. reflexivity.
      + rewrite Z.sub_0_r. apply set_remaining_quantity_same. }
  assert (Hcost : calculate_sale_cost d (p_id p) 8 = decimal_10_2 cost).
  { rewrite calculate_sale_cost_of_taken by (auto; lia).
    rewrite Horder. simpl. rewrite !Z.eqb_refl, HF, HS.
    destruct (Z.eqb_spec (ip_id F) (ip_id S)); [contradiction|].
    f_equal. unfold cost. simpl. lia. }
  assert (Halloc : allocate_inventory_on_sale (p_id p) 8 d
                   = Ok (with_inventory_purchases d ledger)).
  { rewrite allocate_inventory_on_sale_closed_form by (auto; lia).
    rewrite Hav, Hledger. reflexivity. }
  split; [exact Hcost|]. split; [exact Halloc|].
  intros Hfits. pose proof Hfind as Hfound. rewrite <- Hpid in Hfind.
  rewrite (decimal_10_2_fits _ Hfits) in Hcost.
  eexists. split.
  - rewrite (insert_sale_item_in_stock sv NEW d p Hv Hfind) by lia.
    rewrite Hpid, Hq, Hcost, Hav. simpl.
    destruct (Z.leb_spec 0 (si_unit_price NEW)); [|lia].
    destruct (Z.leb_spec 0 (si_subtotal NEW)); [|lia].
    rewrite Hfresh. simpl. reflexivity.
  - unfold after_sale_line. rewrite Hpid, Hq, Hledger.
    split; [|split; [reflexivity|split; [|split]]].
    + unfold recorded_cost. simpl.
      rewrite find_after_absent; [unfold recorded_line; simpl; now rewrite Hq
                                 |exact Hfresh|apply Z.eqb_refl].
    + unfold remaining_of, ledger, with_remaining_in. simpl.
      rewrite find_by_id_map; auto; [|intros x|apply Hv].
      * rewrite Z.eqb_refl. reflexivity.
      * destruct (ip_id x =? ip_id F); [reflexivity|].
        destruct (ip_id x =? ip_id S); reflexivity.
    + unfold remaining_of, ledger, with_remaining_in. simpl.
      rewrite find_by_id_map; auto; [|intros x|apply Hv].
      * destruct (Z.eqb_spec (ip_id S) (ip_id F)); [congruence|].
        rewrite Z.eqb_refl. reflexivity.
      * destruct (ip_id x =? ip_id F); [reflexivity|].
        destruct (ip_id x =? ip_id S); reflexivity.
    + unfold stock_of, find_product. simpl.
      rewrite find_product_map by (intros x; now destruct (p_id x =? p_id p)).
      fold (find_product (p_id p) d).
      rewrite Hfound. simpl. rewrite Z.eqb_refl. simpl. rewrite Hstock. reflexivity.
Qed.

(** C5.  Under FIFO, with L1(5 at 10.00, t=1) and L2(5 at 12.00, t=2) the
    lots of a product, whatever their ids and wherever the table holds them
    among the lots of other products: selling 8 units costs 86.00 in total,
    records the unit cost 10.75 on the sale line, takes all 5 units of L1
    and 3 of L2 (L1 is left with 0, L2 with 2, no other lot changes) and
    brings the stock from 10 to 2. *)
Theorem fifo_order_property
    (d : db) (sv : server) (NEW : sale_item) (p : product) (L1 L2 : inventory_purchase) :
  get_inventory_costing_method d = "FIFO" ->
  valid_ledger (inventory_purchases d) ->
  lots_of_the_example (p_id p) L1 L2 (inventory_purchases d) ->
  find_product (p_id p) d = Some p -> p_stock p = 10 ->
  sale_line_of_8 (p_id p) NEW d ->
  calculate_sale_cost d (p_id p) 8 = Ok 8600 /\
  allocate_inventory_on_sale (p_id p) 8 d
  = Ok (with_inventory_purchases d
          (with_remaining_in (ip_id L1) 0 (ip_id L2) 2 (inventory_purchases d))) /\
  exists d',
    insert_sale_item sv NEW d = Ok d' /\
    recorded_cost (si_id NEW) d' = Some 1075 /\
    remaining_of (ip_id L1) d = Some 5 /\
    remaining_of (ip_id L2) d = Some 5 /\
    remaining_of (ip_id L1) d' = Some 0 /\
    remaining_of (ip_id L2) d' = Some 2 /\
    inventory_purchases d'
    = with_remaining_in (ip_id L1) 0 (ip_id L2) 2 (inventory_purchases d) /\
    stock_of (p_id p) d' = Some 2.
Proof.
  intros Hfifo Hv [Hperm [[_ [Hc1 [Hr1 Ht1]]] [_ [Hc2 [Hr2 Ht2]]]]] Hfind Hstock Hline.
  destruct (in_of_two _ _ _ _ Hperm) as [Hin1 Hin2].
  assert (Horder : allocation_order (p_id p) d = [L1; L2]).
  { unfold allocation_order. rewrite Hfifo. simpl String.eqb. cbv iota.
    apply select_oldest_first_of_two; try apply Hv; auto; lia. }
  destruct (sale_of_8_from_two_lots d sv NEW p L1 L2 Hv (or_introl Hfifo) Horder
              Hr1 Hr2 Hfind Hstock Hline) as [Hcost [Halloc Hsale]].
  rewrite Hc1, Hc2 in Hcost, Hsale.
  split; [exact Hcost|]. split; [exact Halloc|].
  destruct (Hsale ltac:(simpl; lia)) as [d' [Hins [Hrec [Hl [H1 [H2 Hs]]]]]].
  exists d'. repeat split; auto.
  - rewrite (remaining_of_lot d L1); [now rewrite Hr1|apply Hv|exact Hin1].
  - rewrite (remaining_of_lot d L2); [now rewrite Hr2|apply Hv|exact Hin2].
Qed.

Lemma shuffled_ledger_valid (policy : string) :
  valid_ledger (inventory_purchases (ShuffledExample.two_lots policy)).
Proof.
  split; simpl.
  - repeat constructor; simpl; intuition discriminate.
  - repeat constructor; simpl; lia.
Qed.

Lemma shuffled_lots_of_the_example (policy : string) :
  lots_of_the_example 100 ShuffledExample.L1 ShuffledExample.L2
    (inventory_purchases (ShuffledExample.two_lots policy)).
Proof.
  split; [apply perm_swap|]. repeat split.
Qed.

(** The lots stored newest first, the older lot under the larger id and a
    lot of another product between them: FIFO still takes L1 whole and
    three units of L2. *)
Lemma fifo_order_property_witness :
  calculate_sale_cost (ShuffledExample.two_lots "FIFO") 100 8 = Ok 8600 /\
  exists d',
    insert_sale_item (mk_server 0 0) Example.sale_of_8 (ShuffledExample.two_lots "FIFO")
    = Ok d' /\
    recorded_cost 500 d' = Some 1075 /\
    map ip_remaining_quantity (inventory_purchases d') = [2; 1; 0].
Proof.
  destruct (fifo_order_property (ShuffledExample.two_lots "FIFO") (mk_server 0 0)
              Example.sale_of_8 (mk_product 100 1200 10 true 0)
              ShuffledExample.L1 ShuffledExample.L2 eq_refl
              (shuffled_ledger_valid "FIFO") (shuffled_lots_of_the_example "FIFO")
              eq_refl eq_refl)
    as [Hcost [_ [d' [Hins [Hrec [_ [_ [_ [_ [Hledger _]]]]]]]]]].
  - repeat split; simpl; lia.
  - split; [exact Hcost|]. exists d'. split; [exact Hins|]. split; [exact Hrec|].
    rewrite Hledger. reflexivity.
Defined.

(** C6.  Under LIFO, with the same two lots, whatever their ids and
    wherever the table holds them: selling 8 units costs 90.00 in total,
    records the unit cost 11.25, takes all 5 units of L2 and 3 of L1 (L2 is
    left with 0, L1 with 2, no other lot changes) and brings the stock from
    10 to 2. *)
Theorem lifo_order_property
    (d : db) (sv : server) (NEW : sale_item) (p : product) (L1 L2 : inventory_purchase) :
  get_inventory_costing_method d = "LIFO" ->
  valid_ledger (inventory_purchases d) ->
  lots_of_the_example (p_id p) L1 L2 (inventory_purchases d) ->
  find_product (p_id p) d = Some p -> p_stock p = 10 ->
  sale_line_of_8 (p_id p) NEW d ->
  calculate_sale_cost d (p_id p) 8 = Ok 9000 /\
  allocate_inventory_on_sale (p_id p) 8 d
  = Ok (with_inventory_purchases d
          (with_remaining_in (ip_id L2) 0 (ip_id L1) 2 (inventory_purchases d))) /\
  exists d',
    insert_sale_item sv NEW d = Ok d' /\
    recorded_cost (si_id NEW) d' = Some 1125 /\
    remaining_of (ip_id L1) d = Some 5 /\
    remaining_of (ip_id L2) d = Some 5 /\
    remaining_of (ip_id L2) d' = Some 0 /\
    remaining_of (ip_id L1) d' = Some 2 /\
    inventory_purchases d'
    = with_remaining_in (ip_id L2) 0 (ip_id L1) 2 (inventory_purchases d) /\
    stock_of (p_id p) d' = Some 2.
Proof.
  intros Hlifo Hv [Hperm [[_ [Hc1 [Hr1 Ht1]]] [_ [Hc2 [Hr2 Ht2]]]]] Hfind Hstock Hline.
  destruct (in_of_two _ _ _ _ Hperm) as [Hin1 Hin2].
  assert (Horder : allocation_order (p_id p) d = [L2; L1]).
  { unfold allocation_order. rewrite Hlifo. simpl String.eqb. cbv iota.
    apply select_newest_first_of_two; try apply Hv; auto; lia. }
  destruct (sale_of_8_from_two_lots d sv NEW p L2 L1 Hv (or_intror Hlifo) Horder
              Hr2 Hr1 Hfind Hstock Hline) as [Hcost [Halloc Hsale]].
  rewrite Hc1, Hc2 in Hcost, Hsale.
  split; [exact Hcost|]. split; [exact Halloc|].
  destruct (Hsale ltac:(simpl; lia)) as [d' [Hins [Hrec [Hl [H1 [H2 Hs]]]]]].
  exists d'. repeat split; auto.
  - rewrite (remaining_of_lot d L1); [now rewrite Hr1|apply Hv|exact Hin1].
  - rewrite (remaining_of_lot d L2); [now rewrite Hr2|apply Hv|exact Hin2].
Qed.

(** The same table under LIFO: L2 whole and three units of L1. *)
Lemma lifo_order_property_witness :
  calculate_sale_cost (ShuffledExample.two_lots "LIFO") 100 8 = Ok 9000 /\
  exists d',
    insert_sale_item (mk_server 0 0) Example.sale_of_8 (ShuffledExample.two_lots "LIFO")
    = Ok d' /\
    recorded_cost 500 d' = Some 1125 /\
    map ip_remaining_quantity (inventory_purchases d') = [0; 1; 2].
Proof.
  destruct (lifo_order_property (ShuffledExample.two_lots "LIFO") (mk_server 0 0)
              Example.sale_of_8 (mk_product 100 1200 10 true 0)
              ShuffledExample.L1 ShuffledExample.L2 eq_refl
              (shuffled_ledger_valid "LIFO") (shuffled_lots_of_the_example "LIFO")
              eq_refl eq_refl)
    as [Hcost [_ [d' [Hins [Hrec [_ [_ [_ [_ [Hledger _]]]]]]]]]].
  - repeat split; simpl; lia.
  - split; [exact Hcost|]. exists d'. split; [exact Hins|]. split; [exact Hrec|].
    rewrite Hledger. reflexivity.
Defined.

(** ** Valuation *)

Lemma filter_map_commute {A : Type} (f : A -> bool) (g : A -> A) (l : list A) :
  (forall x, f (g x) = f x) -> filter f (map g l) = map g (filter f l).
Proof.
  intros H. induction l as [|x l IH]; simpl; [reflexivity|].
  rewrite H. destruct (f x); simpl; now rewrite IH.
Qed.

Lemma purchases_of_without_remaining (p : product) (d : db) :
  purchases_of p
    (with_inventory_purchases d (map without_remaining (inventory_purchases d)))
  = map without_remaining (purchases_of p d).
Proof.
  unfold purchases_of. simpl. now apply filter_map_commute.
Qed.

Lemma cumulative_qty_asc_without_remaining
    (rows : list inventory_purchase) (r : inventory_purchase) :
  cumulative_qty_asc (map without_remaining rows) (without_remaining r)
  = cumulative_qty_asc rows r.
Proof.
  unfold cumulative_qty_asc. simpl.
  rewrite filter_map_commute by reflexivity. now rewrite map_map.
Qed.

Lemma cumulative_qty_desc_without_remaining
    (rows : list inventory_purchase) (r : inventory_purchase) :
  cumulative_qty_desc (map without_remaining rows) (without_remaining r)
  = cumulative_qty_desc rows r.
Proof.
  unfold cumulative_qty_desc. simpl.
  rewrite filter_map_commute by reflexivity. now rewrite map_map.
Qed.

Lemma ranked_value_without_remaining
    (cumulative_qty : list inventory_purchase -> inventory_purchase -> Z)
    (method : string) (p : product) (d : db) :
  (forall rows r,
      cumulative_qty (map without_remaining rows) (without_remaining r)
      = cumulative_qty rows r) ->
  ranked_value cumulative_qty method p
    (with_inventory_purchases d (map without_remaining (inventory_purchases d)))
  = ranked_value cumulative_qty method p d.
Proof.
  intros Hcum. unfold ranked_value. rewrite purchases_of_without_remaining.
  rewrite map_map.
  rewrite (map_ext
             (fun x => allocated_cost (p_stock p)
                         (cumulative_qty (map without_remaining (purchases_of p d))
                                         (without_remaining x))
                         (without_remaining x))
             (fun r => allocated_cost (p_stock p)
                         (cumulative_qty (purchases_of p d) r) r)).
  - reflexivity.
  - intros r. now rewrite Hcum.
Qed.

Lemma average_value_without_remaining (p : product) (d : db) :
  average_value p
    (with_inventory_purchases d (map without_remaining (inventory_purchases d)))
  = average_value p d.
Proof.
  unfold average_value. rewrite purchases_of_without_remaining, !map_map. simpl.
  now destruct (purchases_of p d).
Qed.

Lemma calculate_inventory_value_without_remaining (d : db) :
  calculate_inventory_value
    (with_inventory_purchases d (map without_remaining (inventory_purchases d)))
  = calculate_inventory_value d.
Proof.
  unfold calculate_inventory_value.
  change (get_inventory_valuation_method (with_inventory_purchases d _))
    with (get_inventory_valuation_method d).
  change (products (with_inventory_purchases d _)) with (products d).
  rewrite (filter_ext
             (fun p => match purchases_of p
                               (with_inventory_purchases d
                                  (map without_remaining (inventory_purchases d)))
                       with [] => false | _ => true end)
             (fun p => match purchases_of p d with [] => false | _ => true end)).
  - destruct (String.eqb _ "FIFO").
    + apply map_ext. intros p. apply ranked_value_without_remaining.
      apply cumulative_qty_asc_without_remaining.
    + destruct (String.eqb _ "LIFO").
      * apply map_ext. intros p. apply ranked_value_without_remaining.
        apply cumulative_qty_desc_without_remaining.
      * apply map_ext. intros p. apply average_value_without_remaining.
  - intros p. rewrite purchases_of_without_remaining. now destruct (purchases_of p d).
Qed.

(** [calculate_inventory_value] does not read [remaining_quantity]: two
    ledgers that differ in that column only are valued alike, under every
    method. *)
Lemma valuation_ignores_remaining_quantity (d : db) (tbl : list inventory_purchase) :
  map without_remaining tbl = map without_remaining (inventory_purchases d) ->
  calculate_inventory_value (with_inventory_purchases d tbl)
  = calculate_inventory_value d.
Proof.
  intros H.
  rewrite <- (calculate_inventory_value_without_remaining d).
  rewrite <- (calculate_inventory_value_without_remaining (with_inventory_purchases d tbl)).
  simpl. unfold with_inventory_purchases at 1 3. simpl. now rewrite H.
Qed.

(** C8, on the code.  The FIFO branch of [calculate_inventory_value] values
    the units in stock at the costs of the oldest purchases and never reads
    [remaining_quantity].  On the history of the valuation guide, once 13
    units are sold oldest first, the unconsumed lots are worth
    12 x 80,000 + 8 x 82,000 = 1,616,000 (the figure the guide gives for
    FIFO), and the FIFO branch reports 10 x 78,000 + 10 x 80,000 =
    1,580,000, which the LIFO branch does not: it reports 1,616,000. *)
Theorem fifo_valuation_uses_the_oldest_costs :
  forall sv : server,
    insert_sale_item sv ValuationExample.sale_of_13 (ValuationExample.purchased "FIFO")
    = Ok (ValuationExample.after_sale "FIFO") /\
    stock_matches_lotsb (ValuationExample.after_sale "FIFO") = true /\
    value_of_unconsumed 100 (inventory_purchases (ValuationExample.after_sale "FIFO"))
    = 161600000 /\
    valuation_of 100 (ValuationExample.after_sale "FIFO") = Some 158000000 /\
    valuation_of 100 (ValuationExample.after_sale "LIFO") = Some 161600000.
Proof.
  intros sv. repeat split.
Qed.

(** ** The consistency invariant *)

Lemma stock_matches_lotsb_spec (d : db) :
  stock_matches_lotsb d = true <-> stock_matches_lots d.
Proof.
  unfold stock_matches_lotsb, stock_matches_lots. rewrite forallb_forall.
  split; intros H p Hp; specialize (H p Hp); now apply Z.eqb_eq.
Qed.

Lemma total_remaining_app (q : Z) (tbl tbl' : list inventory_purchase) :
  total_remaining q (tbl ++ tbl') = total_remaining q tbl + total_remaining q tbl'.
Proof.
  unfold total_remaining. now rewrite filter_app, map_app, sum_Z_app.
Qed.

Lemma total_remaining_one (q : Z) (l : inventory_purchase) :
  total_remaining q [l] = if ip_product_id l =? q then ip_remaining_quantity l else 0.
Proof.
  rewrite total_remaining_cons. unfold total_remaining. simpl. lia.
Qed.

Lemma insert_inventory_purchase_inv (l : inventory_purchase) (d d' : db) :
  insert_inventory_purchase l d = Ok d' ->
  d' = with_inventory_purchases d (inventory_purchases d ++ [l]).
Proof.
  unfold insert_inventory_purchase.
  destruct (purchase_checks l) as [[]|e]; simpl; [|discriminate].
  destruct (has_purchase_id _ _); simpl; [discriminate|]. congruence.
Qed.

Lemma has_product_id_false (i : Z) (tbl : list product) (p : product) :
  has_product_id i tbl = false -> In p tbl -> p_id p <> i.
Proof.
  unfold has_product_id. intros H Hp E.
  assert (existsb (fun p => p_id p =? i) tbl = true) as H'.
  { apply existsb_exists. exists p. split; [exact Hp|now apply Z.eqb_eq]. }
  congruence.
Qed.

Lemma no_lots_of_unknown_product (i : Z) (d : db) :
  Forall (fun l => has_product_id (ip_product_id l) (products d) = true)
         (inventory_purchases d) ->
  has_product_id i (products d) = false ->
  total_remaining i (inventory_purchases d) = 0.
Proof.
  intros Hfk Hnew. unfold total_remaining.
  replace (filter (fun l => ip_product_id l =? i) (inventory_purchases d)) with
    (@nil inventory_purchase); [reflexivity|].
  symmetry. induction Hfk as [|l tbl Hl _ IH]; simpl; [reflexivity|].
  destruct (Z.eqb_spec (ip_product_id l) i) as [E|E]; [|exact IH].
  rewrite E in Hl. congruence.
Qed.

(** Creating a product with its initial lot keeps stock and lots equal. *)
Lemma insert_product_keeps_invariant (sv : server) (NEW : product) (d d' : db) :
  valid_db d -> stock_matches_lots d ->
  insert_product sv NEW d = Ok d' -> stock_matches_lots d'.
Proof.
  intros [_ [_ Hfk]] Hinv. unfold insert_product.
  destruct (0 <=? p_cost NEW); simpl; [|discriminate].
  destruct (Z.leb_spec 0 (p_stock NEW)) as [Hs|Hs]; simpl; [|discriminate].
  destruct (has_product_id (p_id NEW) (products d)) eqn:Hpk; simpl; [discriminate|].
  pose proof (no_lots_of_unknown_product (p_id NEW) d Hfk Hpk) as Hnone.
  unfold record_initial_inventory_purchase.
  destruct (Z.ltb_spec 0 (p_stock NEW)) as [Hpos|Hzero].
  - intros H. apply insert_inventory_purchase_inv in H. subst d'.
    intros p Hp. cbn [products inventory_purchases with_inventory_purchases with_products]
      in Hp |- *.
    rewrite total_remaining_app, total_remaining_one.
    cbn [ip_product_id ip_remaining_quantity].
    apply in_app_or in Hp. destruct Hp as [Hp|[<-|[]]].
    + pose proof (has_product_id_false _ _ _ Hpk Hp) as Hne.
      destruct (Z.eqb_spec (p_id NEW) (p_id p)); [congruence|].
      rewrite (Hinv p Hp). lia.
    + rewrite Z.eqb_refl. lia.
  - intros H. injection H as <-. intros p Hp.
    cbn [products inventory_purchases with_products] in Hp |- *.
    apply in_app_or in Hp. destruct Hp as [Hp|[<-|[]]].
    + now apply Hinv.
    + lia.
Qed.

(** Raising the stock of a product by a plain UPDATE, with the trigger that
    records the lot, keeps stock and lots equal. *)
Lemma stock_increase_keeps_invariant (sv : server) (v_id added : Z) (d d' : db) :
  stock_matches_lots d -> 0 <= added ->
  update_products_stock sv v_id (fun stock => stock + added) d = Ok d' ->
  stock_matches_lots d'.
Proof.
  intros Hinv Hadd. unfold update_products_stock.
  destruct (find_product v_id d) as [OLD|] eqn:Hfind; [|intros H; now injection H as <-].
  apply find_some in Hfind. destruct Hfind as [_ Hid]. apply Z.eqb_eq in Hid.
  destruct (check _ _) as [[]|e]; simpl; [|discriminate].
  unfold record_inventory_purchase. simpl.
  assert (Hrows : forall d0 p,
             products d0 = map (fun p => if p_id p =? v_id
                                         then set_stock p (p_stock p + added) else p)
                               (products d) ->
             (forall q, total_remaining q (inventory_purchases d0)
                        = total_remaining q (inventory_purchases d)
                          + (if v_id =? q then added else 0)) ->
             In p (products d0) ->
             total_remaining (p_id p) (inventory_purchases d0) = p_stock p).
  { intros d0 p Hps Htot Hp. rewrite Hps in Hp. apply in_map_iff in Hp.
    destruct Hp as [p0 [<- Hp0]]. rewrite Htot.
    destruct (Z.eqb_spec (p_id p0) v_id) as [E|E]; simpl.
    - rewrite E, Z.eqb_refl. rewrite <- E at 1. rewrite (Hinv p0 Hp0). reflexivity.
    - destruct (Z.eqb_spec v_id (p_id p0)); [congruence|].
      rewrite (Hinv p0 Hp0). lia. }
  destruct (Z.ltb_spec (p_stock OLD) (p_stock OLD + added)) as [Hlt|Hge].
  - intros H. apply insert_inventory_purchase_inv in H. subst d'.
    intros p Hp. apply Hrows; [reflexivity| |exact Hp].
    intros q. simpl. rewrite total_remaining_app, total_remaining_one. simpl.
    rewrite Hid. destruct (v_id =? q); lia.
  - intros H. injection H as <-.
    intros p Hp. apply Hrows; [reflexivity| |exact Hp].
    intros q. simpl. assert (added = 0) as -> by lia. destruct (v_id =? q); lia.
Qed.

(** Recording a sale line (cost computation, allocation against the lots,
    stock decrement) keeps stock and lots equal. *)
Lemma sale_keeps_invariant (sv : server) (NEW : sale_item) (d d' : db) :
  valid_ledger (inventory_purchases d) -> stock_matches_lots d ->
  insert_sale_item sv NEW d = Ok d' -> stock_matches_lots d'.
Proof.
  intros Hv Hinv. unfold insert_sale_item, check_and_allocate_inventory.
  destruct (find_product _ d) as [p|] eqn:Hfind; simpl; [|discriminate].
  destruct (p_stock p <? si_quantity NEW); simpl; [discriminate|].
  destruct (calculate_sale_cost d _ _) as [cost|e]; simpl; [|discriminate].
  destruct (si_quantity NEW =? 0); simpl; [discriminate|].
  destruct (allocate_inventory_on_sale _ _ d) as [d2|e] eqn:Halloc; simpl; [|discriminate].
  destruct (update_products_stock _ _ _ d2) as [d3|e] eqn:Hupd; simpl; [|discriminate].
  unfold sale_item_checks. simpl.
  destruct (Z.ltb_spec 0 (si_quantity NEW)) as [Hq|Hq]; simpl; [|discriminate].
  destruct (check (0 <=? si_unit_price NEW) _) as [[]|e]; simpl; [|discriminate].
  destruct (check (0 <=? unit_cost_for_sale _ _) _) as [[]|e]; simpl; [|discriminate].
  destruct (check (0 <=? si_subtotal NEW) _) as [[]|e]; simpl; [|discriminate].
  destruct (has_sale_item_id _ _); simpl; [discriminate|].
  intros H. injection H as <-.
  destruct (allocate_inventory_on_sale_spec d (si_product_id NEW) (si_quantity NEW) Hv)
    as [Hfail Hok]; [lia|].
  destruct (Z.lt_ge_cases (total_unconsumed (si_product_id NEW) (inventory_purchases d))
                          (si_quantity NEW)) as [Hlt|Hge].
  { rewrite (Hfail Hlt) in Halloc. discriminate. }
  destruct (Hok Hge) as [tbl' [Hrun [_ [_ [_ Htot]]]]].
  rewrite Hrun in Halloc. injection Halloc as <-.
  unfold update_products_stock in Hupd.
  change (find_product (si_product_id NEW) (with_inventory_purchases d tbl'))
    with (find_product (si_product_id NEW) d) in Hupd.
  rewrite Hfind in Hupd.
  destruct (check _ _) as [[]|e]; simpl in Hupd; [|discriminate].
  unfold record_inventory_purchase in Hupd. simpl in Hupd.
  destruct (Z.ltb_spec (p_stock p) (p_stock p - si_quantity NEW)); [lia|].
  injection Hupd as <-. simpl.
  intros p' Hp'. simpl in Hp' |- *. apply in_map_iff in Hp'.
  destruct Hp' as [p0 [<- Hp0]]. rewrite Htot.
  destruct (Z.eqb_spec (p_id p0) (si_product_id NEW)) as [E|E]; simpl.
  - rewrite E, Z.eqb_refl. rewrite <- E at 1. rewrite (Hinv p0 Hp0). reflexivity.
  - destruct (Z.eqb_spec (p_id p0) (si_product_id NEW)); [congruence|].
    rewrite (Hinv p0 Hp0). lia.
Qed.

(** C1, on the code.  The invariant holds before the restock and not
    after: on a database with the stock-increase trigger, the manual
    fallback of [updateProductStock] raises the stock of product 100 from 5
    to 8 and leaves three lots holding 5 + 3 + 3 = 11 units, one lot of 3
    from the trigger of its UPDATE and one from its own INSERT; no error is
    thrown.  The RPC path, when deployed, ends the same way. *)
Theorem restock_counts_the_units_twice :
  stock_matches_lots RestockExample.five_in_stock /\
  snd (RestockExample.restock_3 false) = None /\
  stock_of 100 (fst (RestockExample.restock_3 false)) = Some 8 /\
  map ip_remaining_quantity (inventory_purchases (fst (RestockExample.restock_3 false)))
  = [5; 3; 3] /\
  total_remaining 100 (inventory_purchases (fst (RestockExample.restock_3 false))) = 11 /\
  ~ stock_matches_lots (fst (RestockExample.restock_3 false)) /\
  ~ stock_matches_lots (fst (RestockExample.restock_3 true)).
Proof.
  split; [now apply stock_matches_lotsb_spec|].
  repeat split.
  - intros H. apply stock_matches_lotsb_spec in H. discriminate.
  - intros H. apply stock_matches_lotsb_spec in H. discriminate.
Qed.


(** ** What the insert of a sale line accepts *)

(** The trigger leaves every column of the line but [cost_price] as the
    client sent it. *)
Lemma check_and_allocate_inventory_line
    (sv : server) (NEW NEW' : sale_item) (d d' : db) :
  check_and_allocate_inventory sv NEW d = Ok (NEW', d') ->
  NEW' = set_cost_price NEW (si_cost_price NEW').
Proof.
  unfold check_and_allocate_inventory.
  destruct (find_product _ d) as [p|]; simpl; [|discriminate].
  destruct (p_stock p <? si_quantity NEW); simpl; [discriminate|].
  destruct (calculate_sale_cost d _ _) as [cost|e]; simpl; [|discriminate].
  destruct (si_quantity NEW =? 0); simpl; [discriminate|].
  destruct (allocate_inventory_on_sale _ _ d) as [d2|e]; simpl; [|discriminate].
  destruct (update_products_stock _ _ _ d2) as [d3|e]; simpl; [|discriminate].
  intros H. injection H as <- <-. reflexivity.
Qed.

Lemma insert_sale_item_quantity (sv : server) (NEW : sale_item) (d d' : db) :
  insert_sale_item sv NEW d = Ok d' -> 0 < si_quantity NEW.
Proof.
  unfold insert_sale_item.
  destruct (check_and_allocate_inventory sv NEW d) as [[NEW' d2]|e] eqn:Htrigger;
    simpl; [|discriminate].
  apply check_and_allocate_inventory_line in Htrigger.
  unfold sale_item_checks. rewrite Htrigger. simpl.
  destruct (Z.ltb_spec 0 (si_quantity NEW)); [auto|discriminate].
Qed.

(** X5.  What a recorded sale line says of the database it was recorded
    in, on a ledger whose rows satisfy their constraints: the product
    existed, the quantity was positive and covered by the stock counter and
    by the lots, the cost function returned; and the database afterwards is
    the one before with the stock lowered by the quantity, the lots
    consumed in the order of the policy and the line appended with the unit
    cost of that moment. *)
Theorem recorded_sale_line (sv : server) (NEW : sale_item) (d d' : db) :
  valid_ledger (inventory_purchases d) ->
  insert_sale_item sv NEW d = Ok d' ->
  exists p cost,
    find_product (si_product_id NEW) d = Some p /\
    0 < si_quantity NEW <= p_stock p /\
    si_quantity NEW <= total_unconsumed (si_product_id NEW) (inventory_purchases d) /\
    0 <= si_unit_price NEW /\ 0 <= si_subtotal NEW /\
    has_sale_item_id (si_id NEW) (sale_items d) = false /\
    calculate_sale_cost d (si_product_id NEW) (si_quantity NEW) = Ok cost /\
    d' = after_sale_line NEW cost d.
Proof.
  intros Hv Hins. pose proof (insert_sale_item_quantity sv NEW d d' Hins) as Hq.
  assert (Hp : exists p, find_product (si_product_id NEW) d = Some p
                         /\ si_quantity NEW <= p_stock p).
  { revert Hins. unfold insert_sale_item, check_and_allocate_inventory.
    destruct (find_product _ d) as [p|]; simpl; [|discriminate].
    destruct (Z.ltb_spec (p_stock p) (si_quantity NEW)); simpl; [discriminate|].
    intros _. now exists p. }
  destruct Hp as [p [Hfind Hstock]].
  rewrite (insert_sale_item_in_stock sv NEW d p Hv Hfind) in Hins by lia.
  destruct (calculate_sale_cost d _ _) as [cost|e]; simpl in Hins; [|discriminate].
  destruct (Z.ltb_spec (total_unconsumed (si_product_id NEW) (inventory_purchases d))
                       (si_quantity NEW)); [discriminate|].
  destruct (Z.leb_spec 0 (si_unit_price NEW)); simpl in Hins; [|discriminate].
  destruct (Z.leb_spec 0 (si_subtotal NEW)); simpl in Hins; [|discriminate].
  destruct (has_sale_item_id _ _) eqn:Hfresh; simpl in Hins; [discriminate|].
  injection Hins as <-. exists p, cost. repeat split; auto; lia.
Qed.

(** The sale of 8 units of the example under FIFO. *)
Lemma recorded_sale_line_witness :
  exists d',
    insert_sale_item (mk_server 0 0) Example.sale_of_8 (Example.two_lots "FIFO") = Ok d' /\
    d' = after_sale_line Example.sale_of_8 8600 (Example.two_lots "FIFO").
Proof.
  eexists. split; [reflexivity|].
  destruct (recorded_sale_line (mk_server 0 0) Example.sale_of_8 (Example.two_lots "FIFO")
              _ (example_ledger_valid "FIFO") eq_refl)
    as [p [cost [_ [_ [_ [_ [_ [_ [Hcost ->]]]]]]]]].
  injection Hcost as <-. reflexivity.
Defined.


Lemma example_stock_matches_lots (policy : string) :
  stock_matches_lots (Example.two_lots policy).
Proof. now apply stock_matches_lotsb_spec. Qed.


(** X7.  A sale line whose quantity is zero or negative is never recorded,
    whatever the tables hold: the statement raises and leaves the database
    as it was. *)
Theorem sale_of_nothing_is_refused (sv : server) (NEW : sale_item) (d : db) :
  si_quantity NEW <= 0 ->
  exists e, insert_sale_item sv NEW d = Raise e /\
            run (insert_sale_item sv NEW) d = (d, Some e).
Proof.
  intros Hq. unfold run.
  destruct (insert_sale_item sv NEW d) as [d'|e] eqn:Hins.
  - apply insert_sale_item_quantity in Hins. lia.
  - now exists e.
Qed.

(** Minus three units of the example: the trigger alone would add them to
    the newest lot and to the stock; the CHECK on [quantity] refuses the
    line. *)
Lemma sale_of_nothing_is_refused_witness :
  insert_sale_item (mk_server 9 9) (mk_sale_item 500 900 100 (-3) 1500 1200 0)
    (with_inventory_purchases (Example.two_lots "LIFO")
       [Example.L1; set_remaining_quantity Example.L2 2])
  = Raise (check_violation "sale_items_quantity_check").
Proof.
  destruct (sale_of_nothing_is_refused (mk_server 9 9)
              (mk_sale_item 500 900 100 (-3) 1500 1200 0)
              (with_inventory_purchases (Example.two_lots "LIFO")
                 [Example.L1; set_remaining_quantity Example.L2 2]))
    as [e [He _]].
  - simpl. lia.
  - rewrite He. vm_compute in He. symmetry. exact He.
Defined.


(** ** Restocking through [updateProductStock] *)

Lemma has_purchase_id_app (i : Z) (tbl tbl' : list inventory_purchase) :
  has_purchase_id i (tbl ++ tbl') = has_purchase_id i tbl || has_purchase_id i tbl'.
Proof. unfold has_purchase_id. apply existsb_app. Qed.

(** An UPDATE that raises the stock of a product: the rows of the product
    get the new stock and the trigger appends a lot of the difference. *)
Lemma update_products_stock_raise (sv : server) (v_id : Z) (f : Z -> Z) (d : db)
    (p : product) :
  find_product v_id d = Some p ->
  0 <= p_stock p < f (p_stock p) -> 0 <= p_cost p ->
  has_purchase_id (uuid_generate_v4 sv) (inventory_purchases d) = false ->
  update_products_stock sv v_id f d
  = Ok (mk_db (map (fun x => if p_id x =? v_id then set_stock x (f (p_stock x)) else x)
                   (products d))
              (inventory_purchases d
               ++ [mk_purchase (uuid_generate_v4 sv) v_id
                     (f (p_stock p) - p_stock p) (p_cost p)
                     (f (p_stock p) - p_stock p) (now sv) None
                     "Stock added via inventory update"])
              (sale_items d) (system_settings d)).
Proof.
  intros Hfind Hs Hc Hfresh. unfold update_products_stock. rewrite Hfind. simpl.
  destruct (find_product_some _ _ _ Hfind) as [_ Hid].
  destruct (Z.leb_spec 0 (f (p_stock p))); [|lia]. simpl.
  unfold record_inventory_purchase. simpl.
  destruct (Z.ltb_spec (p_stock p) (f (p_stock p))); [|lia].
  unfold insert_inventory_purchase. cbn [inventory_purchases with_products].
  rewrite purchase_checks_ok by (unfold valid_purchase; simpl; lia).
  simpl. rewrite Hfresh. simpl. rewrite Hid. reflexivity.
Qed.

(** The two statements both restocking paths run when the amount is
    positive: the UPDATE of the stock, whose trigger records a lot, and an
    INSERT of a lot of the same size. *)
Lemma restock_statements (sv sv' : server) (f : Z -> Z) (purchased_at : Z)
    (user : option Z) (id additionalStock : Z) (d : db) (p : product) :
  find_product id d = Some p ->
  0 <= p_stock p -> 0 <= p_cost p -> 0 < additionalStock ->
  f (p_stock p) = p_stock p + additionalStock ->
  has_purchase_id (uuid_generate_v4 sv) (inventory_purchases d) = false ->
  has_purchase_id (uuid_generate_v4 sv') (inventory_purchases d) = false ->
  uuid_generate_v4 sv <> uuid_generate_v4 sv' ->
  exists d1 d2,
    update_products_stock sv id f d = Ok d1 /\
    insert_inventory_purchase
      (mk_purchase (uuid_generate_v4 sv') id additionalStock (p_cost p)
                   additionalStock purchased_at user
                   "Stock added via inventory management") d1 = Ok d2 /\
    stock_of id d2 = Some (p_stock p + additionalStock) /\
    map ip_remaining_quantity (inventory_purchases d2)
    = map ip_remaining_quantity (inventory_purchases d)
      ++ [additionalStock; additionalStock] /\
    total_remaining id (inventory_purchases d2)
    = total_remaining id (inventory_purchases d) + 2 * additionalStock.
Proof.
  intros Hfind Hs Hc Ha Hf Hfresh Hfresh' Hne.
  destruct (find_product_some _ _ _ Hfind) as [_ Hid].
  eexists. eexists. split; [|split; [|split; [|split]]].
  - apply (update_products_stock_raise sv id f d p); auto. lia.
  - unfold insert_inventory_purchase. cbn [inventory_purchases].
    rewrite purchase_checks_ok by (unfold valid_purchase; simpl; lia).
    simpl. rewrite has_purchase_id_app, Hfresh'. simpl.
    destruct (Z.eqb_spec (uuid_generate_v4 sv) (uuid_generate_v4 sv')); [contradiction|].
    simpl. reflexivity.
  - unfold stock_of, find_product. simpl.
    rewrite find_product_map by (intros x; now destruct (p_id x =? id)).
    fold (find_product id d). rewrite Hfind. simpl.
    rewrite Hid, Z.eqb_refl. simpl. now rewrite Hf.
  - simpl. rewrite <- app_assoc, map_app. simpl. rewrite Hf.
    repeat f_equal; lia.
  - cbn [inventory_purchases with_inventory_purchases].
    rewrite !total_remaining_app, !total_remaining_one.
    cbn [ip_product_id ip_remaining_quantity]. rewrite Z.eqb_refl, Hf. lia.
Qed.

(** With primary keys, the product the RPC reads is the product of that
    id, if it is active. *)
Lemma find_active_product (id : Z) (d : db) (p : product) :
  NoDup (map p_id (products d)) ->
  find_product id d = Some p ->
  find (fun x => (p_id x =? id) && p_is_active x) (products d)
  = if p_is_active p then Some p else None.
Proof.
  unfold find_product. induction (products d) as [|x l IH]; simpl; [discriminate|].
  intros Hnd. inversion Hnd as [|? ? Hn Hd]; subst.
  destruct (Z.eqb_spec (p_id x) id) as [E|E]; simpl.
  - intros H. injection H as ->. destruct (p_is_active p) eqn:Hact; [reflexivity|].
    assert (Hnone : forall l', ~ In id (map p_id l') ->
                               find (fun x => (p_id x =? id) && p_is_active x) l' = None).
    { induction l' as [|y l' IH']; simpl; intros Hy; [reflexivity|].
      destruct (Z.eqb_spec (p_id y) id); [tauto|]. simpl. apply IH'. tauto. }
    apply Hnone. now rewrite <- E.
  - intros H. now apply IH.
Qed.

(** X9.  A restock of a positive amount is recorded twice, on either
    path.  When the product exists with valid columns and the ids the
    server draws for the new lots are fresh and distinct,
    [updateProductStock] throws nothing, raises the stock by the amount and
    leaves two new lots of that amount each: one from the trigger of the
    UPDATE, one from the INSERT that follows it (in [add_product_stock] when
    the RPC is deployed and the product active, in the client's fallback
    otherwise).  So where stock and lots agreed before, they do not
    after. *)
Theorem restock_is_recorded_twice
    (rpc_deployed : bool) (sv_rpc sv_rpc' sv_update sv_insert : server)
    (date_now : Z) (user : option Z) (id additionalStock : Z) (d : db) (p : product) :
  NoDup (map p_id (products d)) ->
  find_product id d = Some p ->
  0 <= p_stock p -> 0 <= p_cost p -> 0 < additionalStock ->
  has_purchase_id (uuid_generate_v4 sv_rpc) (inventory_purchases d) = false ->
  has_purchase_id (uuid_generate_v4 sv_rpc') (inventory_purchases d) = false ->
  uuid_generate_v4 sv_rpc <> uuid_generate_v4 sv_rpc' ->
  has_purchase_id (uuid_generate_v4 sv_update) (inventory_purchases d) = false ->
  has_purchase_id (uuid_generate_v4 sv_insert) (inventory_purchases d) = false ->
  uuid_generate_v4 sv_update <> uuid_generate_v4 sv_insert ->
  let after :=
    updateProductStock rpc_deployed sv_rpc sv_rpc' sv_update sv_insert date_now user
                       id additionalStock d in
  snd after = None /\
  stock_of id (fst after) = Some (p_stock p + additionalStock) /\
  map ip_remaining_quantity (inventory_purchases (fst after))
  = map ip_remaining_quantity (inventory_purchases d)
    ++ [additionalStock; additionalStock] /\
  total_remaining id (inventory_purchases (fst after))
  = total_remaining id (inventory_purchases d) + 2 * additionalStock /\
  (stock_matches_lots d -> ~ stock_matches_lots (fst after)).
Proof.
  intros Hnd Hfind Hs Hc Ha Hr Hr' Hrne Hu Hi Hune after.
  assert (Hends : forall d2,
             stock_of id d2 = Some (p_stock p + additionalStock) ->
             total_remaining id (inventory_purchases d2)
             = total_remaining id (inventory_purchases d) + 2 * additionalStock ->
             stock_matches_lots d -> ~ stock_matches_lots d2).
  { intros d2 Hstock Htotal Hinv Hinv2.
    unfold stock_of in Hstock.
    destruct (find_product id d2) as [p2|] eqn:Hfind2; [|discriminate].
    injection Hstock as Hstock.
    destruct (find_product_some _ _ _ Hfind2) as [Hin2 Hid2].
    destruct (find_product_some _ _ _ Hfind) as [Hin Hid].
    pose proof (Hinv2 p2 Hin2) as H2. pose proof (Hinv p Hin) as H1.
    rewrite Hid2 in H2. rewrite Hid in H1. lia. }
  assert (Hfallback :
            let r := updateProductStock false sv_rpc sv_rpc' sv_update sv_insert
                       date_now user id additionalStock d in
            snd r = None /\
            stock_of id (fst r) = Some (p_stock p + additionalStock) /\
            map ip_remaining_quantity (inventory_purchases (fst r))
            = map ip_remaining_quantity (inventory_purchases d)
              ++ [additionalStock; additionalStock] /\
            total_remaining id (inventory_purchases (fst r))
            = total_remaining id (inventory_purchases d) + 2 * additionalStock).
  { destruct (restock_statements sv_update sv_insert
                (fun _ => p_stock p + additionalStock) date_now user id additionalStock
                d p Hfind Hs Hc Ha eq_refl Hu Hi Hune)
      as [d1 [d2 [Hupd [Hins [Hstock [Hlots Htotal]]]]]].
    unfold updateProductStock, run. rewrite Hfind, Hupd, Hins. simpl. auto. }
  assert (Hgoal : snd after = None /\
                  stock_of id (fst after) = Some (p_stock p + additionalStock) /\
                  map ip_remaining_quantity (inventory_purchases (fst after))
                  = map ip_remaining_quantity (inventory_purchases d)
                    ++ [additionalStock; additionalStock] /\
                  total_remaining id (inventory_purchases (fst after))
                  = total_remaining id (inventory_purchases d) + 2 * additionalStock).
  { unfold after. destruct rpc_deployed; [|exact Hfallback].
    destruct (p_is_active p) eqn:Hact.
    - destruct (restock_statements sv_rpc sv_rpc'
                  (fun stock => stock + additionalStock) (now sv_rpc') user id
                  additionalStock d p Hfind Hs Hc Ha eq_refl Hr Hr' Hrne)
        as [d1 [d2 [Hupd [Hins [Hstock [Hlots Htotal]]]]]].
      unfold updateProductStock, run, add_product_stock.
      destruct (Z.ltb_spec 0 additionalStock); [|lia]. simpl.
      rewrite (find_active_product id d p Hnd Hfind), Hact, Hupd. simpl.
      rewrite Hins. simpl. auto.
    - assert (Hrpc : add_product_stock sv_rpc sv_rpc' id additionalStock user d
                     = Raise (product_not_found_or_inactive id)).
      { unfold add_product_stock.
        destruct (Z.ltb_spec 0 additionalStock); [|lia]. simpl.
        now rewrite (find_active_product id d p Hnd Hfind), Hact. }
      revert Hfallback. unfold updateProductStock, run. rewrite Hrpc. auto. }
  destruct Hgoal as [G1 [G2 [G3 G4]]]. repeat split; auto.
Qed.

(** Three units added to the five of the example, with the RPC deployed. *)
Lemma restock_is_recorded_twice_witness :
  stock_of 100 (fst (RestockExample.restock_3 true)) = Some 8 /\
  total_remaining 100 (inventory_purchases (fst (RestockExample.restock_3 true))) = 11.
Proof.
  destruct (restock_is_recorded_twice true
              (mk_server 2 20) (mk_server 3 20) (mk_server 2 20) (mk_server 3 21) 21
              (Some 7) 100 3 RestockExample.five_in_stock (mk_product 100 1000 5 true 0))
    as [_ [Hstock [_ [Htotal _]]]]; try reflexivity; try (simpl; lia); try discriminate.
  - simpl. repeat constructor. simpl. tauto.
  - split; [exact Hstock|exact Htotal].
Defined.

(** X10.  An amount that is zero or negative is not refused by
    [updateProductStock]: the RPC raises, the fallback takes over, its
    UPDATE sets the stock to the sum when that is not negative (the trigger
    does not fire), the INSERT of the lot fails the CHECK on [quantity] and
    the error is dropped.  Nothing is thrown, no lot changes, and the stock
    has moved by the amount. *)
Theorem restock_of_a_negative_amount
    (rpc_deployed : bool) (sv_rpc sv_rpc' sv_update sv_insert : server)
    (date_now : Z) (user : option Z) (id additionalStock : Z) (d : db) (p : product) :
  find_product id d = Some p ->
  additionalStock <= 0 ->
  updateProductStock rpc_deployed sv_rpc sv_rpc' sv_update sv_insert date_now user
                     id additionalStock d
  = if 0 <=? p_stock p + additionalStock
    then (with_products d
            (map (fun x => if p_id x =? id
                           then set_stock x (p_stock p + additionalStock) else x)
                 (products d)),
          None)
    else (d, Some (failed_to_update_stock (check_violation "products_stock_check"))).
Proof.
  intros Hfind Ha.
  assert (Hrpc : run (add_product_stock sv_rpc sv_rpc' id additionalStock user) d
                 = (d, Some cannot_add_zero_or_negative_stock)).
  { unfold run, add_product_stock.
    destruct (Z.ltb_spec 0 additionalStock); [lia|]. reflexivity. }
  assert (Hfallback :
            updateProductStock false sv_rpc sv_rpc' sv_update sv_insert date_now user
                               id additionalStock d
            = if 0 <=? p_stock p + additionalStock
              then (with_products d
                      (map (fun x => if p_id x =? id
                                     then set_stock x (p_stock p + additionalStock) else x)
                           (products d)),
                    None)
              else (d, Some (failed_to_update_stock
                               (check_violation "products_stock_check")))).
  { unfold updateProductStock. rewrite Hfind.
    unfold run at 1, update_products_stock. rewrite Hfind. simpl.
    destruct (0 <=? p_stock p + additionalStock); simpl; [|reflexivity].
    unfold record_inventory_purchase. simpl.
    destruct (Z.ltb_spec (p_stock p) (p_stock p + additionalStock)); [lia|].
    unfold run, insert_inventory_purchase, purchase_checks. simpl.
    destruct (Z.ltb_spec 0 additionalStock); [lia|]. reflexivity. }
  destruct rpc_deployed; [|exact Hfallback].
  revert Hfallback. unfold updateProductStock. rewrite Hrpc. auto.
Qed.

(** Minus two units on the five of the example: the stock reads 3, the
    lot still holds 5, no error. *)
Lemma restock_of_a_negative_amount_witness :
  let after :=
    updateProductStock true (mk_server 2 20) (mk_server 3 20) (mk_server 2 20)
      (mk_server 3 21) 21 (Some 7) 100 (-2) RestockExample.five_in_stock in
  snd after = None /\
  stock_of 100 (fst after) = Some 3 /\
  total_remaining 100 (inventory_purchases (fst after)) = 5.
Proof.
  cbv zeta.
  rewrite (restock_of_a_negative_amount true (mk_server 2 20) (mk_server 3 20)
             (mk_server 2 20) (mk_server 3 21) 21 (Some 7) 100 (-2)
             RestockExample.five_in_stock (mk_product 100 1000 5 true 0) eq_refl).
  - repeat split.
  - lia.
Defined.

(** ** The databases the statements lead to *)

Lemma has_product_id_map (f : product -> product) (i : Z) (tbl : list product) :
  (forall x, p_id (f x) = p_id x) ->
  has_product_id i (map f tbl) = has_product_id i tbl.
Proof.
  intros Hid. unfold has_product_id. induction tbl as [|x tbl IH]; simpl; [reflexivity|].
  now rewrite Hid, IH.
Qed.

Lemma has_purchase_id_false (i : Z) (tbl : list inventory_purchase) :
  has_purchase_id i tbl = false -> ~ In i (map ip_id tbl).
Proof.
  unfold has_purchase_id. intros H Hin. apply in_map_iff in Hin.
  destruct Hin as [l [E Hl]].
  assert (existsb (fun l => ip_id l =? i) tbl = true) as H'.
  { apply existsb_exists. exists l. split; [exact Hl|now apply Z.eqb_eq]. }
  congruence.
Qed.

Lemma NoDup_snoc {A : Type} (l : list A) (x : A) :
  NoDup l -> ~ In x l -> NoDup (l ++ [x]).
Proof.
  intros Hnd Hx. apply NoDup_app; [exact Hnd|repeat constructor; simpl; tauto|].
  intros y Hy [<-|[]]. contradiction.
Qed.

Lemma insert_inventory_purchase_valid (l : inventory_purchase) (d d' : db) :
  valid_db d ->
  has_product_id (ip_product_id l) (products d) = true ->
  insert_inventory_purchase l d = Ok d' -> valid_db d'.
Proof.
  intros [Hp [[Hnd Hall] Hfk]] Hl. unfold insert_inventory_purchase.
  destruct (purchase_checks l) as [[]|e] eqn:Hchecks; simpl; [|discriminate].
  destruct (has_purchase_id _ _) eqn:Hfresh; simpl; [discriminate|].
  intros H. injection H as <-. split; [exact Hp|]. split; [split|]; simpl.
  - rewrite map_app. apply NoDup_snoc; [exact Hnd|].
    now apply has_purchase_id_false.
  - apply Forall_app. split; [exact Hall|]. constructor; [|constructor].
    now apply purchase_checks_valid.
  - apply Forall_app. split; [exact Hfk|]. now repeat constructor.
Qed.

Lemma insert_product_valid (sv : server) (NEW : product) (d d' : db) :
  valid_db d -> insert_product sv NEW d = Ok d' -> valid_db d'.
Proof.
  intros [Hp [Hv Hfk]]. unfold insert_product.
  destruct (0 <=? p_cost NEW); simpl; [|discriminate].
  destruct (0 <=? p_stock NEW); simpl; [|discriminate].
  destruct (has_product_id (p_id NEW) (products d)) eqn:Hpk; simpl; [discriminate|].
  assert (Hmid : valid_db (with_products d (products d ++ [NEW]))).
  { split; [|split]; simpl.
    - rewrite map_app. apply NoDup_snoc; [exact Hp|].
      intros Hin. apply in_map_iff in Hin. destruct Hin as [x [E Hx]].
      now apply (has_product_id_false _ _ x Hpk Hx).
    - exact Hv.
    - eapply Forall_impl; [|exact Hfk]. intros l Hl. simpl in Hl.
      unfold has_product_id in *. rewrite existsb_app, Hl. reflexivity. }
  unfold record_initial_inventory_purchase.
  destruct (0 <? p_stock NEW); [|intros H; now injection H as <-].
  apply insert_inventory_purchase_valid; [exact Hmid|]. simpl.
  unfold has_product_id. rewrite existsb_app. simpl. rewrite Z.eqb_refl.
  now rewrite orb_true_r.
Qed.

Lemma update_products_stock_valid (sv : server) (v_id : Z) (f : Z -> Z) (d d' : db) :
  valid_db d -> update_products_stock sv v_id f d = Ok d' -> valid_db d'.
Proof.
  intros [Hp [Hv Hfk]]. unfold update_products_stock.
  destruct (find_product v_id d) as [OLD|] eqn:Hfind; [|intros H; now injection H as <-].
  destruct (find_product_some _ _ _ Hfind) as [Hin Hid].
  destruct (check _ _) as [[]|e]; simpl; [|discriminate].
  set (rows := map _ (products d)).
  assert (Hids : forall i, has_product_id i rows = has_product_id i (products d)).
  { intros i. apply has_product_id_map. intros x. now destruct (p_id x =? v_id). }
  assert (Hmid : valid_db (with_products d rows)).
  { split; [|split]; simpl.
    - unfold rows. rewrite map_map.
      rewrite (map_ext _ p_id); [exact Hp|]. intros x. now destruct (p_id x =? v_id).
    - exact Hv.
    - eapply Forall_impl; [|exact Hfk]. intros l Hl. simpl in Hl. now rewrite Hids. }
  unfold record_inventory_purchase. simpl.
  destruct (p_stock OLD <? f (p_stock OLD)); [|intros H; now injection H as <-].
  apply insert_inventory_purchase_valid; [exact Hmid|]. simpl.
  rewrite Hids. unfold has_product_id. apply existsb_exists. exists OLD.
  split; [exact Hin|]. apply Z.eqb_refl.
Qed.

Lemma allocate_inventory_on_sale_valid (product_id quantity : Z) (d d' : db) :
  valid_db d -> 0 <= quantity ->
  allocate_inventory_on_sale product_id quantity d = Ok d' -> valid_db d'.
Proof.
  intros [Hp [Hv Hfk]] Hq Hrun.
  destruct (allocate_inventory_on_sale_spec d product_id quantity Hv Hq) as [Hfail Hok].
  destruct (Z.lt_ge_cases (total_unconsumed product_id (inventory_purchases d)) quantity)
    as [Hlt|Hge].
  { rewrite (Hfail Hlt) in Hrun. discriminate. }
  destruct (Hok Hge) as [tbl' [Hrun' [Hv' [_ [Hpids _]]]]].
  rewrite Hrun' in Hrun. injection Hrun as <-.
  split; [exact Hp|]. split; [exact Hv'|]. simpl.
  apply Forall_forall. intros l Hl.
  assert (In (ip_product_id l) (map ip_product_id (inventory_purchases d))) as Hin
      by (rewrite <- Hpids; now apply in_map).
  apply in_map_iff in Hin. destruct Hin as [l0 [E Hl0]].
  rewrite Forall_forall in Hfk. rewrite <- E. now apply Hfk.
Qed.

Lemma insert_sale_item_valid (sv : server) (NEW : sale_item) (d d' : db) :
  valid_db d -> insert_sale_item sv NEW d = Ok d' -> valid_db d'.
Proof.
  intros Hv Hins. pose proof (insert_sale_item_quantity sv NEW d d' Hins) as Hq.
  revert Hins. unfold insert_sale_item, check_and_allocate_inventory.
  destruct (find_product _ d) as [p|]; simpl; [|discriminate].
  destruct (p_stock p <? si_quantity NEW); simpl; [discriminate|].
  destruct (calculate_sale_cost d _ _) as [cost|e]; simpl; [|discriminate].
  destruct (si_quantity NEW =? 0); simpl; [discriminate|].
  destruct (allocate_inventory_on_sale _ _ d) as [d2|e] eqn:Halloc; simpl; [|discriminate].
  destruct (update_products_stock _ _ _ d2) as [d3|e] eqn:Hupd; simpl; [|discriminate].
  destruct (sale_item_checks _) as [[]|e]; simpl; [|discriminate].
  destruct (has_sale_item_id _ _); simpl; [discriminate|].
  intros H. injection H as <-.
  apply allocate_inventory_on_sale_valid in Halloc; [|exact Hv|lia].
  apply update_products_stock_valid in Hupd; [|exact Halloc].
  exact Hupd.
Qed.

(** An UPDATE that does not lower the stock, with the trigger that records
    the lot, keeps stock and lots equal. *)
Lemma stock_raise_keeps_invariant (sv : server) (v_id : Z) (f : Z -> Z) (d d' : db) :
  stock_matches_lots d -> (forall stock, stock <= f stock) ->
  update_products_stock sv v_id f d = Ok d' ->
  stock_matches_lots d'.
Proof.
  intros Hinv Hf. unfold update_products_stock.
  destruct (find_product v_id d) as [OLD|] eqn:Hfind; [|intros H; now injection H as <-].
  destruct (find_product_some _ _ _ Hfind) as [Hin Hid].
  destruct (check _ _) as [[]|e]; simpl; [|discriminate].
  unfold record_inventory_purchase. simpl.
  pose proof (Hinv OLD Hin) as Hold. rewrite Hid in Hold.
  assert (Hrows : forall d0 p,
             products d0 = map (fun p => if p_id p =? v_id
                                         then set_stock p (f (p_stock p)) else p)
                               (products d) ->
             (forall q, total_remaining q (inventory_purchases d0)
                        = total_remaining q (inventory_purchases d)
                          + (if v_id =? q then f (p_stock OLD) - p_stock OLD else 0)) ->
             In p (products d0) ->
             total_remaining (p_id p) (inventory_purchases d0) = p_stock p).
  { intros d0 p Hps Htot Hp. rewrite Hps in Hp. apply in_map_iff in Hp.
    destruct Hp as [p0 [<- Hp0]]. rewrite Htot.
    pose proof (Hinv p0 Hp0) as H0.
    destruct (Z.eqb_spec (p_id p0) v_id) as [E|E]; simpl.
    - rewrite E, Z.eqb_refl. rewrite E in H0.
      assert (p_stock p0 = p_stock OLD) as -> by lia. lia.
    - destruct (Z.eqb_spec v_id (p_id p0)); [congruence|]. lia. }
  destruct (Z.ltb_spec (p_stock OLD) (f (p_stock OLD))) as [Hlt|Hge].
  - intros H. apply insert_inventory_purchase_inv in H. subst d'.
    intros p Hp. apply Hrows; [reflexivity| |exact Hp].
    intros q. simpl. rewrite total_remaining_app, total_remaining_one. simpl.
    rewrite Hid. destruct (v_id =? q); lia.
  - intros H. injection H as <-.
    intros p Hp. apply Hrows; [reflexivity| |exact Hp].
    intros q. simpl. pose proof (Hf (p_stock OLD)). destruct (v_id =? q); lia.
Qed.



(** ** What the valuation report sees *)

Lemma without_remaining_after_allocation (rows tbl : list inventory_purchase) (need : Z) :
  map without_remaining (map (after_allocation rows need) tbl)
  = map without_remaining tbl.
Proof.
  rewrite map_map. apply map_ext. intros l. reflexivity.
Qed.

(** X12.  The valuation report does not see an allocation: consuming units
    from the lots, with the stock counter as it is, leaves every row of
    [calculate_inventory_value] as it was, under every method. *)
Theorem allocation_is_invisible_to_valuation (d d' : db) (product_id quantity : Z) :
  valid_ledger (inventory_purchases d) -> 0 <= quantity ->
  allocate_inventory_on_sale product_id quantity d = Ok d' ->
  calculate_inventory_value d' = calculate_inventory_value d.
Proof.
  intros Hv Hq Hrun.
  destruct (allocated_ledger d d' product_id quantity Hv Hq Hrun) as [_ ->].
  apply valuation_ignores_remaining_quantity.
  apply without_remaining_after_allocation.
Qed.

Lemma guide_ledger_valid (method : string) :
  valid_ledger (inventory_purchases (ValuationExample.purchased method)).
Proof.
  split; simpl.
  - repeat constructor; simpl; intuition discriminate.
  - repeat constructor; simpl; lia.
Qed.

(** Thirteen units allocated on the purchases of the guide: the report
    still values all 33 units of the stock counter. *)
Lemma allocation_is_invisible_to_valuation_witness :
  exists d',
    allocate_inventory_on_sale 100 13 (ValuationExample.purchased "FIFO") = Ok d' /\
    map ip_remaining_quantity (inventory_purchases d') = [0; 12; 8] /\
    calculate_inventory_value d'
    = calculate_inventory_value (ValuationExample.purchased "FIFO").
Proof.
  eexists. split; [reflexivity|]. split; [reflexivity|].
  apply (allocation_is_invisible_to_valuation (ValuationExample.purchased "FIFO") _ 100 13
           (guide_ledger_valid "FIFO")); [lia|reflexivity].
Defined.

Lemma find_none_by_id (product_id : Z) (rows : list inventory_value) :
  (forall v, In v rows -> iv_product_id v <> product_id) ->
  find (fun v => iv_product_id v =? product_id) rows = None.
Proof.
  induction rows as [|v rows IH]; simpl; intros H; [reflexivity|].
  destruct (Z.eqb_spec (iv_product_id v) product_id) as [E|E].
  - exfalso. now apply (H v (or_introl eq_refl)).
  - apply IH. intros x Hx. apply H. now right.
Qed.

Lemma purchases_of_none (p : product) (d : db) :
  (forall l, In l (inventory_purchases d) -> ip_product_id l <> p_id p) ->
  purchases_of p d = [].
Proof.
  intros H. unfold purchases_of.
  induction (inventory_purchases d) as [|l tbl IH]; simpl; [reflexivity|].
  destruct (Z.eqb_spec (ip_product_id l) (p_id p)) as [E|E].
  - exfalso. now apply (H l (or_introl eq_refl)).
  - apply IH. intros x Hx. apply H. now right.
Qed.

Lemma find_first_by_id (f : product -> inventory_value) (product_id : Z) (p : product)
    (keep : product -> bool) (tbl : list product) :
  (forall x, iv_product_id (f x) = p_id x) ->
  NoDup (map p_id tbl) ->
  find (fun x => p_id x =? product_id) tbl = Some p -> keep p = true ->
  find (fun v => iv_product_id v =? product_id) (map f (filter keep tbl)) = Some (f p).
Proof.
  intros Hid. induction tbl as [|x tbl IH]; simpl; intros Hnd Hfind Hkeep; [discriminate|].
  inversion Hnd as [|? ? Hn Hd]; subst.
  destruct (Z.eqb_spec (p_id x) product_id) as [E|E].
  - injection Hfind as ->. rewrite Hkeep. simpl. rewrite Hid.
    destruct (Z.eqb_spec (p_id p) product_id); [reflexivity|contradiction].
  - destruct (keep x); simpl; [|now apply IH].
    rewrite Hid. destruct (Z.eqb_spec (p_id x) product_id); [contradiction|].
    now apply IH.
Qed.

(** X13.  A product that has no row in [inventory_purchases] is missing
    from the report under FIFO and under LIFO, whatever its stock; under
    AVERAGE, or any other method value, an active product in stock is
    reported at its stock times the cost of the product row. *)
Theorem valuation_of_a_product_without_purchases (d : db) (p : product) :
  (forall l, In l (inventory_purchases d) -> ip_product_id l <> p_id p) ->
  (get_inventory_valuation_method d = "FIFO" \/ get_inventory_valuation_method d = "LIFO" ->
   valuation_of (p_id p) d = None) /\
  (get_inventory_valuation_method d <> "FIFO" ->
   get_inventory_valuation_method d <> "LIFO" ->
   NoDup (map p_id (products d)) -> find_product (p_id p) d = Some p ->
   p_is_active p = true -> 0 < p_stock p ->
   valuation_of (p_id p) d = Some (p_stock p * p_cost p)).
Proof.
  intros Hnone. split.
  - intros Hmethod. unfold valuation_of.
    rewrite find_none_by_id; [reflexivity|].
    intros v Hv Eid. unfold calculate_inventory_value in Hv.
    assert (Hin : exists x method cumulative,
               In x (filter (fun p => match purchases_of p d with
                                      | [] => false | _ => true end)
                            (filter (fun p => p_is_active p && (0 <? p_stock p))
                                    (products d)))
               /\ v = ranked_value cumulative method x d).
    { destruct Hmethod as [E|E]; rewrite E in Hv; simpl String.eqb in Hv; cbv iota in Hv;
        apply in_map_iff in Hv; destruct Hv as [x [<- Hx]]; eauto. }
    destruct Hin as [x [method [cumulative [Hx ->]]]]. simpl in Eid.
    apply filter_In in Hx. destruct Hx as [_ Hx].
    assert (purchases_of x d = purchases_of p d) as Hsame
        by (unfold purchases_of; now rewrite Eid).
    rewrite Hsame, (purchases_of_none p d Hnone) in Hx. discriminate.
  - intros H1 H2 Hnd Hfind Hact Hstock. unfold valuation_of, calculate_inventory_value.
    apply String.eqb_neq in H1, H2. rewrite H1, H2.
    rewrite (find_first_by_id (fun p => average_value p d) (p_id p) p); auto.
    + simpl. unfold average_value. rewrite (purchases_of_none p d Hnone). simpl.
      f_equal.
      change (inject_Z (p_stock p) * numeric_of_decimal2 (p_cost p))%Q
        with (numeric_of_decimal2 (p_stock p * p_cost p)).
      apply to_decimal2_of_decimal2.
    + rewrite Hact. simpl. now apply Z.ltb_lt.
Qed.

(** Four units at 10.00 and no purchase: no row under FIFO, 40.00 under
    AVERAGE. *)
Lemma valuation_of_a_product_without_purchases_witness :
  valuation_of 100 (UnpurchasedExample.no_purchases "FIFO") = None /\
  valuation_of 100 (UnpurchasedExample.no_purchases "AVERAGE") = Some 4000.
Proof.
  split.
  - apply (valuation_of_a_product_without_purchases
             (UnpurchasedExample.no_purchases "FIFO") (mk_product 100 1000 4 true 0)).
    + intros l [].
    + now left.
  - apply (valuation_of_a_product_without_purchases
             (UnpurchasedExample.no_purchases "AVERAGE") (mk_product 100 1000 4 true 0)).
    + intros l [].
    + discriminate.
    + discriminate.
    + simpl. repeat constructor. simpl. tauto.
    + reflexivity.
    + reflexivity.
    + simpl. lia.
Defined.
